(** * Collection Tracker: the cycle / ledger engine

    A shallow embedding of the SQLite service of the collection tracker
    (the [services/database] module and [importDatabaseFromJSON] of
    [services/export.ts]) together with the properties of its ledger.

    Modelling conventions.
    - A table is the list of its rows in rowid order; an [AUTOINCREMENT]
      key is drawn from the table's [sqlite_sequence] counter.
    - Amounts are whole currency units ([Z]): every caller obtains them with
      [parseInt].  Rounding of SQLite [REAL] is outside the model.
    - The schema's constraints are part of the code: [PRAGMA foreign_keys =
      ON], [UNIQUE(person_id, date)] and [ON DELETE CASCADE] are enforced by
      the statements below.  A failing statement changes nothing; the rows
      written by earlier statements of the same operation stay (the service
      opens no transaction).
    - An operation reads the clock once ([Clock]); [getTodayDate] is the
      [YYYY-MM-DD] prefix and [datetime_now] the value of [datetime('now')].
    - A query without [ORDER BY] yields rows in rowid order, so
      [getFirstAsync] returns the matching row of least rowid. *)

From Stdlib Require Import ZArith List String Bool Lia.
From Stdlib Require Import Ascii Permutation Sorted.
Import ListNotations.
Open Scope string_scope.
Open Scope list_scope.
Open Scope Z_scope.

(** ** Types ([types/index.ts] and the [CREATE TABLE] statements) *)

Inductive CollectionStatus := collected | skipped | pending.

Inductive Frequency := daily | weekly | custom.

Record Person := mkPerson {
  person_id : Z;
  person_name : string;
  person_phone : option string;
  person_location : option string;
  person_photoPath : option string;
  person_defaultAmount : Z;
  person_frequency : Frequency;
  person_notes : option string;
  person_isActive : bool;
  person_createdAt : string;
  person_updatedAt : string
}.

Record Cycle := mkCycle {
  cycle_id : Z;
  cycle_personId : Z;
  cycle_startDate : string;
  cycle_endDate : option string;
  cycle_totalAmount : Z;
  cycle_isActive : bool;
  cycle_withdrawalDate : option string;
  cycle_notes : option string
}.

Record Collection := mkCollection {
  collection_id : Z;
  collection_personId : Z;
  collection_cycleId : Z;
  collection_date : string;
  collection_amount : option Z;
  collection_status : CollectionStatus;
  collection_notes : option string;
  collection_createdAt : string
}.

Record Withdrawal := mkWithdrawal {
  withdrawal_id : Z;
  withdrawal_personId : Z;
  withdrawal_cycleId : Z;
  withdrawal_amount : Z;
  withdrawal_date : string;
  withdrawal_notes : option string
}.

(** The database: four tables and their [sqlite_sequence] counters. *)
Record DB := mkDB {
  people : list Person;
  cycles : list Cycle;
  collections : list Collection;
  withdrawals : list Withdrawal;
  seq_people : Z;
  seq_cycles : Z;
  seq_collections : Z;
  seq_withdrawals : Z
}.

Definition empty_db : DB := mkDB [] [] [] [] 0 0 0 0.

Record Clock := mkClock {
  getTodayDate : string;
  datetime_now : string
}.

(** ** Errors and the state monad of the service *)

Inductive Error := JsError (message : string).

Definition NoActiveCycle : Error := JsError "No active cycle found".
Definition InsufficientBalance : Error :=
  JsError "Withdrawal amount exceeds cycle total".
Definition ForeignKeyFailed : Error := JsError "FOREIGN KEY constraint failed".
Definition UniqueFailed : Error := JsError "UNIQUE constraint failed".
Definition InvalidBackupFormat : Error := JsError "Invalid backup format".

Definition error_message (e : Error) : string :=
  match e with JsError m => m end.

Inductive Outcome (A : Type) :=
| Return (a : A)
| Throw (e : Error).
Arguments Return {A} a.
Arguments Throw {A} e.

(** A computation returns or throws, and in both cases leaves a database. *)
Definition M (A : Type) : Type := DB -> Outcome A * DB.

Definition ret {A} (a : A) : M A := fun db => (Return a, db).

Definition throw {A} (e : Error) : M A := fun db => (Throw e, db).

Definition bind {A B} (m : M A) (k : A -> M B) : M B :=
  fun db =>
    match m db with
    | (Return a, db') => k a db'
    | (Throw e, db') => (Throw e, db')
    end.

Definition try_catch {A} (m : M A) (handler : Error -> M A) : M A :=
  fun db =>
    match m db with
    | (Return a, db') => (Return a, db')
    | (Throw e, db') => handler e db'
    end.

Definition query {A} (q : DB -> A) : M A := fun db => (Return (q db), db).

Definition run_statement (f : DB -> DB) : M unit := fun db => (Return tt, f db).

Declare Scope db_scope.
Delimit Scope db_scope with db.
Notation "x <- m ;; k" := (bind m (fun x => k))
  (at level 61, m at next level, right associativity) : db_scope.
Notation "m ;; k" := (bind m (fun _ => k))
  (at level 61, right associativity) : db_scope.
Open Scope db_scope.

Fixpoint for_each {A} (l : list A) (body : A -> M unit) : M unit :=
  match l with
  | [] => ret tt
  | x :: rest => body x ;; for_each rest body
  end.

(** ** JavaScript coercions used by the service *)

(** [x || 0] on a number that may be [null]/[undefined]. *)
Definition or_zero (x : option Z) : Z :=
  match x with
  | Some n => if n =? 0 then 0 else n
  | None => 0
  end.

(** [s || null] on an optional string: the empty string is falsy. *)
Definition or_null (s : option string) : option string :=
  match s with
  | Some EmptyString => None
  | other => other
  end.

(** [s || d] on an optional string. *)
Definition or_default (s : option string) (d : string) : string :=
  match or_null s with
  | Some v => v
  | None => d
  end.

(** ** Row identifiers *)

Definition max_id (ids : list Z) : Z := fold_right Z.max 0 ids.

(** [AUTOINCREMENT]: one more than the largest rowid the table ever held. *)
Definition next_rowid (seq : Z) (ids : list Z) : Z :=
  Z.max seq (max_id ids) + 1.

Definition person_exists (db : DB) (id : Z) : bool :=
  existsb (fun p => person_id p =? id) (people db).

Definition cycle_exists (db : DB) (id : Z) : bool :=
  existsb (fun c => cycle_id c =? id) (cycles db).

(** ** The SQL statements of the service *)

Definition is_active_cycle_of (personId : Z) (c : Cycle) : bool :=
  (cycle_personId c =? personId) && cycle_isActive c.

Definition is_collection_on (personId : Z) (day : string) (r : Collection) : bool :=
  (collection_personId r =? personId) && (collection_date r =? day)%string.

(** [UPDATE cycles SET ... WHERE id = ?] *)
Definition update_cycles (cycleId : Z) (f : Cycle -> Cycle) (db : DB) : DB :=
  mkDB (people db)
       (map (fun c => if cycle_id c =? cycleId then f c else c) (cycles db))
       (collections db) (withdrawals db)
       (seq_people db) (seq_cycles db) (seq_collections db) (seq_withdrawals db).

Definition add_to_total (delta : Z) (c : Cycle) : Cycle :=
  mkCycle (cycle_id c) (cycle_personId c) (cycle_startDate c) (cycle_endDate c)
          (cycle_totalAmount c + delta) (cycle_isActive c)
          (cycle_withdrawalDate c) (cycle_notes c).

Definition set_total_and_start (total : option Z) (start : option string)
    (c : Cycle) : Cycle :=
  mkCycle (cycle_id c) (cycle_personId c)
          (match start with Some d => d | None => cycle_startDate c end)
          (cycle_endDate c)
          (match total with Some t => t | None => cycle_totalAmount c end)
          (cycle_isActive c) (cycle_withdrawalDate c) (cycle_notes c).

Definition close (clk : Clock) (c : Cycle) : Cycle :=
  mkCycle (cycle_id c) (cycle_personId c) (cycle_startDate c)
          (Some (getTodayDate clk)) (cycle_totalAmount c) false
          (Some (datetime_now clk)) (cycle_notes c).

(** [INSERT INTO people (...) VALUES (...)] *)
Definition insert_person (clk : Clock) (name : string)
    (phone location photoPath : option string) (defaultAmount : Z)
    (frequency : Frequency) (notes : option string) (isActive : bool) : M Z :=
  fun db =>
    let id := next_rowid (seq_people db) (map person_id (people db)) in
    (Return id,
     mkDB (people db ++
             [mkPerson id name phone location photoPath defaultAmount frequency
                       notes isActive (datetime_now clk) (datetime_now clk)])
          (cycles db) (collections db) (withdrawals db)
          id (seq_cycles db) (seq_collections db) (seq_withdrawals db)).

(** [INSERT INTO cycles (person_id, start_date, total_amount, is_active)] *)
Definition insert_cycle (personId : Z) (startDate : string) (total : Z) : M Z :=
  fun db =>
    if person_exists db personId then
      let id := next_rowid (seq_cycles db) (map cycle_id (cycles db)) in
      (Return id,
       mkDB (people db)
            (cycles db ++ [mkCycle id personId startDate None total true None None])
            (collections db) (withdrawals db)
            (seq_people db) id (seq_collections db) (seq_withdrawals db))
    else (Throw ForeignKeyFailed, db).

(** [INSERT OR REPLACE INTO collections]: the row that holds the same
    [(person_id, date)] is deleted and a new row, with a new rowid, stored. *)
Definition insert_or_replace_collection (clk : Clock) (personId cycleId : Z)
    (day : string) (amount : option Z) (status : CollectionStatus)
    (notes : option string) : M unit :=
  fun db =>
    if person_exists db personId && cycle_exists db cycleId then
      let id := next_rowid (seq_collections db)
                           (map collection_id (collections db)) in
      (Return tt,
       mkDB (people db) (cycles db)
            (filter (fun r => negb (is_collection_on personId day r))
                    (collections db) ++
             [mkCollection id personId cycleId day amount status notes
                           (datetime_now clk)])
            (withdrawals db)
            (seq_people db) (seq_cycles db) id (seq_withdrawals db))
    else (Throw ForeignKeyFailed, db).

(** [INSERT INTO collections]: fails on a second row for [(person_id, date)]. *)
Definition insert_collection (clk : Clock) (personId cycleId : Z)
    (day : string) (amount : option Z) (status : CollectionStatus)
    (notes : option string) : M unit :=
  fun db =>
    if person_exists db personId && cycle_exists db cycleId then
      if existsb (is_collection_on personId day) (collections db) then
        (Throw UniqueFailed, db)
      else
        let id := next_rowid (seq_collections db)
                             (map collection_id (collections db)) in
        (Return tt,
         mkDB (people db) (cycles db)
              (collections db ++
               [mkCollection id personId cycleId day amount status notes
                             (datetime_now clk)])
              (withdrawals db)
              (seq_people db) (seq_cycles db) id (seq_withdrawals db))
    else (Throw ForeignKeyFailed, db).

(** [DELETE FROM collections WHERE person_id = ? AND date = ?] *)
Definition delete_collection (personId : Z) (day : string) : M unit :=
  run_statement (fun db =>
    mkDB (people db) (cycles db)
         (filter (fun r => negb (is_collection_on personId day r)) (collections db))
         (withdrawals db)
         (seq_people db) (seq_cycles db) (seq_collections db) (seq_withdrawals db)).

(** [INSERT INTO withdrawals (person_id, cycle_id, amount, date, notes)] *)
Definition insert_withdrawal (personId cycleId amount : Z) (day : string)
    (notes : option string) : M Z :=
  fun db =>
    if person_exists db personId && cycle_exists db cycleId then
      let id := next_rowid (seq_withdrawals db)
                           (map withdrawal_id (withdrawals db)) in
      (Return id,
       mkDB (people db) (cycles db) (collections db)
            (withdrawals db ++ [mkWithdrawal id personId cycleId amount day notes])
            (seq_people db) (seq_cycles db) (seq_collections db) id)
    else (Throw ForeignKeyFailed, db).

(** The four [DELETE FROM <table>] of the restore, with the cascades of the
    schema. *)
Definition delete_all_collections : M unit :=
  run_statement (fun db =>
    mkDB (people db) (cycles db) [] (withdrawals db)
         (seq_people db) (seq_cycles db) (seq_collections db) (seq_withdrawals db)).

Definition delete_all_withdrawals : M unit :=
  run_statement (fun db =>
    mkDB (people db) (cycles db) (collections db) []
         (seq_people db) (seq_cycles db) (seq_collections db) (seq_withdrawals db)).

Definition delete_all_cycles : M unit :=
  run_statement (fun db =>
    mkDB (people db) []
         (filter (fun r => negb (cycle_exists db (collection_cycleId r)))
                 (collections db))
         (filter (fun w => negb (cycle_exists db (withdrawal_cycleId w)))
                 (withdrawals db))
         (seq_people db) (seq_cycles db) (seq_collections db) (seq_withdrawals db)).

Definition delete_all_people : M unit :=
  run_statement (fun db =>
    mkDB []
         (filter (fun c => negb (person_exists db (cycle_personId c))) (cycles db))
         (filter (fun r => negb (person_exists db (collection_personId r)))
                 (collections db))
         (filter (fun w => negb (person_exists db (withdrawal_personId w)))
                 (withdrawals db))
         (seq_people db) (seq_cycles db) (seq_collections db) (seq_withdrawals db)).

(** ** People operations *)

Record NewPerson := mkNewPerson {
  new_name : string;
  new_phone : option string;
  new_location : option string;
  new_photoPath : option string;
  new_defaultAmount : Z;
  new_frequency : Frequency;
  new_notes : option string;
  new_isActive : bool
}.

Definition createCycle (clk : Clock) (personId : Z) : M Z :=
  insert_cycle personId (getTodayDate clk) 0.

Definition addPerson (clk : Clock) (person : NewPerson) : M Z :=
  lastInsertRowId <-
    insert_person clk (new_name person) (or_null (new_phone person))
                  (or_null (new_location person)) (or_null (new_photoPath person))
                  (new_defaultAmount person) (new_frequency person)
                  (or_null (new_notes person)) (new_isActive person) ;;
  createCycle clk lastInsertRowId ;;
  ret lastInsertRowId.

Definition soft_delete (p : Person) : Person :=
  mkPerson (person_id p) (person_name p) (person_phone p) (person_location p)
           (person_photoPath p) (person_defaultAmount p) (person_frequency p)
           (person_notes p) false (person_createdAt p) (person_updatedAt p).

Definition deletePerson (id : Z) : M unit :=
  run_statement (fun db =>
    mkDB (map (fun p => if person_id p =? id then soft_delete p else p) (people db))
         (cycles db) (collections db) (withdrawals db)
         (seq_people db) (seq_cycles db) (seq_collections db) (seq_withdrawals db)).

(** ** Cycle operations *)

Definition getActiveCycle (personId : Z) : M (option Cycle) :=
  query (fun db => find (is_active_cycle_of personId) (cycles db)).

Definition closeCycle (clk : Clock) (cycleId : Z) : M unit :=
  run_statement (update_cycles cycleId (close clk)).

Record CycleUpdates := mkCycleUpdates {
  updates_totalAmount : option Z;
  updates_startDate : option string
}.

Definition updateCycleData (cycleId : Z) (updates : CycleUpdates) : M unit :=
  match updates_totalAmount updates, updates_startDate updates with
  | None, None => ret tt
  | total, start => run_statement (update_cycles cycleId (set_total_and_start total start))
  end.

(** ** Collection operations *)

Definition getTodayCollection (clk : Clock) (personId : Z) : M (option Collection) :=
  query (fun db => find (is_collection_on personId (getTodayDate clk)) (collections db)).

(** [(existingCollection?.status === 'collected' && existingCollection.amount) || 0] *)
Definition collected_amount (existingCollection : option Collection) : Z :=
  match existingCollection with
  | Some r =>
      match collection_status r with
      | collected => or_zero (collection_amount r)
      | _ => 0
      end
  | None => 0
  end.

(** [let cycle = await getActiveCycle(personId); if (!cycle) { ... createCycle ... }],
    of which only [cycle.id] is used afterwards. *)
Definition active_cycle_or_create (clk : Clock) (personId : Z) : M Z :=
  cycle <- getActiveCycle personId ;;
  match cycle with
  | Some c => ret (cycle_id c)
  | None => createCycle clk personId
  end.

Definition recordCollection (clk : Clock) (personId amount : Z)
    (notes : option string) : M unit :=
  let today := getTodayDate clk in
  cycleId <- active_cycle_or_create clk personId ;;
  existingCollection <- getTodayCollection clk personId ;;
  let existingAmount := collected_amount existingCollection in
  insert_or_replace_collection clk personId cycleId today (Some amount) collected
                               (or_null notes) ;;
  let difference := amount - existingAmount in
  run_statement (update_cycles cycleId (add_to_total difference)).

Definition skipCollection (clk : Clock) (personId : Z) (notes : option string)
    : M unit :=
  let today := getTodayDate clk in
  cycleId <- active_cycle_or_create clk personId ;;
  insert_or_replace_collection clk personId cycleId today None skipped (or_null notes).

Definition undoCollection (clk : Clock) (personId : Z) : M unit :=
  let today := getTodayDate clk in
  existingCollection <- getTodayCollection clk personId ;;
  let amountToSubtract := collected_amount existingCollection in
  delete_collection personId today ;;
  if amountToSubtract >? 0 then
    cycle <- getActiveCycle personId ;;
    match cycle with
    | Some c => run_statement (update_cycles (cycle_id c)
                                             (add_to_total (- amountToSubtract)))
    | None => ret tt
    end
  else ret tt.

(** [ORDER BY date DESC], rows of equal date in rowid order. *)
Fixpoint insert_by_date_desc (r : Collection) (sorted : list Collection)
    : list Collection :=
  match sorted with
  | [] => [r]
  | x :: rest =>
      if String.leb (collection_date x) (collection_date r)
      then r :: x :: rest
      else x :: insert_by_date_desc r rest
  end.

Definition order_by_date_desc (rows : list Collection) : list Collection :=
  fold_right insert_by_date_desc [] rows.

Definition getCollectionsByCycle (cycleId : Z) : M (list Collection) :=
  query (fun db =>
    order_by_date_desc
      (filter (fun r => collection_cycleId r =? cycleId) (collections db))).

(** ** Withdrawal operations *)

Definition processWithdrawal (clk : Clock) (personId : Z) (notes : option string)
    : M Z :=
  cycle <- getActiveCycle personId ;;
  match cycle with
  | None => throw NoActiveCycle
  | Some c =>
      lastInsertRowId <-
        insert_withdrawal personId (cycle_id c) (cycle_totalAmount c)
                          (datetime_now clk) (or_null notes) ;;
      closeCycle clk (cycle_id c) ;;
      createCycle clk personId ;;
      ret lastInsertRowId
  end.

Definition processPartialWithdrawal (clk : Clock) (personId amount : Z)
    (notes : option string) : M Z :=
  cycle <- getActiveCycle personId ;;
  match cycle with
  | None => throw NoActiveCycle
  | Some c =>
      if amount >? cycle_totalAmount c then throw InsufficientBalance
      else
        lastInsertRowId <-
          insert_withdrawal personId (cycle_id c) amount (datetime_now clk)
                            (Some (or_default notes "Partial withdrawal")) ;;
        run_statement (update_cycles (cycle_id c) (add_to_total (- amount))) ;;
        ret lastInsertRowId
  end.

(** ** Manual adjustment screen ([app/person/adjust/[id].tsx])

    [handleSave] with its text fields given by what the code parses out of
    them: [amount] is [parseInt(totalAmount)] ([None] for [NaN]) and
    [isoDate] the converted start date ([None] when the format test or the
    conversion fails). *)
Definition handleSave (cycle : option Cycle) (amount : option Z)
    (isoDate : option string) : M unit :=
  match cycle with
  | None => ret tt
  | Some c =>
      match amount with
      | None => ret tt
      | Some n =>
          if n <? 0 then ret tt
          else
            match isoDate with
            | None => ret tt
            | Some d =>
                updateCycleData (cycle_id c) (mkCycleUpdates (Some n) (Some d))
            end
      end
  end.

(** ** Backup restore ([services/export.ts]) *)

(** One entry of the [people] array of a backup, as [exportDatabaseAsJSON]
    writes it: the person's fields, then [activeCycle], [cycles],
    [withdrawals] and [collections]. *)
Record PersonData := mkPersonData {
  data_person : Person;
  data_activeCycle : option Cycle;
  data_cycles : list Cycle;
  data_withdrawals : option (list Withdrawal);
  data_collections : option (list Collection)
}.

(** The parsed backup; [backup_people] is [None] when [data.people] is
    missing or not an array. *)
Record BackupData := mkBackupData {
  backup_exportDate : string;
  backup_appVersion : string;
  backup_people : option (list PersonData)
}.

Definition import_person (clk : Clock) (personData : PersonData) : M unit :=
  let p := data_person personData in
  newPersonId <-
    insert_person clk (person_name p) (or_null (person_phone p))
                  (or_null (person_location p)) (or_null (person_photoPath p))
                  (or_zero (Some (person_defaultAmount p))) (person_frequency p)
                  (or_null (person_notes p)) true ;;
  let cycleStartDate :=
    or_default (option_map cycle_startDate (data_activeCycle personData))
               (getTodayDate clk) in
  let cycleTotal :=
    or_zero (option_map cycle_totalAmount (data_activeCycle personData)) in
  newCycleId <- insert_cycle newPersonId cycleStartDate cycleTotal ;;
  match data_collections personData with
  | Some rows =>
      for_each rows (fun collection =>
        insert_collection clk newPersonId newCycleId (collection_date collection)
                          (Some (or_zero (collection_amount collection)))
                          (collection_status collection)
                          (or_null (collection_notes collection)))
  | None => ret tt
  end ;;
  match data_withdrawals personData with
  | Some rows =>
      for_each rows (fun withdrawal =>
        insert_withdrawal newPersonId newCycleId
                          (or_zero (Some (withdrawal_amount withdrawal)))
                          (or_default (Some (withdrawal_date withdrawal))
                                      (getTodayDate clk))
                          (or_null (withdrawal_notes withdrawal)) ;;
        ret tt)
  | None => ret tt
  end.

Fixpoint import_people (clk : Clock) (rest : list PersonData) (imported : Z)
    : M Z :=
  match rest with
  | [] => ret imported
  | personData :: rest' =>
      import_person clk personData ;;
      import_people clk rest' (imported + 1)
  end.

Definition importDatabaseFromJSON (clk : Clock) (data : BackupData) : M Z :=
  try_catch
    (match backup_people data with
     | None => throw InvalidBackupFormat
     | Some persons =>
         delete_all_collections ;;
         delete_all_withdrawals ;;
         delete_all_cycles ;;
         delete_all_people ;;
         import_people clk persons 0
     end)
    (fun error =>
       throw (JsError ("Failed to import backup: " ++ error_message error)%string)).

(** ** Sequences of engine operations *)

Inductive Op :=
| OpAddPerson (person : NewPerson)
| OpRecordCollection (personId amount : Z) (notes : option string)
| OpSkipCollection (personId : Z) (notes : option string)
| OpUndoCollection (personId : Z)
| OpProcessWithdrawal (personId : Z) (notes : option string)
| OpProcessPartialWithdrawal (personId amount : Z) (notes : option string)
| OpDeletePerson (id : Z).

(** The database an operation leaves, whether it returned or threw. *)
Definition step (clk : Clock) (op : Op) (db : DB) : DB :=
  match op with
  | OpAddPerson person => snd (addPerson clk person db)
  | OpRecordCollection p a n => snd (recordCollection clk p a n db)
  | OpSkipCollection p n => snd (skipCollection clk p n db)
  | OpUndoCollection p => snd (undoCollection clk p db)
  | OpProcessWithdrawal p n => snd (processWithdrawal clk p n db)
  | OpProcessPartialWithdrawal p a n => snd (processPartialWithdrawal clk p a n db)
  | OpDeletePerson id => snd (deletePerson id db)
  end.

(** The databases after each step of a sequence, the clock read per step. *)
Fixpoint trace (ops : list (Clock * Op)) (db : DB) : list DB :=
  match ops with
  | [] => []
  | (clk, op) :: rest => step clk op db :: trace rest (step clk op db)
  end.

(** ** State predicates *)

Definition active_cycles_of (db : DB) (personId : Z) : list Cycle :=
  filter (is_active_cycle_of personId) (cycles db).

(** At most one active cycle per person. *)
Definition one_active_cycle (db : DB) : Prop :=
  forall personId, (List.length (active_cycles_of db personId) <= 1)%nat.

(** The foreign key [cycles.person_id -> people.id], which SQLite maintains. *)
Definition cycles_reference_people (db : DB) : Prop :=
  forall c, In c (cycles db) -> person_exists db (cycle_personId c) = true.

Definition totals_nonnegative (db : DB) : Prop :=
  forall c, In c (cycles db) -> 0 <= cycle_totalAmount c.

Definition collections_on (db : DB) (personId : Z) (day : string) : list Collection :=
  filter (is_collection_on personId day) (collections db).

Definition nonnegative_amount (op : Op) : Prop :=
  match op with
  | OpRecordCollection _ amount _ => 0 <= amount
  | _ => True
  end.

(** The amount the ledger counts for a person today: what both
    [recordCollection] and [undoCollection] read before they write. *)
Definition counted_today (clk : Clock) (personId : Z) (db : DB) : Z :=
  collected_amount
    (find (is_collection_on personId (getTodayDate clk)) (collections db)).

(** The state the schema and the engine maintain together. *)
Definition ledger_consistent (db : DB) : Prop :=
  one_active_cycle db /\ cycles_reference_people db.

(** An action keeps [I] when the database it leaves satisfies [I] whenever
    the one it started from did, whether it returned or threw. *)
Definition keeps (I : DB -> Prop) {A} (m : M A) : Prop :=
  forall db, I db -> I (snd (m db)).

(** ** Sample data *)

Definition sample_clock : Clock := mkClock "2025-01-01" "2025-01-01 10:00:00".

Definition sample_person : NewPerson :=
  mkNewPerson "A" None None None 200 daily None true.

(** One person, number 1, with the cycle [addPerson] opens. *)
Definition db_one_person : DB := snd (addPerson sample_clock sample_person empty_db).

(** The same after 100 was collected today. *)
Definition db_collected_100 : DB :=
  snd (recordCollection sample_clock 1 100 None db_one_person).


(** A day of operations on person 1 and a second registration. *)
Definition sample_ops : list (Clock * Op) :=
  [ (sample_clock, OpRecordCollection 1 100 None);
    (sample_clock, OpProcessWithdrawal 1 None);
    (sample_clock, OpAddPerson sample_person);
    (sample_clock, OpUndoCollection 1);
    (sample_clock, OpProcessPartialWithdrawal 1 10 None);
    (sample_clock, OpDeletePerson 2) ].

(** Collect 100, withdraw those 100 partially, then undo today's collection. *)
Definition overdrawing_ops : list (Clock * Op) :=
  [ (sample_clock, OpRecordCollection 1 100 None);
    (sample_clock, OpProcessPartialWithdrawal 1 100 None);
    (sample_clock, OpUndoCollection 1) ].

(** A backup of one person with a closed cycle (id 1: 100 collected on
    2025-01-01 and withdrawn) and the active cycle (id 2: 50 collected on
    2025-01-02), in the order [exportDatabaseAsJSON] lists them. *)
Definition sample_backup : BackupData :=
  mkBackupData "2025-01-02T10:00:00.000Z" "1.0.0"
    (Some
       [mkPersonData
          (mkPerson 1 "A" None None None 200 daily None true
                    "2025-01-01 10:00:00" "2025-01-01 10:00:00")
          (Some (mkCycle 2 1 "2025-01-01" None 50 true None None))
          [mkCycle 1 1 "2025-01-01" (Some "2025-01-01") 100 false
                   (Some "2025-01-01 18:00:00") None;
           mkCycle 2 1 "2025-01-01" None 50 true None None]
          (Some [mkWithdrawal 1 1 1 100 "2025-01-01 18:00:00" None])
          (Some [mkCollection 2 1 2 "2025-01-02" (Some 50) collected None
                              "2025-01-02 09:00:00";
                 mkCollection 1 1 1 "2025-01-01" (Some 100) collected None
                              "2025-01-01 09:00:00"])]).

Definition restore_clock : Clock := mkClock "2025-01-03" "2025-01-03 08:00:00".

(** * The rest of the service and its callers *)

(** ** JavaScript strings

    A string is its sequence of bytes (UTF-8).  The functions below only
    test for ASCII digits and the hyphen and only cut strings made of such
    characters, so bytes and UTF-16 code units give the same results. *)

Definition is_digit (c : Ascii.ascii) : bool :=
  (48 <=? Ascii.nat_of_ascii c)%nat && (Ascii.nat_of_ascii c <=? 57)%nat.

(** [s.replace(/\D/g, '')] and [s.replace(/[^0-9]/g, '')] *)
Fixpoint remove_non_digits (s : string) : string :=
  match s with
  | EmptyString => EmptyString
  | String c rest =>
      if is_digit c then String c (remove_non_digits rest)
      else remove_non_digits rest
  end.

(** [s.startsWith(p)] *)
Fixpoint startsWith (s p : string) {struct p} : bool :=
  match p, s with
  | EmptyString, _ => true
  | String _ _, EmptyString => false
  | String a p', String b s' => Ascii.eqb a b && startsWith s' p'
  end.

(** [s.slice(a, b)] and [s.slice(a)] for [0 <= a <= b] *)
Definition slice (a b : nat) (s : string) : string := substring a (b - a) s.

Definition slice_from (a : nat) (s : string) : string :=
  substring a (String.length s - a) s.

(** [s.split('-')] *)
Fixpoint split_on_hyphen (s : string) : list string :=
  match s with
  | EmptyString => [EmptyString]
  | String c rest =>
      if Ascii.eqb c "-"%char then EmptyString :: split_on_hyphen rest
      else
        match split_on_hyphen rest with
        | piece :: pieces => String c piece :: pieces
        | [] => [String c EmptyString]
        end
  end.

(** An array element inside a template literal: [undefined] prints its name. *)
Definition template (part : option string) : string :=
  match part with
  | Some s => s
  | None => "undefined"
  end.

(** ** SMS service: [formatPhoneNumber] *)

Definition formatPhoneNumber (phone : string) : string :=
  let digits := remove_non_digits phone in
  if startsWith digits "91" && (String.length digits =? 12)%nat
  then ("+" ++ digits)%string
  else if (String.length digits =? 10)%nat
  then ("+91" ++ digits)%string
  else phone.

(** ** Withdrawal screen: [handleDateChange], the new value of [tillDate] *)

Definition handleDateChange (text : string) : string :=
  let cleaned := remove_non_digits text in
  let formatted := cleaned in
  let formatted :=
    if (2 <? String.length cleaned)%nat
    then (slice 0 2 cleaned ++ "-" ++ slice_from 2 cleaned)%string
    else formatted in
  let formatted :=
    if (4 <? String.length cleaned)%nat
    then (slice 0 5 formatted ++ "-" ++ slice_from 4 cleaned)%string
    else formatted in
  let formatted :=
    if (10 <? String.length formatted)%nat
    then slice 0 10 formatted
    else formatted in
  formatted.

(** ** Adjust screen: the start date between display and storage *)

(** [/^\d{2}-\d{2}-\d{4}$/.test(s)] *)
Definition is_display_date (s : string) : bool :=
  match s with
  | String d1 (String d2 (String h1 (String m1 (String m2 (String h2
      (String y1 (String y2 (String y3 (String y4 EmptyString))))))))) =>
      is_digit d1 && is_digit d2 && Ascii.eqb h1 "-"%char &&
      is_digit m1 && is_digit m2 && Ascii.eqb h2 "-"%char &&
      is_digit y1 && is_digit y2 && is_digit y3 && is_digit y4
  | _ => false
  end.

Definition toDisplayDate (isoDate : string) : string :=
  let parts := split_on_hyphen isoDate in
  let year := nth_error parts 0 in
  let month := nth_error parts 1 in
  let day := nth_error parts 2 in
  (template day ++ "-" ++ template month ++ "-" ++ template year)%string.

Definition toStorageDate (displayDate : string) : option string :=
  let parts := split_on_hyphen displayDate in
  if negb (List.length parts =? 3)%nat then None
  else
    let day := nth_error parts 0 in
    let month := nth_error parts 1 in
    let year := nth_error parts 2 in
    Some (template year ++ "-" ++ template month ++ "-" ++ template day)%string.

(** The start date [handleSave] passes on: the field must look like
    [DD-MM-YYYY] and convert. *)
Definition start_date_to_store (startDate : string) : option string :=
  if is_display_date startDate then toStorageDate startDate else None.

(** Strings of ASCII digits only. *)
Fixpoint all_digits (s : string) : bool :=
  match s with
  | EmptyString => true
  | String c rest => is_digit c && all_digits rest
  end.

(** Strings without a hyphen. *)
Fixpoint no_hyphen (s : string) : bool :=
  match s with
  | EmptyString => true
  | String c rest => negb (Ascii.eqb c "-"%char) && no_hyphen rest
  end.

(** [pieces.join('-')] *)
Fixpoint join_hyphen (pieces : list string) : string :=
  match pieces with
  | [] => EmptyString
  | [p] => p
  | p :: rest => (p ++ "-" ++ join_hyphen rest)%string
  end.

(** ** Queries of the service *)

(** [ORDER BY]: insertion in rowid order, [precedes r x] telling that [r]
    may stand before [x]; rows of equal key stay in rowid order. *)
Fixpoint insert_sorted {A} (precedes : A -> A -> bool) (r : A) (sorted : list A)
    : list A :=
  match sorted with
  | [] => [r]
  | x :: rest =>
      if precedes r x then r :: x :: rest
      else x :: insert_sorted precedes r rest
  end.

Definition order_by {A} (precedes : A -> A -> bool) (rows : list A) : list A :=
  fold_right (insert_sorted precedes) [] rows.

(** [COALESCE(SUM(amount), 0)]: a [NULL] amount adds nothing. *)
Definition sum_amounts (rows : list Collection) : Z :=
  fold_right (fun r acc =>
                match collection_amount r with
                | Some a => a + acc
                | None => acc
                end) 0 rows.

Definition is_collected (r : Collection) : bool :=
  match collection_status r with
  | collected => true
  | _ => false
  end.

Definition getAllPeople : M (list Person) :=
  query (fun db =>
    order_by (fun r x => String.leb (person_name r) (person_name x))
             (filter person_isActive (people db))).

Definition getPersonById (id : Z) : M (option Person) :=
  query (fun db => find (fun p => person_id p =? id) (people db)).

Record PersonUpdates := mkPersonUpdates {
  updates_name : option string;
  updates_phone : option string;
  updates_location : option string;
  updates_photoPath : option string;
  updates_defaultAmount : option Z;
  updates_frequency : option Frequency;
  updates_notes : option string;
  updates_isActive : option bool
}.

Definition apply_person_updates (clk : Clock) (u : PersonUpdates) (p : Person)
    : Person :=
  mkPerson (person_id p)
    (match updates_name u with Some v => v | None => person_name p end)
    (match updates_phone u with Some v => Some v | None => person_phone p end)
    (match updates_location u with Some v => Some v | None => person_location p end)
    (match updates_photoPath u with Some v => Some v | None => person_photoPath p end)
    (match updates_defaultAmount u with Some v => v | None => person_defaultAmount p end)
    (match updates_frequency u with Some v => v | None => person_frequency p end)
    (match updates_notes u with Some v => Some v | None => person_notes p end)
    (match updates_isActive u with Some v => v | None => person_isActive p end)
    (person_createdAt p) (datetime_now clk).

Definition updatePerson (clk : Clock) (id : Z) (updates : PersonUpdates) : M unit :=
  run_statement (fun db =>
    mkDB (map (fun p => if person_id p =? id
                        then apply_person_updates clk updates p else p)
              (people db))
         (cycles db) (collections db) (withdrawals db)
         (seq_people db) (seq_cycles db) (seq_collections db) (seq_withdrawals db)).

Definition getCyclesByPerson (personId : Z) : M (list Cycle) :=
  query (fun db =>
    order_by (fun r x => String.leb (cycle_startDate x) (cycle_startDate r))
             (filter (fun c => cycle_personId c =? personId) (cycles db))).

Definition getWithdrawalsByPerson (personId : Z) : M (list Withdrawal) :=
  query (fun db =>
    order_by (fun r x => String.leb (withdrawal_date x) (withdrawal_date r))
             (filter (fun w => withdrawal_personId w =? personId) (withdrawals db))).

Definition getAllCollectionsForPerson (personId : Z) : M (list Collection) :=
  query (fun db =>
    order_by_date_desc
      (filter (fun r => collection_personId r =? personId) (collections db))).

Definition in_date_range (personId : Z) (startDate endDate : string)
    (r : Collection) : bool :=
  (collection_personId r =? personId) &&
  String.leb startDate (collection_date r) &&
  String.leb (collection_date r) endDate.

Definition getCollectionsByDateRange (personId : Z) (startDate endDate : string)
    : M (list Collection) :=
  query (fun db =>
    order_by_date_desc
      (filter (in_date_range personId startDate endDate) (collections db))).

Definition getCollectionsTotalByDate (personId : Z) (startDate endDate : string)
    : M Z :=
  query (fun db =>
    or_zero (Some (sum_amounts
      (filter (fun r => in_date_range personId startDate endDate r
                        && is_collected r)
              (collections db))))).

(** The sum the ledger holds for a cycle: its collected rows. *)
Definition collected_sum (cycleId : Z) (db : DB) : Z :=
  sum_amounts
    (filter (fun r => (collection_cycleId r =? cycleId) && is_collected r)
            (collections db)).

Definition updateCycleTotal (cycleId : Z) : M unit :=
  run_statement (fun db =>
    update_cycles cycleId
      (set_total_and_start (Some (collected_sum cycleId db)) None) db).

(** ** Dashboard *)

Record PersonWithTodayStatus := mkPersonWithTodayStatus {
  row_id : Z;
  row_name : string;
  row_phone : option string;
  row_location : option string;
  row_photoPath : option string;
  row_defaultAmount : Z;
  row_frequency : Frequency;
  row_notes : option string;
  row_todayStatus : CollectionStatus;
  row_todayAmount : option Z;
  row_cycleTotal : Z;
  row_cycleId : option Z
}.

(** The right side of a [LEFT JOIN]: the matching rows, or one [NULL] row. *)
Definition left_join {B} (matching : list B) : list (option B) :=
  match matching with
  | [] => [None]
  | _ => map Some matching
  end.

Definition joined_row (p : Person) (c : option Collection) (cy : option Cycle)
    : PersonWithTodayStatus :=
  mkPersonWithTodayStatus
    (person_id p) (person_name p) (person_phone p) (person_location p)
    (person_photoPath p) (person_defaultAmount p) (person_frequency p)
    (person_notes p)
    (match c with Some r => collection_status r | None => pending end)
    (match c with Some r => collection_amount r | None => None end)
    (match cy with Some x => cycle_totalAmount x | None => 0 end)
    (option_map cycle_id cy).

Definition status_rank (s : CollectionStatus) : Z :=
  match s with
  | pending => 0
  | collected => 1
  | skipped => 2
  end.

Definition status_precedes (r x : PersonWithTodayStatus) : bool :=
  (status_rank (row_todayStatus r) <? status_rank (row_todayStatus x)) ||
  ((status_rank (row_todayStatus r) =? status_rank (row_todayStatus x)) &&
   String.leb (row_name r) (row_name x)).

Definition joined_rows (clk : Clock) (db : DB) (p : Person)
    : list PersonWithTodayStatus :=
  flat_map (fun c =>
              map (joined_row p c)
                  (left_join (active_cycles_of db (person_id p))))
           (left_join (collections_on db (person_id p) (getTodayDate clk))).

Definition getPeopleWithTodayStatus (clk : Clock) : M (list PersonWithTodayStatus) :=
  query (fun db =>
    order_by status_precedes
      (flat_map (joined_rows clk db) (filter person_isActive (people db)))).

Record DashboardSummary := mkDashboardSummary {
  todayCollected : Z;
  todayCount : Z;
  pendingCount : Z;
  pendingEstimate : Z;
  monthTotal : Z
}.

Definition is_pending_today (clk : Clock) (db : DB) (p : Person) : bool :=
  person_isActive p &&
  negb (existsb (is_collection_on (person_id p) (getTodayDate clk))
                (collections db)).

(** [getDashboardSummary]; [strftime_Ym] stands for SQLite's
    [strftime('%Y-%m', date)] and [month] for what [getCurrentMonth] reads
    off the local clock. *)
Definition getDashboardSummary (strftime_Ym : string -> option string)
    (clk : Clock) (month : string) : M DashboardSummary :=
  query (fun db =>
    let todayRows :=
      filter (fun r => (collection_date r =? getTodayDate clk)%string
                       && is_collected r)
             (collections db) in
    let pendingPeople := filter (is_pending_today clk db) (people db) in
    let monthRows :=
      filter (fun r =>
                match strftime_Ym (collection_date r) with
                | Some m => (m =? month)%string
                | None => false
                end && is_collected r)
             (collections db) in
    mkDashboardSummary
      (or_zero (Some (sum_amounts todayRows)))
      (or_zero (Some (Z.of_nat (List.length todayRows))))
      (or_zero (Some (Z.of_nat (List.length pendingPeople))))
      (or_zero (Some (fold_right (fun p acc => person_defaultAmount p + acc) 0
                                 pendingPeople)))
      (or_zero (Some (sum_amounts monthRows)))).

(** ** Settings

    The [settings] table ([key TEXT PRIMARY KEY, value TEXT]) shares no
    statement with the ledger tables; it is modelled as a state of its own. *)

Definition SettingsTable : Type := list (string * option string).

(** [INSERT OR REPLACE INTO settings (key, value) VALUES (?, ?)] *)
Definition setSetting (key value : string) (settings : SettingsTable)
    : SettingsTable :=
  filter (fun row => negb (fst row =? key)%string) settings ++ [(key, Some value)].

(** [row?.value || null] of [SELECT value FROM settings WHERE key = ?] *)
Definition getSetting (key : string) (settings : SettingsTable) : option string :=
  match find (fun row => (fst row =? key)%string) settings with
  | Some row => or_null (snd row)
  | None => None
  end.

(** ** Backup export ([services/export.ts]) *)

Fixpoint export_people (persons : list Person) : M (list PersonData) :=
  match persons with
  | [] => ret []
  | person :: rest =>
      cycle <- getActiveCycle (person_id person) ;;
      withdrawals <- getWithdrawalsByPerson (person_id person) ;;
      cycles <- getCyclesByPerson (person_id person) ;;
      collections <- getAllCollectionsForPerson (person_id person) ;;
      others <- export_people rest ;;
      ret (mkPersonData person cycle cycles (Some withdrawals) (Some collections)
           :: others)
  end.

(** The [allData] that [exportDatabaseAsJSON] serializes; [exportDate] is
    the [toISOString] of the moment. *)
Definition exportDatabaseAsJSON (exportDate : string) : M BackupData :=
  persons <- getAllPeople ;;
  data <- export_people persons ;;
  ret (mkBackupData exportDate "1.0.0" (Some data)).

(** ** Withdrawal screen: [handleConfirmWithdrawal] *)

Inductive WithdrawalType := full | partial.

Inductive ScreenResult :=
| Ignored
| Alerted (title message : string)
| Processed.

(** An awaited promise that touches no data: it resolves or rejects. *)
Definition await {A} (promise : Outcome A) : M A := fun db => (promise, db).

(** [feedback] is how the [try] block goes on once the service call has
    returned: the awaited [Haptics.notificationAsync] and, after it, the
    start of the success animation.  None of it touches the database; it
    completes, or it throws and the [catch] reports a failure. *)
Definition handleConfirmWithdrawal (clk : Clock) (feedback : Outcome unit)
    (person : option Person) (cycle : option Cycle)
    (withdrawalType : WithdrawalType) (calculatedAmount : Z) (tillDate : string)
    : M ScreenResult :=
  match person, cycle with
  | Some p, Some c =>
      let amount :=
        match withdrawalType with
        | full => cycle_totalAmount c
        | partial => calculatedAmount
        end in
      if amount <=? 0
      then ret (Alerted "Error" "No amount to withdraw for selected period")
      else if amount >? cycle_totalAmount c
      then ret (Alerted "Error" "Amount exceeds cycle total")
      else
        try_catch
          (match withdrawalType with
           | full => processWithdrawal clk (person_id p) None ;; ret tt
           | partial =>
               processPartialWithdrawal clk (person_id p) amount
                 (Some ("Withdrawal till " ++ tillDate)%string) ;;
               ret tt
           end ;;
           await feedback ;;
           ret Processed)
          (fun _ => ret (Alerted "Error" "Failed to process withdrawal"))
  | _, _ => ret Ignored
  end.

(** What the screen's service call has stored once it returned: one
    withdrawal row for an amount that passed the guards of the screen and,
    for a partial withdrawal, of the service. *)
Definition withdrawal_stored (clk : Clock) (person : option Person)
    (cycle : option Cycle) (withdrawalType : WithdrawalType)
    (calculatedAmount : Z) (tillDate : string) (db db' : DB) : Prop :=
  exists (p : Person) (shown current : Cycle) (wid : Z),
    person = Some p /\ cycle = Some shown /\
    0 < cycle_totalAmount shown /\
    getActiveCycle (person_id p) db = (Return (Some current), db) /\
    match withdrawalType with
    | full =>
        withdrawals db' =
          withdrawals db ++
            [mkWithdrawal wid (person_id p) (cycle_id current)
                          (cycle_totalAmount current) (datetime_now clk) None]
    | partial =>
        0 < calculatedAmount /\
        calculatedAmount <= cycle_totalAmount shown /\
        calculatedAmount <= cycle_totalAmount current /\
        withdrawals db' =
          withdrawals db ++
            [mkWithdrawal wid (person_id p) (cycle_id current)
                          calculatedAmount (datetime_now clk)
                          (Some ("Withdrawal till " ++ tillDate)%string)] /\
        getActiveCycle (person_id p) db' =
          (Return (Some (add_to_total (- calculatedAmount) current)), db')
    end.

(** ** The schema's constraints as a state predicate *)

Definition collection_refs_ok (db : DB) (r : Collection) : Prop :=
  person_exists db (collection_personId r) = true /\
  cycle_exists db (collection_cycleId r) = true.

Definition withdrawal_refs_ok (db : DB) (w : Withdrawal) : Prop :=
  person_exists db (withdrawal_personId w) = true /\
  cycle_exists db (withdrawal_cycleId w) = true.

(** [UNIQUE(person_id, date)] *)
Definition one_row_per_day (db : DB) : Prop :=
  forall personId day, (List.length (collections_on db personId day) <= 1)%nat.

(** Primary keys, foreign keys and the unique index of the four tables. *)
Record schema_ok (db : DB) : Prop := mkSchemaOk {
  people_ids_unique : NoDup (map person_id (people db));
  cycle_ids_unique : NoDup (map cycle_id (cycles db));
  collection_ids_unique : NoDup (map collection_id (collections db));
  withdrawal_ids_unique : NoDup (map withdrawal_id (withdrawals db));
  cycles_refs : cycles_reference_people db;
  collections_refs : forall r, In r (collections db) -> collection_refs_ok db r;
  withdrawals_refs : forall w, In w (withdrawals db) -> withdrawal_refs_ok db w;
  collections_unique : one_row_per_day db
}.

(** Every stored person has an active cycle. *)
Definition every_person_has_cycle (db : DB) : Prop :=
  forall p, In p (people db) -> active_cycles_of db (person_id p) <> [].

(** The state the engine keeps a ledger in. *)
Definition ledger_ok (db : DB) : Prop :=
  schema_ok db /\ one_active_cycle db /\ every_person_has_cycle db.

(** The database after a whole sequence of operations. *)
Definition run (ops : list (Clock * Op)) (db : DB) : DB :=
  fold_left (fun s step_ => step (fst step_) (snd step_) s) ops db.

(** ** Predicates kept along a sequence *)

(** The withdrawals table has only grown from [ws]. *)
Definition withdrawals_extend (ws : list Withdrawal) (db : DB) : Prop :=
  exists added, withdrawals db = ws ++ added.

(** A closed cycle [x] stays in the table as long as primary keys are unique. *)
Definition cycle_kept (x : Cycle) (db : DB) : Prop :=
  NoDup (map cycle_id (cycles db)) /\ In x (cycles db).

Definition rank_le (r x : PersonWithTodayStatus) : Prop :=
  status_rank (row_todayStatus r) <= status_rank (row_todayStatus x).

(** Person 1 after 100 was collected and fully withdrawn on the same day. *)
Definition db_withdrawn : DB :=
  snd (processWithdrawal sample_clock 1 None db_collected_100).

(** Person 1 after today was skipped instead. *)
Definition db_skipped_once : DB :=
  snd (skipCollection sample_clock 1 None db_one_person).

(** What [exportDatabaseAsJSON] writes for one person. *)
Definition export_one (db : DB) (person : Person) : PersonData :=
  mkPersonData person
    (find (is_active_cycle_of (person_id person)) (cycles db))
    (order_by (fun r x => String.leb (cycle_startDate x) (cycle_startDate r))
              (filter (fun c => cycle_personId c =? person_id person) (cycles db)))
    (Some (order_by (fun r x => String.leb (withdrawal_date x) (withdrawal_date r))
                    (filter (fun w => withdrawal_personId w =? person_id person)
                            (withdrawals db))))
    (Some (order_by_date_desc
             (filter (fun r => collection_personId r =? person_id person)
                     (collections db)))).

(** What the restore keeps of a collection row and of a withdrawal. *)
Definition restored_collection (r : Collection)
    : string * option Z * CollectionStatus :=
  (collection_date r, Some (or_zero (collection_amount r)), collection_status r).

Definition stored_collection (r : Collection)
    : string * option Z * CollectionStatus :=
  (collection_date r, collection_amount r, collection_status r).

(** Every collection row belongs to a stored person. *)
Definition rows_have_people (db : DB) : Prop :=
  forall r, In r (collections db) ->
            In (collection_personId r) (map person_id (people db)).

(** ** Updates passed to [updatePerson] *)

(** Updates that set [isActive] again and nothing else, and updates that
    name no field. *)
Definition reactivate : PersonUpdates :=
  mkPersonUpdates None None None None None None None (Some true).

Definition no_updates : PersonUpdates :=
  mkPersonUpdates None None None None None None None None.

(** ** What a restore has stored, person by person *)

(** The cycles, collections and withdrawals that carry a person's id. *)
Definition cycles_of (db : DB) (personId : Z) : list Cycle :=
  filter (fun c => cycle_personId c =? personId) (cycles db).

Definition collections_of (db : DB) (personId : Z) : list Collection :=
  filter (fun r => collection_personId r =? personId) (collections db).

Definition withdrawals_of (db : DB) (personId : Z) : list Withdrawal :=
  filter (fun w => withdrawal_personId w =? personId) (withdrawals db).

(** Every cycle, collection and withdrawal belongs to a stored person. *)
Definition all_rows_have_people (db : DB) : Prop :=
  (forall c, In c (cycles db) ->
             In (cycle_personId c) (map person_id (people db))) /\
  rows_have_people db /\
  (forall w, In w (withdrawals db) ->
             In (withdrawal_personId w) (map person_id (people db))).

(** The rows of person [q] are the same in both databases. *)
Definition same_rows_of (q : Z) (db db' : DB) : Prop :=
  cycles_of db' q = cycles_of db q /\
  collections_of db' q = collections_of db q /\
  withdrawals_of db' q = withdrawals_of db q.

(** The person row the restore writes for an exported person: a new id,
    the fields with their [||] defaults, active. *)
Definition restored_person (p np : Person) : Prop :=
  person_name np = person_name p /\
  person_phone np = or_null (person_phone p) /\
  person_location np = or_null (person_location p) /\
  person_photoPath np = or_null (person_photoPath p) /\
  person_defaultAmount np = person_defaultAmount p /\
  person_frequency np = person_frequency p /\
  person_notes np = or_null (person_notes p) /\
  person_isActive np = true.

(** The cycle the restore opens for an exported active cycle. *)
Definition restored_cycle (clk : Clock) (active : option Cycle) (nc : Cycle)
    : Prop :=
  cycle_isActive nc = true /\
  cycle_totalAmount nc = or_zero (option_map cycle_totalAmount active) /\
  cycle_startDate nc
    = or_default (option_map cycle_startDate active) (getTodayDate clk) /\
  cycle_endDate nc = None.

Definition exported_collections (pd : PersonData) : list Collection :=
  match data_collections pd with
  | Some rows => rows
  | None => []
  end.

Definition exported_withdrawals (pd : PersonData) : list Withdrawal :=
  match data_withdrawals pd with
  | Some ws => ws
  | None => []
  end.

(** What [db'] holds under the id of [np] for the entry [pd] of a backup:
    one cycle, and on that cycle the entry's collections and withdrawals. *)
Definition restored_from (clk : Clock) (db' : DB) (pd : PersonData) (np : Person)
    : Prop :=
  restored_person (data_person pd) np /\
  exists nc,
    cycles_of db' (person_id np) = [nc] /\
    restored_cycle clk (data_activeCycle pd) nc /\
    map stored_collection (collections_of db' (person_id np))
      = map restored_collection (exported_collections pd) /\
    Forall (fun r => collection_cycleId r = cycle_id nc)
           (collections_of db' (person_id np)) /\
    map withdrawal_amount (withdrawals_of db' (person_id np))
      = map withdrawal_amount (exported_withdrawals pd) /\
    Forall (fun w => withdrawal_cycleId w = cycle_id nc)
           (withdrawals_of db' (person_id np)).

(** What [db'] holds under the id of [np] for the person [p] of [db]: one
    cycle, active, with the total and start date of the active cycle of [p],
    and on that cycle the collections and the withdrawals of [p]. *)
Definition restored_as (clk : Clock) (db db' : DB) (p np : Person) : Prop :=
  restored_person p np /\
  exists nc,
    cycles_of db' (person_id np) = [nc] /\
    restored_cycle clk (find (is_active_cycle_of (person_id p)) (cycles db)) nc /\
    map stored_collection (collections_of db' (person_id np))
      = map restored_collection
            (order_by_date_desc (collections_of db (person_id p))) /\
    Forall (fun r => collection_cycleId r = cycle_id nc)
           (collections_of db' (person_id np)) /\
    Permutation (map withdrawal_amount (withdrawals_of db' (person_id np)))
                (map withdrawal_amount (withdrawals_of db (person_id p))) /\
    Forall (fun w => withdrawal_cycleId w = cycle_id nc)
           (withdrawals_of db' (person_id np)).

(** * Properties *)

(** ** Lists of rows *)

Section Rows.
Context {A : Type}.
Variable P : A -> bool.

Lemma find_map_stable (f : A -> A) (rows : list A) :
  (forall x, P (f x) = P x) ->
  find P (map f rows) = option_map f (find P rows).
Proof.
  intros Hf. induction rows as [|x rest IH]; simpl; [reflexivity|].
  rewrite Hf. destruct (P x); [reflexivity | exact IH].
Qed.

Lemma filter_map_stable (f : A -> A) (rows : list A) :
  (forall x, P (f x) = P x) ->
  filter P (map f rows) = map f (filter P rows).
Proof.
  intros Hf. induction rows as [|x rest IH]; simpl; [reflexivity|].
  rewrite Hf. destruct (P x); simpl; now rewrite IH.
Qed.

Lemma filter_map_shrinks (f : A -> A) (rows : list A) :
  (forall x, P (f x) = true -> P x = true) ->
  (List.length (filter P (map f rows)) <= List.length (filter P rows))%nat.
Proof.
  intros Hf. induction rows as [|x rest IH]; simpl; [lia|].
  destruct (P (f x)) eqn:Efx.
  - rewrite (Hf x Efx). simpl. lia.
  - destruct (P x); simpl; lia.
Qed.

Lemma filter_out_then_in (rows : list A) :
  filter P (filter (fun x => negb (P x)) rows) = [].
Proof.
  induction rows as [|x rest IH]; simpl; [reflexivity|].
  destruct (P x) eqn:Ex; simpl; [exact IH|].
  now rewrite Ex.
Qed.

Lemma filter_replaced (rows : list A) (x : A) :
  P x = true ->
  filter P (filter (fun y => negb (P y)) rows ++ [x]) = [x].
Proof.
  intros Hx. rewrite filter_app, filter_out_then_in. simpl. now rewrite Hx.
Qed.

Lemma find_none_filter_out (rows : list A) :
  find P rows = None ->
  filter (fun x => negb (P x)) rows = rows.
Proof.
  induction rows as [|x rest IH]; simpl; [reflexivity|].
  destruct (P x); [discriminate|]. intros H. simpl. now rewrite IH.
Qed.

Lemma find_none_filter (rows : list A) :
  find P rows = None -> filter P rows = [].
Proof.
  induction rows as [|x rest IH]; simpl; [reflexivity|].
  destruct (P x); [discriminate | exact IH].
Qed.

Lemma find_app_last (rows : list A) (x : A) :
  P x = true ->
  find P (filter (fun y => negb (P y)) rows ++ [x]) = Some x.
Proof.
  intros Hx. induction rows as [|y rest IH]; simpl.
  - now rewrite Hx.
  - destruct (P y) eqn:Ey; simpl; [exact IH|]. now rewrite Ey.
Qed.

Lemma find_head_of_filter (rows : list A) (x : A) :
  find P rows = Some x -> exists more, filter P rows = x :: more.
Proof.
  induction rows as [|y rest IH]; simpl; [discriminate|].
  destruct (P y) eqn:Ey.
  - intros [= ->]. now eexists.
  - exact IH.
Qed.
End Rows.

Lemma or_zero_some (n : Z) : or_zero (Some n) = n.
Proof. unfold or_zero. destruct (Z.eqb_spec n 0); congruence. Qed.

Lemma active_cycle_exists (db : DB) (personId : Z) (c : Cycle) :
  find (is_active_cycle_of personId) (cycles db) = Some c ->
  cycle_exists db (cycle_id c) = true.
Proof.
  intros H. apply find_some in H. destruct H as [Hin _].
  unfold cycle_exists. apply existsb_exists. exists c. split; [exact Hin|].
  apply Z.eqb_refl.
Qed.

Lemma active_after_add (personId delta cycleId : Z) (c : Cycle) :
  is_active_cycle_of personId
    (if cycle_id c =? cycleId then add_to_total delta c else c)
  = is_active_cycle_of personId c.
Proof. destruct (cycle_id c =? cycleId); reflexivity. Qed.

Lemma getActiveCycle_after_add (cs : list Cycle) (personId delta : Z) (c : Cycle) :
  find (is_active_cycle_of personId) cs = Some c ->
  find (is_active_cycle_of personId)
       (map (fun x => if cycle_id x =? cycle_id c then add_to_total delta x else x)
            cs)
  = Some (add_to_total delta c).
Proof.
  intros H.
  rewrite find_map_stable by (intros x; apply active_after_add).
  rewrite H. simpl. now rewrite Z.eqb_refl.
Qed.

(** ** What each operation does on a person with an active cycle *)

Lemma recordCollection_on_active (clk : Clock) (db : DB) (p a : Z)
    (n : option string) (c : Cycle) :
  person_exists db p = true ->
  find (is_active_cycle_of p) (cycles db) = Some c ->
  recordCollection clk p a n db =
  (Return tt,
   update_cycles (cycle_id c) (add_to_total (a - counted_today clk p db))
     (mkDB (people db) (cycles db)
        (filter (fun r => negb (is_collection_on p (getTodayDate clk) r))
                (collections db) ++
         [mkCollection
            (next_rowid (seq_collections db) (map collection_id (collections db)))
            p (cycle_id c) (getTodayDate clk) (Some a) collected (or_null n)
            (datetime_now clk)])
        (withdrawals db) (seq_people db) (seq_cycles db)
        (next_rowid (seq_collections db) (map collection_id (collections db)))
        (seq_withdrawals db))).
Proof.
  intros Hp Hc.
  unfold recordCollection, active_cycle_or_create, getActiveCycle,
    getTodayCollection, insert_or_replace_collection, run_statement, query,
    bind, ret.
  rewrite Hc, Hp, (active_cycle_exists _ _ _ Hc). reflexivity.
Qed.

Lemma skipCollection_on_active (clk : Clock) (db : DB) (p : Z)
    (n : option string) (c : Cycle) :
  person_exists db p = true ->
  find (is_active_cycle_of p) (cycles db) = Some c ->
  skipCollection clk p n db =
  (Return tt,
   mkDB (people db) (cycles db)
        (filter (fun r => negb (is_collection_on p (getTodayDate clk) r))
                (collections db) ++
         [mkCollection
            (next_rowid (seq_collections db) (map collection_id (collections db)))
            p (cycle_id c) (getTodayDate clk) None skipped (or_null n)
            (datetime_now clk)])
        (withdrawals db) (seq_people db) (seq_cycles db)
        (next_rowid (seq_collections db) (map collection_id (collections db)))
        (seq_withdrawals db)).
Proof.
  intros Hp Hc.
  unfold skipCollection, active_cycle_or_create, getActiveCycle,
    insert_or_replace_collection, query, bind, ret.
  rewrite Hc, Hp, (active_cycle_exists _ _ _ Hc). reflexivity.
Qed.

Lemma is_collection_on_new (day created : string) (id p cid : Z)
    (amount : option Z) (st : CollectionStatus) (n : option string) :
  is_collection_on p day (mkCollection id p cid day amount st n created) = true.
Proof.
  unfold is_collection_on. simpl. now rewrite Z.eqb_refl, String.eqb_refl.
Qed.

(** ** Re-collection on the same date (C1) *)

(** C1, as amended.  For a person with an active cycle [c], two calls
    [recordCollection p a] and [recordCollection p b] on the same date both
    return; afterwards exactly one collection row is stored for that person
    and date, it is [collected] with amount [b], the second call has added
    [b - a] to the total of [c], and over both calls the total has changed by
    [b] minus the amount that was already counted for that date before the
    first call (so by [b] when nothing was counted yet). *)
Theorem recordCollection_twice_net_change :
  forall (clk1 clk2 : Clock) (db : DB) (p a b : Z) (n1 n2 : option string)
         (c : Cycle),
    getTodayDate clk2 = getTodayDate clk1 ->
    person_exists db p = true ->
    getActiveCycle p db = (Return (Some c), db) ->
    exists (db1 db2 : DB) (row : Collection) (c1 c2 : Cycle),
      recordCollection clk1 p a n1 db = (Return tt, db1) /\
      recordCollection clk2 p b n2 db1 = (Return tt, db2) /\
      collections_on db2 p (getTodayDate clk1) = [row] /\
      collection_status row = collected /\
      collection_amount row = Some b /\
      getActiveCycle p db1 = (Return (Some c1), db1) /\
      getActiveCycle p db2 = (Return (Some c2), db2) /\
      cycle_id c2 = cycle_id c /\
      cycle_totalAmount c2 = cycle_totalAmount c1 + (b - a) /\
      cycle_totalAmount c2 =
        cycle_totalAmount c + b - counted_today clk1 p db /\
      (counted_today clk1 p db = 0 ->
       cycle_totalAmount c2 = cycle_totalAmount c + b).
Proof.
  intros clk1 clk2 db p a b n1 n2 c Hday Hp Hc.
  unfold getActiveCycle, query in Hc. injection Hc as Hc.
  pose proof (recordCollection_on_active clk1 db p a n1 c Hp Hc) as R1.
  set (db1 := snd (recordCollection clk1 p a n1 db)).
  assert (E1 : recordCollection clk1 p a n1 db = (Return tt, db1))
    by (subst db1; now rewrite R1).
  assert (Hp1 : person_exists db1 p = true)
    by (subst db1; rewrite R1; exact Hp).
  assert (Hc1 : find (is_active_cycle_of p) (cycles db1)
                = Some (add_to_total (a - counted_today clk1 p db) c)).
  { subst db1. rewrite R1. simpl.
    apply getActiveCycle_after_add. exact Hc. }
  assert (Hcount1 : counted_today clk2 p db1 = a).
  { unfold counted_today. subst db1. rewrite R1, Hday. simpl.
    rewrite find_app_last by apply is_collection_on_new.
    simpl. apply or_zero_some. }
  pose proof (recordCollection_on_active clk2 db1 p b n2 _ Hp1 Hc1) as R2.
  set (db2 := snd (recordCollection clk2 p b n2 db1)).
  assert (E2 : recordCollection clk2 p b n2 db1 = (Return tt, db2))
    by (subst db2; now rewrite R2).
  assert (Hc2 : find (is_active_cycle_of p) (cycles db2)
                = Some (add_to_total (b - a)
                          (add_to_total (a - counted_today clk1 p db) c))).
  { subst db2. rewrite R2, Hcount1. simpl.
    apply (getActiveCycle_after_add (cycles db1) p (b - a)
             (add_to_total (a - counted_today clk1 p db) c)). exact Hc1. }
  exists db1, db2.
  eexists. exists (add_to_total (a - counted_today clk1 p db) c).
  exists (add_to_total (b - a) (add_to_total (a - counted_today clk1 p db) c)).
  split; [exact E1|]. split; [exact E2|].
  split.
  { unfold collections_on. subst db2. rewrite R2. simpl. rewrite Hday.
    apply filter_replaced. apply is_collection_on_new. }
  simpl.
  repeat split; try reflexivity.
  - unfold getActiveCycle, query. now rewrite Hc1.
  - unfold getActiveCycle, query. now rewrite Hc2.
  - lia.
  - intros H0. lia.
Qed.

Lemma recordCollection_twice_net_change_witness :
  exists (db1 db2 : DB) (row : Collection) (c1 c2 : Cycle),
    recordCollection sample_clock 1 100 None db_one_person = (Return tt, db1) /\
    recordCollection sample_clock 1 150 None db1 = (Return tt, db2) /\
    collections_on db2 1 (getTodayDate sample_clock) = [row] /\
    collection_status row = collected /\
    collection_amount row = Some 150 /\
    getActiveCycle 1 db1 = (Return (Some c1), db1) /\
    getActiveCycle 1 db2 = (Return (Some c2), db2) /\
    cycle_id c2 = cycle_id (mkCycle 1 1 "2025-01-01" None 0 true None None) /\
    cycle_totalAmount c2 = cycle_totalAmount c1 + (150 - 100) /\
    cycle_totalAmount c2 =
      cycle_totalAmount (mkCycle 1 1 "2025-01-01" None 0 true None None) + 150
      - counted_today sample_clock 1 db_one_person /\
    (counted_today sample_clock 1 db_one_person = 0 ->
     cycle_totalAmount c2 =
       cycle_totalAmount (mkCycle 1 1 "2025-01-01" None 0 true None None) + 150).
Proof.
  apply (recordCollection_twice_net_change sample_clock sample_clock
           db_one_person 1 100 150 None None
           (mkCycle 1 1 "2025-01-01" None 0 true None None));
    reflexivity.
Defined.

(** C1, as stated, fails: when 100 is already collected today (total 100),
    recording 100 and then 150 leaves the total at 150, a net change of 50
    over the two calls and not of 150. *)
Lemma recordCollection_twice_net_not_b :
  ~ (forall (clk : Clock) (db : DB) (p a b : Z) (c c2 : Cycle),
       person_exists db p = true ->
       getActiveCycle p db = (Return (Some c), db) ->
       fst (getActiveCycle p
              (snd (recordCollection clk p b None
                      (snd (recordCollection clk p a None db)))))
         = Return (Some c2) ->
       cycle_totalAmount c2 = cycle_totalAmount c + b).
Proof.
  intros H.
  specialize (H sample_clock db_collected_100 1 100 150
                (mkCycle 1 1 "2025-01-01" None 100 true None None)
                (mkCycle 1 1 "2025-01-01" None 150 true None None)
                eq_refl eq_refl eq_refl).
  simpl in H. discriminate H.
Qed.

(** ** Cycle totals under delta updates *)

Lemma add_to_total_zero (c : Cycle) : add_to_total 0 c = c.
Proof. destruct c. unfold add_to_total. simpl. f_equal. lia. Qed.

Lemma add_to_total_twice (d1 d2 : Z) (c : Cycle) :
  add_to_total d2 (add_to_total d1 c) = add_to_total (d1 + d2) c.
Proof. unfold add_to_total. simpl. f_equal. lia. Qed.

Lemma update_by_zero (cycleId : Z) (cs : list Cycle) :
  map (fun x => if cycle_id x =? cycleId then add_to_total 0 x else x) cs = cs.
Proof.
  induction cs as [|x rest IH]; simpl; [reflexivity|].
  rewrite IH. destruct (cycle_id x =? cycleId); [|reflexivity].
  now rewrite add_to_total_zero.
Qed.

Lemma update_and_revert (cycleId d : Z) (cs : list Cycle) :
  map (fun x => if cycle_id x =? cycleId then add_to_total (- d) x else x)
      (map (fun x => if cycle_id x =? cycleId then add_to_total d x else x) cs)
  = cs.
Proof.
  induction cs as [|x rest IH]; simpl; [reflexivity|].
  rewrite IH. destruct (cycle_id x =? cycleId) eqn:E.
  - simpl. rewrite E, add_to_total_twice.
    replace (d + - d) with 0 by lia. now rewrite add_to_total_zero.
  - now rewrite E.
Qed.

Lemma filter_out_new_row (P : Collection -> bool) (rows : list Collection)
    (r : Collection) :
  P r = true ->
  find P rows = None ->
  filter (fun x => negb (P x)) (filter (fun x => negb (P x)) rows ++ [r]) = rows.
Proof.
  intros Hr Hnone.
  rewrite (find_none_filter_out P rows Hnone), filter_app.
  rewrite (find_none_filter_out P rows Hnone). simpl. rewrite Hr. simpl.
  apply app_nil_r.
Qed.

Lemma undoCollection_on_active (clk : Clock) (db : DB) (p : Z) (c : Cycle) :
  find (is_active_cycle_of p) (cycles db) = Some c ->
  undoCollection clk p db =
  (Return tt,
   let removed :=
     mkDB (people db) (cycles db)
          (filter (fun r => negb (is_collection_on p (getTodayDate clk) r))
                  (collections db))
          (withdrawals db) (seq_people db) (seq_cycles db) (seq_collections db)
          (seq_withdrawals db) in
   if counted_today clk p db >? 0
   then update_cycles (cycle_id c) (add_to_total (- counted_today clk p db)) removed
   else removed).
Proof.
  intros Hc.
  unfold undoCollection, getTodayCollection, delete_collection, getActiveCycle,
    run_statement, query, bind, ret.
  fold (counted_today clk p db).
  destruct (counted_today clk p db >? 0); simpl; [|reflexivity].
  now rewrite Hc.
Qed.

(** ** Undo symmetry (C5) *)

(** C5.  For a person with an active cycle and no collection row today,
    [recordCollection p a] followed by [undoCollection p] on the same day
    leaves no collection row for the person and the day and the people,
    collections and withdrawals tables as they were.  The cycle's total is
    the one before plus [min a 0]: for [a >= 0] the whole ledger is back
    where it was, for [a < 0] the guard [amountToSubtract > 0] of
    [undoCollection] subtracts nothing and the total keeps the [a] that
    [recordCollection] added. *)
Theorem record_then_undo_restores :
  forall (clk1 clk2 : Clock) (db : DB) (p a : Z) (n : option string) (c : Cycle),
    getTodayDate clk2 = getTodayDate clk1 ->
    person_exists db p = true ->
    getActiveCycle p db = (Return (Some c), db) ->
    getTodayCollection clk1 p db = (Return None, db) ->
    exists (db1 db2 : DB),
      recordCollection clk1 p a n db = (Return tt, db1) /\
      undoCollection clk2 p db1 = (Return tt, db2) /\
      collections_on db2 p (getTodayDate clk1) = [] /\
      people db2 = people db /\
      collections db2 = collections db /\
      withdrawals db2 = withdrawals db /\
      getActiveCycle p db2
        = (Return (Some (add_to_total (Z.min a 0) c)), db2) /\
      cycles db2
        = map (fun x => if cycle_id x =? cycle_id c
                        then add_to_total (Z.min a 0) x else x) (cycles db) /\
      (0 <= a ->
       getActiveCycle p db2 = (Return (Some c), db2) /\
       cycles db2 = cycles db).
Proof.
  intros clk1 clk2 db p a n c Hday Hp Hc Hnone.
  unfold getActiveCycle, query in Hc. injection Hc as Hc.
  unfold getTodayCollection, query in Hnone. injection Hnone as Hnone.
  assert (H0 : counted_today clk1 p db = 0)
    by (unfold counted_today; now rewrite Hnone).
  pose proof (recordCollection_on_active clk1 db p a n c Hp Hc) as R1.
  rewrite H0, Z.sub_0_r in R1.
  set (db1 := snd (recordCollection clk1 p a n db)).
  assert (E1 : recordCollection clk1 p a n db = (Return tt, db1))
    by (subst db1; now rewrite R1).
  assert (Hc1 : find (is_active_cycle_of p) (cycles db1)
                = Some (add_to_total a c)).
  { subst db1. rewrite R1. simpl. now apply getActiveCycle_after_add. }
  assert (Hcount1 : counted_today clk2 p db1 = a).
  { unfold counted_today. subst db1. rewrite R1, Hday. simpl.
    rewrite find_app_last by apply is_collection_on_new.
    simpl. apply or_zero_some. }
  pose proof (undoCollection_on_active clk2 db1 p _ Hc1) as R2.
  rewrite Hcount1 in R2. cbv zeta in R2.
  set (db2 := snd (undoCollection clk2 p db1)).
  assert (E2 : undoCollection clk2 p db1 = (Return tt, db2))
    by (subst db2; now rewrite R2).
  assert (Hrows : collections db2 = collections db).
  { subst db2. rewrite R2. simpl.
    destruct (a >? 0); simpl; subst db1; rewrite R1, Hday; simpl;
      apply filter_out_new_row; auto using is_collection_on_new. }
  assert (Hcycles : cycles db2
                    = map (fun x => if cycle_id x =? cycle_id c
                                    then add_to_total (Z.min a 0) x else x)
                          (cycles db)).
  { subst db2. rewrite R2. simpl.
    destruct (Z.gtb_spec a 0) as [Hpos|Hle]; simpl; subst db1; rewrite R1; simpl.
    - rewrite update_and_revert, Z.min_r by lia. now rewrite update_by_zero.
    - now rewrite Z.min_l by lia. }
  exists db1, db2.
  split; [exact E1|]. split; [exact E2|].
  split.
  { unfold collections_on. rewrite Hrows. now apply find_none_filter. }
  split.
  { subst db2. rewrite R2. simpl. destruct (a >? 0); simpl; subst db1;
      now rewrite R1. }
  split; [exact Hrows|].
  split.
  { subst db2. rewrite R2. simpl. destruct (a >? 0); simpl; subst db1;
      now rewrite R1. }
  split.
  { unfold getActiveCycle, query. rewrite Hcycles.
    now rewrite (getActiveCycle_after_add (cycles db) p _ c Hc). }
  split; [exact Hcycles|].
  intros Ha. rewrite Z.min_r in Hcycles by exact Ha.
  rewrite update_by_zero in Hcycles.
  split; [|exact Hcycles].
  unfold getActiveCycle, query. now rewrite Hcycles, Hc.
Qed.

Lemma record_then_undo_restores_witness :
  exists (db1 db2 : DB),
    recordCollection sample_clock 1 200 None db_one_person = (Return tt, db1) /\
    undoCollection sample_clock 1 db1 = (Return tt, db2) /\
    collections_on db2 1 (getTodayDate sample_clock) = [] /\
    people db2 = people db_one_person /\
    collections db2 = collections db_one_person /\
    withdrawals db2 = withdrawals db_one_person /\
    getActiveCycle 1 db2
      = (Return (Some (mkCycle 1 1 "2025-01-01" None 0 true None None)), db2) /\
    cycles db2 = cycles db_one_person.
Proof.
  destruct (record_then_undo_restores sample_clock sample_clock db_one_person
              1 200 None (mkCycle 1 1 "2025-01-01" None 0 true None None)
              eq_refl eq_refl eq_refl eq_refl)
    as (db1 & db2 & E1 & E2 & Hnone & Hp & Hr & Hw & _ & _ & Hback).
  destruct Hback as [Hc Hcs]; [lia|].
  exists db1, db2. repeat split; assumption.
Defined.

(** C5, as stated for every amount, fails: from a total of 0 and no row
    today, recording -50 and undoing it leaves the total at -50. *)
Lemma record_then_undo_keeps_a_negative_amount :
  ~ (forall (clk : Clock) (db : DB) (p a : Z) (n : option string) (c c2 : Cycle),
       person_exists db p = true ->
       getActiveCycle p db = (Return (Some c), db) ->
       getTodayCollection clk p db = (Return None, db) ->
       fst (getActiveCycle p
              (snd (undoCollection clk p
                      (snd (recordCollection clk p a n db)))))
         = Return (Some c2) ->
       cycle_totalAmount c2 = cycle_totalAmount c).
Proof.
  intros H.
  specialize (H sample_clock db_one_person 1 (-50) None
                (mkCycle 1 1 "2025-01-01" None 0 true None None)
                (mkCycle 1 1 "2025-01-01" None (-50) true None None)
                eq_refl eq_refl eq_refl eq_refl).
  simpl in H. discriminate H.
Qed.

(** ** Skipping a day (C7) *)

Lemma cycle_exists_appended (db : DB) (c : Cycle) (rows : list Collection)
    (ws : list Withdrawal) (s1 s2 s3 s4 : Z) :
  cycle_exists (mkDB (people db) (cycles db ++ [c]) rows ws s1 s2 s3 s4)
               (cycle_id c) = true.
Proof.
  unfold cycle_exists. simpl. rewrite existsb_app. simpl.
  rewrite Z.eqb_refl. apply orb_true_r.
Qed.

(** C7.  For every person, [skipCollection] returns and leaves exactly one
    collection row for the person and the day, with status [skipped] and no
    amount.  When the person has an active cycle the cycles table is left as
    it was, so the total of that cycle is unchanged, whatever amount the
    replaced row carried; when there is none, the only change to the cycles
    table is the new cycle, opened with total 0. *)
Theorem skipCollection_keeps_total :
  forall (clk : Clock) (db : DB) (p : Z) (n : option string),
    person_exists db p = true ->
    exists (db' : DB) (row : Collection),
      skipCollection clk p n db = (Return tt, db') /\
      collections_on db' p (getTodayDate clk) = [row] /\
      collection_status row = skipped /\
      collection_amount row = None /\
      match fst (getActiveCycle p db) with
      | Return (Some c) =>
          cycles db' = cycles db /\
          getActiveCycle p db' = (Return (Some c), db')
      | _ =>
          cycles db' =
          cycles db ++
            [mkCycle (next_rowid (seq_cycles db) (map cycle_id (cycles db)))
                     p (getTodayDate clk) None 0 true None None]
      end.
Proof.
  intros clk db p n Hp.
  unfold getActiveCycle at 1, query. simpl fst.
  destruct (find (is_active_cycle_of p) (cycles db)) as [c|] eqn:Hc.
  - rewrite (skipCollection_on_active clk db p n c Hp Hc).
    eexists. eexists. split; [reflexivity|].
    split.
    { unfold collections_on. simpl. apply filter_replaced.
      apply is_collection_on_new. }
    simpl. repeat split; try reflexivity.
    unfold getActiveCycle, query. simpl. now rewrite Hc.
  - unfold skipCollection, active_cycle_or_create, getActiveCycle, createCycle,
      insert_cycle, insert_or_replace_collection, query, bind, ret.
    rewrite Hc, Hp.
    replace (person_exists (mkDB (people db) _ _ _ _ _ _ _) p) with true
      by (symmetry; exact Hp).
    rewrite (cycle_exists_appended db
               (mkCycle (next_rowid (seq_cycles db) (map cycle_id (cycles db)))
                        p (getTodayDate clk) None 0 true None None)).
    simpl.
    eexists. eexists. split; [reflexivity|].
    split.
    { unfold collections_on. simpl. apply filter_replaced.
      apply is_collection_on_new. }
    simpl. repeat split; reflexivity.
Qed.

Lemma skipCollection_keeps_total_witness :
  exists (db' : DB) (row : Collection),
    skipCollection sample_clock 1 None db_collected_100 = (Return tt, db') /\
    collections_on db' 1 (getTodayDate sample_clock) = [row] /\
    collection_status row = skipped /\
    collection_amount row = None /\
    match fst (getActiveCycle 1 db_collected_100) with
    | Return (Some c) =>
        cycles db' = cycles db_collected_100 /\
        getActiveCycle 1 db' = (Return (Some c), db')
    | _ =>
        cycles db' =
        cycles db_collected_100 ++
          [mkCycle (next_rowid (seq_cycles db_collected_100)
                               (map cycle_id (cycles db_collected_100)))
                   1 (getTodayDate sample_clock) None 0 true None None]
    end.
Proof.
  apply (skipCollection_keeps_total sample_clock db_collected_100 1 None).
  reflexivity.
Defined.

(** ** Collect, skip, collect again (C10) *)





(** ** Row identifiers are fresh *)

Lemma max_id_bound (ids : list Z) (i : Z) : In i ids -> i <= max_id ids.
Proof.
  induction ids as [|x rest IH]; simpl; [tauto|].
  intros [->|Hin]; [lia|]. specialize (IH Hin). lia.
Qed.

Lemma next_rowid_fresh (seq : Z) (ids : list Z) (i : Z) :
  In i ids -> i < next_rowid seq ids.
Proof. intros Hin. apply max_id_bound in Hin. unfold next_rowid. lia. Qed.

Lemma next_cycle_id_fresh (db : DB) (c : Cycle) :
  In c (cycles db) ->
  cycle_id c < next_rowid (seq_cycles db) (map cycle_id (cycles db)).
Proof. intros Hin. apply next_rowid_fresh. now apply in_map. Qed.

Lemma cycle_ids_after_update (cycleId : Z) (f : Cycle -> Cycle) (cs : list Cycle) :
  (forall c, cycle_id (f c) = cycle_id c) ->
  map cycle_id (map (fun x => if cycle_id x =? cycleId then f x else x) cs)
  = map cycle_id cs.
Proof.
  intros Hf. rewrite map_map. apply map_ext. intros x.
  destruct (cycle_id x =? cycleId); [apply Hf | reflexivity].
Qed.

Lemma find_after_none {A} (P : A -> bool) (rows : list A) (x : A) :
  filter P rows = [] -> P x = true -> find P (rows ++ [x]) = Some x.
Proof.
  intros Hnone Hx. induction rows as [|y rest IH]; simpl in *.
  - now rewrite Hx.
  - destruct (P y); [discriminate | auto].
Qed.

(** ** Full withdrawal (C4) *)

Lemma closed_cycle_inactive (clk : Clock) (personId cycleId : Z) (x : Cycle) :
  is_active_cycle_of personId (if cycle_id x =? cycleId then close clk x else x)
  = true ->
  is_active_cycle_of personId x = true /\ cycle_id x <> cycleId.
Proof.
  destruct (Z.eqb_spec (cycle_id x) cycleId) as [E|E].
  - unfold is_active_cycle_of. simpl. rewrite andb_false_r. discriminate.
  - auto.
Qed.

Lemma only_active_cycle (db : DB) (p : Z) (c x : Cycle) :
  one_active_cycle db ->
  find (is_active_cycle_of p) (cycles db) = Some c ->
  In x (cycles db) ->
  is_active_cycle_of p x = true ->
  x = c.
Proof.
  intros Hone Hc Hin Hact.
  destruct (find_head_of_filter _ _ _ Hc) as [more Hf].
  specialize (Hone p). unfold active_cycles_of in Hone. rewrite Hf in Hone.
  destruct more as [|y more']; [|simpl in Hone; lia].
  assert (Hx : In x (filter (is_active_cycle_of p) (cycles db)))
    by (apply filter_In; auto).
  rewrite Hf in Hx. destruct Hx as [->|[]]. reflexivity.
Qed.

Lemma no_active_after_close (clk : Clock) (db : DB) (p : Z) (c : Cycle) :
  one_active_cycle db ->
  find (is_active_cycle_of p) (cycles db) = Some c ->
  filter (is_active_cycle_of p)
         (map (fun x => if cycle_id x =? cycle_id c then close clk x else x)
              (cycles db)) = [].
Proof.
  intros Hone Hc.
  destruct (filter _ (map _ _)) as [|y l] eqn:E; [reflexivity|exfalso].
  assert (Hy : In y (filter (is_active_cycle_of p)
             (map (fun x => if cycle_id x =? cycle_id c then close clk x else x)
                  (cycles db)))) by (rewrite E; now left).
  apply filter_In in Hy. destruct Hy as [Hin Hact].
  apply in_map_iff in Hin. destruct Hin as (x & <- & Hx).
  apply closed_cycle_inactive in Hact. destruct Hact as [Hact Hneq].
  apply Hneq. now rewrite (only_active_cycle db p c x Hone Hc Hx Hact).
Qed.

Lemma insert_by_date_desc_In (r x : Collection) (rows : list Collection) :
  In x (insert_by_date_desc r rows) <-> x = r \/ In x rows.
Proof.
  induction rows as [|y rest IH]; simpl.
  - intuition congruence.
  - destruct (String.leb (collection_date y) (collection_date r)); simpl.
    + intuition congruence.
    + rewrite IH. intuition congruence.
Qed.

Lemma order_by_date_desc_In (x : Collection) (rows : list Collection) :
  In x (order_by_date_desc rows) <-> In x rows.
Proof.
  induction rows as [|y rest IH]; simpl; [reflexivity|].
  rewrite insert_by_date_desc_In, IH. intuition congruence.
Qed.

(** C4.  For a person whose active cycle [c] has total [T],
    [processWithdrawal] returns; it appends one withdrawal of amount [T]
    against [c], closes [c] ([isActive] false, [endDate] today) and appends a
    new active cycle of the person with total 0, which is the person's active
    cycle from then on; the collections table is untouched, and
    [getCollectionsByCycle] of the old cycle answers as before, with exactly
    the collection rows of that cycle. *)
Theorem processWithdrawal_resets_and_keeps_history :
  forall (clk : Clock) (db : DB) (p : Z) (n : option string) (c : Cycle),
    person_exists db p = true ->
    getActiveCycle p db = (Return (Some c), db) ->
    exists (db' : DB) (wid newId : Z),
      processWithdrawal clk p n db = (Return wid, db') /\
      withdrawals db' =
        withdrawals db ++
          [mkWithdrawal wid p (cycle_id c) (cycle_totalAmount c)
                        (datetime_now clk) (or_null n)] /\
      cycles db' =
        map (fun x => if cycle_id x =? cycle_id c then close clk x else x)
            (cycles db) ++
          [mkCycle newId p (getTodayDate clk) None 0 true None None] /\
      In (close clk c) (cycles db') /\
      cycle_isActive (close clk c) = false /\
      cycle_endDate (close clk c) = Some (getTodayDate clk) /\
      cycle_id (close clk c) = cycle_id c /\
      cycle_id c < newId /\
      (one_active_cycle db ->
       getActiveCycle p db' =
         (Return (Some (mkCycle newId p (getTodayDate clk) None 0 true None None)),
          db')) /\
      collections db' = collections db /\
      exists rows : list Collection,
        getCollectionsByCycle (cycle_id c) db = (Return rows, db) /\
        getCollectionsByCycle (cycle_id c) db' = (Return rows, db') /\
        (forall r, In r rows <->
                   In r (collections db) /\ collection_cycleId r = cycle_id c).
Proof.
  intros clk db p n c Hp Hc.
  unfold getActiveCycle, query in Hc. injection Hc as Hc.
  pose proof (active_cycle_exists db p c Hc) as Hex.
  pose proof (find_some _ _ Hc) as [Hin _].
  unfold processWithdrawal, getActiveCycle, insert_withdrawal, closeCycle,
    createCycle, insert_cycle, run_statement, query, bind, ret.
  rewrite Hc, Hp, Hex. simpl.
  replace (person_exists (update_cycles _ _ _) p) with true
    by (symmetry; exact Hp).
  simpl.
  eexists. eexists. eexists. split; [reflexivity|].
  simpl. split; [reflexivity|]. split; [reflexivity|].
  split.
  { apply in_or_app. left. apply in_map_iff. exists c.
    now rewrite Z.eqb_refl. }
  split; [reflexivity|]. split; [reflexivity|]. split; [reflexivity|].
  split.
  { rewrite cycle_ids_after_update by reflexivity.
    now apply next_cycle_id_fresh. }
  split.
  { intros Hone. unfold getActiveCycle, query. simpl.
    rewrite find_after_none; [reflexivity| |].
    + apply no_active_after_close; assumption.
    + unfold is_active_cycle_of. simpl. now rewrite Z.eqb_refl. }
  split; [reflexivity|].
  eexists. split; [reflexivity|]. split; [reflexivity|].
  intros r. rewrite order_by_date_desc_In, filter_In, Z.eqb_eq. reflexivity.
Qed.

Lemma processWithdrawal_resets_and_keeps_history_witness :
  exists (db' : DB) (wid newId : Z),
    processWithdrawal sample_clock 1 None db_collected_100 = (Return wid, db') /\
    withdrawals db' =
      withdrawals db_collected_100 ++
        [mkWithdrawal wid 1 1 100 "2025-01-01 10:00:00" None] /\
    cycles db' =
      map (fun x => if cycle_id x =? 1 then close sample_clock x else x)
          (cycles db_collected_100) ++
        [mkCycle newId 1 "2025-01-01" None 0 true None None] /\
    In (close sample_clock (mkCycle 1 1 "2025-01-01" None 100 true None None))
       (cycles db') /\
    false = false /\
    Some "2025-01-01" = Some "2025-01-01" /\
    1 = 1 /\
    1 < newId /\
    (one_active_cycle db_collected_100 ->
     getActiveCycle 1 db' =
       (Return (Some (mkCycle newId 1 "2025-01-01" None 0 true None None)), db')) /\
    collections db' = collections db_collected_100 /\
    exists rows : list Collection,
      getCollectionsByCycle 1 db_collected_100 = (Return rows, db_collected_100) /\
      getCollectionsByCycle 1 db' = (Return rows, db') /\
      (forall r, In r rows <->
                 In r (collections db_collected_100) /\ collection_cycleId r = 1).
Proof.
  apply (processWithdrawal_resets_and_keeps_history sample_clock
           db_collected_100 1 None
           (mkCycle 1 1 "2025-01-01" None 100 true None None));
    reflexivity.
Defined.

(** ** Partial withdrawal (C6) *)

(** C6.  For a person whose active cycle [c] has total [T]:
    [processPartialWithdrawal p a] with [a > T] throws the insufficient
    balance error and leaves the database exactly as it was (no withdrawal
    row, total still [T]); with [a <= T] it returns, appends one withdrawal
    of amount [a] against [c], and the person's active cycle is still [c],
    now with total [T - a]. *)
Theorem processPartialWithdrawal_checks_balance :
  forall (clk : Clock) (db : DB) (p a : Z) (n : option string) (c : Cycle),
    person_exists db p = true ->
    getActiveCycle p db = (Return (Some c), db) ->
    (cycle_totalAmount c < a ->
     processPartialWithdrawal clk p a n db = (Throw InsufficientBalance, db)) /\
    (a <= cycle_totalAmount c ->
     exists (db' : DB) (wid : Z),
       processPartialWithdrawal clk p a n db = (Return wid, db') /\
       withdrawals db' =
         withdrawals db ++
           [mkWithdrawal wid p (cycle_id c) a (datetime_now clk)
                         (Some (or_default n "Partial withdrawal"))] /\
       getActiveCycle p db' = (Return (Some (add_to_total (- a) c)), db') /\
       cycle_totalAmount (add_to_total (- a) c) = cycle_totalAmount c - a /\
       cycle_isActive (add_to_total (- a) c) = true).
Proof.
  intros clk db p a n c Hp Hc.
  unfold getActiveCycle, query in Hc. injection Hc as Hc.
  pose proof (active_cycle_exists db p c Hc) as Hex.
  pose proof (find_some _ _ Hc) as [_ Hact].
  unfold processPartialWithdrawal, getActiveCycle, insert_withdrawal,
    run_statement, query, bind, ret, throw.
  rewrite Hc. split.
  - intros Hgt. destruct (Z.gtb_spec a (cycle_totalAmount c)); [reflexivity|lia].
  - intros Hle. destruct (Z.gtb_spec a (cycle_totalAmount c)); [lia|].
    rewrite Hp, Hex. simpl.
    eexists. eexists. split; [reflexivity|]. simpl.
    split; [reflexivity|].
    split.
    { unfold getActiveCycle, query. simpl.
      now rewrite (getActiveCycle_after_add (cycles db) p (- a) c Hc). }
    split; [lia|].
    unfold is_active_cycle_of in Hact. now apply andb_prop in Hact.
Qed.

Lemma processPartialWithdrawal_checks_balance_witness :
  processPartialWithdrawal sample_clock 1 600 None db_collected_100
    = (Throw InsufficientBalance, db_collected_100) /\
  exists (db' : DB) (wid : Z),
    processPartialWithdrawal sample_clock 1 40 None db_collected_100
      = (Return wid, db') /\
    withdrawals db' =
      withdrawals db_collected_100 ++
        [mkWithdrawal wid 1 1 40 "2025-01-01 10:00:00"
                      (Some "Partial withdrawal")] /\
    getActiveCycle 1 db' =
      (Return (Some (mkCycle 1 1 "2025-01-01" None 60 true None None)), db') /\
    100 + - 40 = 100 - 40 /\
    true = true.
Proof.
  split.
  - apply (proj1 (processPartialWithdrawal_checks_balance sample_clock
             db_collected_100 1 600 None
             (mkCycle 1 1 "2025-01-01" None 100 true None None)
             eq_refl eq_refl)).
    simpl. lia.
  - apply (proj2 (processPartialWithdrawal_checks_balance sample_clock
             db_collected_100 1 40 None
             (mkCycle 1 1 "2025-01-01" None 100 true None None)
             eq_refl eq_refl)).
    simpl. lia.
Defined.

(** ** Manual correction (C9) *)

Lemma updated_total_stored (cycleId t : Z) (start : option string)
    (cs : list Cycle) (x : Cycle) :
  In x (map (fun c => if cycle_id c =? cycleId
                      then set_total_and_start (Some t) start c else c) cs) ->
  cycle_id x = cycleId ->
  cycle_totalAmount x = t.
Proof.
  intros Hin Hid. apply in_map_iff in Hin. destruct Hin as (c & Hx & _).
  destruct (Z.eqb_spec (cycle_id c) cycleId) as [E|E]; subst x.
  - reflexivity.
  - contradiction.
Qed.

(** C9, as amended.  [updateCycleData] makes no check: given a
    [totalAmount], negative or not, it returns and every cycle with the given
    id then stores that value as its total, its other cycles being left as
    they were.  The check against a negative amount is made by its caller,
    [handleSave] of the adjust screen, which then returns without writing; so
    a manual correction made through that screen keeps every total
    non-negative. *)
Theorem updateCycleData_overwrites_total :
  (forall (db : DB) (cycleId t : Z) (start : option string),
     exists db',
       updateCycleData cycleId (mkCycleUpdates (Some t) start) db
         = (Return tt, db') /\
       (forall c, In c (cycles db) -> cycle_id c = cycleId ->
                  In (set_total_and_start (Some t) start c) (cycles db')) /\
       (forall x, In x (cycles db') -> cycle_id x = cycleId ->
                  cycle_totalAmount x = t) /\
       (forall x, cycle_id x <> cycleId -> In x (cycles db') <-> In x (cycles db))) /\
  (forall (db : DB) (cycle : option Cycle) (n : Z) (isoDate : option string),
     n < 0 -> handleSave cycle (Some n) isoDate db = (Return tt, db)) /\
  (forall (db : DB) (cycle : option Cycle) (amount : option Z)
          (isoDate : option string),
     totals_nonnegative db ->
     totals_nonnegative (snd (handleSave cycle amount isoDate db))).
Proof.
  split; [|split].
  - intros db cycleId t start.
    exists (update_cycles cycleId (set_total_and_start (Some t) start) db).
    split; [destruct start; reflexivity|].
    unfold update_cycles. simpl. split; [|split].
    + intros c Hin Hid. apply in_map_iff. exists c.
      split; [|exact Hin]. subst cycleId. now rewrite Z.eqb_refl.
    + intros x Hin Hid. eapply updated_total_stored; eauto.
    + intros x Hneq. rewrite in_map_iff. split.
      * intros (c & Hx & Hin).
        destruct (Z.eqb_spec (cycle_id c) cycleId) as [E|E]; subst x.
        -- simpl in Hneq. contradiction.
        -- exact Hin.
      * intros Hin. exists x. split; [|exact Hin].
        destruct (Z.eqb_spec (cycle_id x) cycleId); [contradiction|reflexivity].
  - intros db cycle n isoDate Hneg. unfold handleSave.
    destruct cycle; [|reflexivity].
    destruct (Z.ltb_spec n 0); [reflexivity|lia].
  - intros db cycle amount isoDate Hnn. unfold handleSave.
    destruct cycle as [c|]; [|exact Hnn].
    destruct amount as [n|]; [|exact Hnn].
    destruct (Z.ltb_spec n 0) as [Hneg|Hpos]; [exact Hnn|].
    destruct isoDate as [d|]; [|exact Hnn].
    intros x Hin. simpl in Hin. apply in_map_iff in Hin.
    destruct Hin as (y & Hx & Hy).
    destruct (cycle_id y =? cycle_id c); subst x.
    + simpl. exact Hpos.
    + now apply Hnn.
Qed.

Lemma updateCycleData_overwrites_total_witness :
  handleSave (Some (mkCycle 1 1 "2025-01-01" None 100 true None None))
             (Some (-5)) (Some "2025-01-01") db_collected_100
    = (Return tt, db_collected_100) /\
  totals_nonnegative
    (snd (handleSave (Some (mkCycle 1 1 "2025-01-01" None 100 true None None))
                     (Some 70) (Some "2024-12-01") db_collected_100)).
Proof.
  split.
  - apply (proj1 (proj2 updateCycleData_overwrites_total)). reflexivity.
  - apply (proj2 (proj2 updateCycleData_overwrites_total)).
    intros c [<-|[]]. simpl. lia.
Defined.

(** C9, as stated, fails: [updateCycleData] called with the negative total
    -5 does not reject the update; the cycle then stores -5. *)
Lemma updateCycleData_stores_negative_total :
  ~ (forall (db : DB) (cycleId t : Z),
       t < 0 ->
       cycles (snd (updateCycleData cycleId (mkCycleUpdates (Some t) None) db))
       = cycles db).
Proof.
  intros H.
  specialize (H db_collected_100 1 (-5) eq_refl).
  vm_compute in H. discriminate H.
Qed.

(** ** At most one active cycle per person (C3) *)

Section Keeps.
Variable I : DB -> Prop.

Lemma keeps_ret {A} (a : A) : keeps I (ret a).
Proof. intros db H. exact H. Qed.

Lemma keeps_throw {A} (e : Error) : keeps I (@throw A e).
Proof. intros db H. exact H. Qed.

Lemma keeps_query {A} (q : DB -> A) : keeps I (query q).
Proof. intros db H. exact H. Qed.

Lemma keeps_bind {A B} (m : M A) (k : A -> M B) :
  keeps I m -> (forall a, keeps I (k a)) -> keeps I (bind m k).
Proof.
  intros Hm Hk db H. unfold bind. specialize (Hm db H).
  destruct (m db) as [[a|e] db']; simpl in *.
  - now apply Hk.
  - exact Hm.
Qed.
End Keeps.

Lemma consistent_same_ledger (db db' : DB) :
  people db' = people db -> cycles db' = cycles db ->
  ledger_consistent db -> ledger_consistent db'.
Proof.
  intros Hp Hc [Hone Hfk]. split.
  - intros q. unfold active_cycles_of. rewrite Hc. apply Hone.
  - intros c Hin. unfold person_exists. rewrite Hp. apply Hfk.
    now rewrite <- Hc.
Qed.

Lemma consistent_add_to_total (cycleId delta : Z) (db : DB) :
  ledger_consistent db ->
  ledger_consistent (update_cycles cycleId (add_to_total delta) db).
Proof.
  intros [Hone Hfk]. split.
  - intros q. unfold active_cycles_of, update_cycles. simpl.
    rewrite filter_map_stable by (intros x; apply active_after_add).
    rewrite length_map. apply Hone.
  - intros c Hin. unfold update_cycles in Hin. simpl in Hin.
    apply in_map_iff in Hin. destruct Hin as (x & <- & Hx).
    unfold person_exists, update_cycles. simpl.
    destruct (cycle_id x =? cycleId); simpl; now apply Hfk.
Qed.

Lemma consistent_close (clk : Clock) (cycleId : Z) (db : DB) :
  ledger_consistent db ->
  ledger_consistent (update_cycles cycleId (close clk) db).
Proof.
  intros [Hone Hfk]. split.
  - intros q. unfold active_cycles_of, update_cycles. simpl.
    etransitivity; [|apply (Hone q)].
    apply filter_map_shrinks. intros x Hx.
    now apply closed_cycle_inactive in Hx.
  - intros c Hin. unfold update_cycles in Hin. simpl in Hin.
    apply in_map_iff in Hin. destruct Hin as (x & <- & Hx).
    unfold person_exists, update_cycles. simpl.
    destruct (cycle_id x =? cycleId); simpl; now apply Hfk.
Qed.

Lemma consistent_new_cycle (db : DB) (p id total : Z) (start : string)
    (rows : list Collection) (ws : list Withdrawal) (s1 s2 s3 s4 : Z) :
  ledger_consistent db ->
  person_exists db p = true ->
  active_cycles_of db p = [] ->
  ledger_consistent
    (mkDB (people db)
          (cycles db ++ [mkCycle id p start None total true None None])
          rows ws s1 s2 s3 s4).
Proof.
  intros [Hone Hfk] Hp Hnone. split.
  - intros q. unfold active_cycles_of. simpl. rewrite filter_app, length_app.
    simpl. unfold is_active_cycle_of at 2. simpl.
    destruct (Z.eqb_spec p q) as [->|Hneq]; simpl.
    + unfold active_cycles_of in Hnone. rewrite Hnone. simpl. lia.
    + specialize (Hone q). unfold active_cycles_of in Hone. lia.
  - intros c Hin. simpl in Hin. apply in_app_or in Hin.
    unfold person_exists. simpl.
    destruct Hin as [Hin|[<-|[]]]; [now apply Hfk | exact Hp].
Qed.

Lemma keeps_insert_or_replace_collection (clk : Clock) (p cid : Z) (day : string)
    (amount : option Z) (st : CollectionStatus) (n : option string) :
  keeps ledger_consistent (insert_or_replace_collection clk p cid day amount st n).
Proof.
  intros db H. unfold insert_or_replace_collection.
  destruct (person_exists db p && cycle_exists db cid); simpl; [|exact H].
  now apply (consistent_same_ledger db).
Qed.

Lemma keeps_delete_collection (p : Z) (day : string) :
  keeps ledger_consistent (delete_collection p day).
Proof. intros db H. now apply (consistent_same_ledger db). Qed.

Lemma keeps_insert_withdrawal (p cid amount : Z) (day : string)
    (n : option string) :
  keeps ledger_consistent (insert_withdrawal p cid amount day n).
Proof.
  intros db H. unfold insert_withdrawal.
  destruct (person_exists db p && cycle_exists db cid); simpl; [|exact H].
  now apply (consistent_same_ledger db).
Qed.

Lemma keeps_add_to_total (cycleId delta : Z) :
  keeps ledger_consistent
        (run_statement (update_cycles cycleId (add_to_total delta))).
Proof. intros db H. now apply consistent_add_to_total. Qed.

Lemma keeps_active_cycle_or_create (clk : Clock) (p : Z) :
  keeps ledger_consistent (active_cycle_or_create clk p).
Proof.
  intros db H.
  unfold active_cycle_or_create, getActiveCycle, createCycle, insert_cycle,
    query, bind, ret.
  destruct (find (is_active_cycle_of p) (cycles db)) eqn:Hc; [exact H|].
  destruct (person_exists db p) eqn:Hp; simpl; [|exact H].
  apply consistent_new_cycle; auto.
  now apply find_none_filter.
Qed.

Lemma keeps_recordCollection (clk : Clock) (p a : Z) (n : option string) :
  keeps ledger_consistent (recordCollection clk p a n).
Proof.
  unfold recordCollection.
  apply keeps_bind; [apply keeps_active_cycle_or_create|]. intros cid.
  apply keeps_bind; [apply keeps_query|]. intros existing.
  apply keeps_bind; [apply keeps_insert_or_replace_collection|]. intros _.
  apply keeps_add_to_total.
Qed.

Lemma keeps_skipCollection (clk : Clock) (p : Z) (n : option string) :
  keeps ledger_consistent (skipCollection clk p n).
Proof.
  unfold skipCollection.
  apply keeps_bind; [apply keeps_active_cycle_or_create|]. intros cid.
  apply keeps_insert_or_replace_collection.
Qed.

Lemma keeps_undoCollection (clk : Clock) (p : Z) :
  keeps ledger_consistent (undoCollection clk p).
Proof.
  unfold undoCollection.
  apply keeps_bind; [apply keeps_query|]. intros existing.
  apply keeps_bind; [apply keeps_delete_collection|]. intros _.
  destruct (collected_amount existing >? 0); [|apply keeps_ret].
  apply keeps_bind; [apply keeps_query|]. intros [c|].
  - apply keeps_add_to_total.
  - apply keeps_ret.
Qed.

Lemma keeps_processPartialWithdrawal (clk : Clock) (p a : Z) (n : option string) :
  keeps ledger_consistent (processPartialWithdrawal clk p a n).
Proof.
  unfold processPartialWithdrawal.
  apply keeps_bind; [apply keeps_query|]. intros [c|]; [|apply keeps_throw].
  destruct (a >? cycle_totalAmount c); [apply keeps_throw|].
  apply keeps_bind; [apply keeps_insert_withdrawal|]. intros wid.
  apply keeps_bind; [apply keeps_add_to_total|]. intros _.
  apply keeps_ret.
Qed.

Lemma keeps_processWithdrawal (clk : Clock) (p : Z) (n : option string) :
  keeps ledger_consistent (processWithdrawal clk p n).
Proof.
  intros db H.
  unfold processWithdrawal, getActiveCycle, insert_withdrawal, closeCycle,
    createCycle, insert_cycle, run_statement, query, bind, ret, throw.
  destruct (find (is_active_cycle_of p) (cycles db)) as [c|] eqn:Hc; [|exact H].
  destruct (person_exists db p) eqn:Hp; simpl; [|exact H].
  destruct (cycle_exists db (cycle_id c)); simpl; [|exact H].
  replace (person_exists (update_cycles _ _ _) p) with true
    by (symmetry; exact Hp).
  simpl.
  apply (consistent_new_cycle
           (update_cycles (cycle_id c) (close clk) db)); auto.
  - now apply consistent_close.
  - unfold active_cycles_of, update_cycles. simpl.
    apply no_active_after_close; [apply H | exact Hc].
Qed.

Lemma person_ids_after_soft_delete (id : Z) (ps : list Person) (q : Z) :
  existsb (fun x => person_id x =? q)
          (map (fun x => if person_id x =? id then soft_delete x else x) ps)
  = existsb (fun x => person_id x =? q) ps.
Proof.
  induction ps as [|x rest IH]; simpl; [reflexivity|].
  rewrite IH. destruct (person_id x =? id); reflexivity.
Qed.

Lemma keeps_deletePerson (id : Z) : keeps ledger_consistent (deletePerson id).
Proof.
  intros db [Hone Hfk]. split.
  - exact Hone.
  - intros c Hin. simpl in Hin. unfold person_exists. simpl.
    rewrite person_ids_after_soft_delete. now apply Hfk.
Qed.

Lemma no_cycle_of_next_person (db : DB) :
  cycles_reference_people db ->
  active_cycles_of db (next_rowid (seq_people db) (map person_id (people db)))
  = [].
Proof.
  intros Hfk. unfold active_cycles_of.
  destruct (filter _ _) as [|c l] eqn:E; [reflexivity|exfalso].
  assert (Hc : In c (filter (is_active_cycle_of
             (next_rowid (seq_people db) (map person_id (people db))))
             (cycles db))) by (rewrite E; now left).
  apply filter_In in Hc. destruct Hc as [Hin Hact].
  unfold is_active_cycle_of in Hact. apply andb_prop in Hact.
  destruct Hact as [Hid _]. apply Z.eqb_eq in Hid.
  specialize (Hfk c Hin). unfold person_exists in Hfk.
  apply existsb_exists in Hfk. destruct Hfk as (x & Hx & Hxid).
  apply Z.eqb_eq in Hxid.
  pose proof (next_rowid_fresh (seq_people db) (map person_id (people db))
                (person_id x) (in_map person_id _ _ Hx)).
  lia.
Qed.

Lemma keeps_addPerson (clk : Clock) (person : NewPerson) :
  keeps ledger_consistent (addPerson clk person).
Proof.
  intros db [Hone Hfk].
  unfold addPerson, insert_person, createCycle, insert_cycle, bind, ret.
  unfold person_exists at 1. simpl. rewrite existsb_app. simpl.
  rewrite Z.eqb_refl, orb_true_r. simpl.
  set (id := next_rowid (seq_people db) (map person_id (people db))).
  set (db1 := mkDB (people db ++ [mkPerson id (new_name person)
                     (or_null (new_phone person)) (or_null (new_location person))
                     (or_null (new_photoPath person)) (new_defaultAmount person)
                     (new_frequency person) (or_null (new_notes person))
                     (new_isActive person) (datetime_now clk) (datetime_now clk)])
                   (cycles db) (collections db) (withdrawals db)
                   id (seq_cycles db) (seq_collections db) (seq_withdrawals db)).
  apply (consistent_new_cycle db1).
  - split.
    + exact Hone.
    + intros c Hin. unfold person_exists. simpl. rewrite existsb_app.
      apply orb_true_intro. left. now apply Hfk.
  - unfold person_exists. simpl. rewrite existsb_app. simpl.
    rewrite Z.eqb_refl. apply orb_true_r.
  - apply (no_cycle_of_next_person db Hfk).
Qed.

Lemma step_keeps_consistent (clk : Clock) (op : Op) (db : DB) :
  ledger_consistent db -> ledger_consistent (step clk op db).
Proof.
  destruct op; simpl.
  - apply keeps_addPerson.
  - apply keeps_recordCollection.
  - apply keeps_skipCollection.
  - apply keeps_undoCollection.
  - apply keeps_processWithdrawal.
  - apply keeps_processPartialWithdrawal.
  - apply keeps_deletePerson.
Qed.

Lemma trace_keeps_consistent (ops : list (Clock * Op)) (db : DB) :
  ledger_consistent db -> Forall ledger_consistent (trace ops db).
Proof.
  revert db. induction ops as [|[clk op] rest IH]; intros db H; simpl.
  - constructor.
  - pose proof (step_keeps_consistent clk op db H) as H1.
    constructor; [exact H1 | now apply IH].
Qed.

(** C3.  Starting from a database in which each person has at most one
    active cycle (and, as the schema's foreign key has it, every cycle
    belongs to a stored person), after each step of every sequence of
    [addPerson], [recordCollection], [skipCollection], [undoCollection],
    [processWithdrawal], [processPartialWithdrawal] and [deletePerson],
    whether the step returned or threw, each person has at most one active
    cycle. *)
Theorem at_most_one_active_cycle_invariant :
  forall (ops : list (Clock * Op)) (db : DB),
    cycles_reference_people db ->
    one_active_cycle db ->
    Forall one_active_cycle (trace ops db).
Proof.
  intros ops db Hfk Hone.
  pose proof (trace_keeps_consistent ops db (conj Hone Hfk)) as H.
  eapply Forall_impl; [|exact H]. intros s [Hs _]. exact Hs.
Qed.

Lemma at_most_one_active_cycle_invariant_witness :
  Forall one_active_cycle (trace sample_ops db_one_person).
Proof.
  apply (at_most_one_active_cycle_invariant sample_ops db_one_person).
  - intros c [<-|[]]. reflexivity.
  - intros q. unfold active_cycles_of.
    change (cycles db_one_person)
      with [mkCycle 1 1 "2025-01-01" None 0 true None None].
    cbn [filter]. destruct (is_active_cycle_of q _); simpl; lia.
Defined.

(** ** Totals can go negative (C2) *)

(** C2 fails on the code.  From one person with total 0: collecting 100,
    withdrawing those 100 partially and then undoing today's collection are
    three operations that all return, and the last one leaves the active
    cycle with total -100. *)
Theorem undo_after_partial_withdrawal_goes_negative :
  totals_nonnegative db_one_person /\
  Forall nonnegative_amount (map snd overdrawing_ops) /\
  map (fun s => map cycle_totalAmount (cycles s))
      (trace overdrawing_ops db_one_person)
    = [[100]; [0]; [-100]] /\
  fst (undoCollection sample_clock 1
         (snd (processPartialWithdrawal sample_clock 1 100 None
                 (snd (recordCollection sample_clock 1 100 None db_one_person)))))
    = Return tt /\
  ~ Forall totals_nonnegative (trace overdrawing_ops db_one_person).
Proof.
  split.
  { intros c [<-|[]]. simpl. lia. }
  split.
  { repeat constructor; simpl; lia. }
  split; [reflexivity|]. split; [reflexivity|].
  intros H.
  inversion H as [|s1 l1 _ H1]; subst.
  inversion H1 as [|s2 l2 _ H2]; subst.
  inversion H2 as [|s3 l3 H3 _]; subst.
  specialize (H3 (mkCycle 1 1 "2025-01-01" None (-100) true None None)
                 (or_introl eq_refl)).
  simpl in H3. lia.
Qed.

(** ** Restore from a backup (C8) *)

(** C8 fails on the code.  Restoring a backup of one person with two cycles
    (a closed one holding the collection of 2025-01-01 and a withdrawal, and
    the active one holding the collection of 2025-01-02) returns with one
    person imported and deletes what was stored, but stores a single cycle:
    both collections and the withdrawal are attached to that one new active
    cycle, and the closed cycle of the backup is not re-inserted. *)
Theorem restore_keeps_only_the_active_cycle :
  exists db',
    importDatabaseFromJSON restore_clock sample_backup db_collected_100
      = (Return 1, db') /\
    map person_id (people db') = [2] /\
    cycles db' = [mkCycle 2 2 "2025-01-01" None 50 true None None] /\
    map (fun r => (collection_date r, collection_cycleId r)) (collections db')
      = [("2025-01-02", 2); ("2025-01-01", 2)] /\
    map (fun w => (withdrawal_amount w, withdrawal_cycleId w)) (withdrawals db')
      = [(100, 2)] /\
    option_map (map (fun d => List.length (data_cycles d)))
               (backup_people sample_backup) = Some [2%nat].
Proof.
  exists (snd (importDatabaseFromJSON restore_clock sample_backup
                                      db_collected_100)).
  vm_compute. repeat split.
Qed.

Lemma keeps_for_each (I : DB -> Prop) {A} (rows : list A) (body : A -> M unit) :
  (forall x, keeps I (body x)) -> keeps I (for_each rows body).
Proof.
  intros Hbody. induction rows as [|x rest IH]; simpl.
  - apply keeps_ret.
  - apply keeps_bind; [apply Hbody | intros _; exact IH].
Qed.

Lemma keeps_cycles_insert_collection (cs : list Cycle) (clk : Clock) (p cid : Z)
    (day : string) (amount : option Z) (st : CollectionStatus)
    (n : option string) :
  keeps (fun s => cycles s = cs) (insert_collection clk p cid day amount st n).
Proof.
  intros db H. unfold insert_collection.
  destruct (person_exists db p && cycle_exists db cid); [|exact H].
  destruct (existsb _ _); exact H.
Qed.

Lemma keeps_cycles_insert_withdrawal (cs : list Cycle) (p cid amount : Z)
    (day : string) (n : option string) :
  keeps (fun s => cycles s = cs) (insert_withdrawal p cid amount day n).
Proof.
  intros db H. unfold insert_withdrawal.
  destruct (person_exists db p && cycle_exists db cid); exact H.
Qed.

Lemma import_person_adds_one_cycle (clk : Clock) (personData : PersonData)
    (db : DB) :
  exists c,
    cycle_isActive c = true /\
    cycles (snd (import_person clk personData db)) = cycles db ++ [c].
Proof.
  unfold import_person, insert_person, insert_cycle.
  unfold bind at 1. unfold bind at 1.
  unfold person_exists at 1. simpl. rewrite existsb_app. simpl.
  rewrite Z.eqb_refl, orb_true_r.
  match goal with
  | |- exists c, _ /\ cycles (snd (bind ?m ?k ?s)) = _ =>
      assert (K : keeps (fun x => cycles x = cycles s) (bind m k))
  end.
  { apply keeps_bind.
    - destruct (data_collections personData) as [rows|]; [|apply keeps_ret].
      apply keeps_for_each. intros x. apply keeps_cycles_insert_collection.
    - intros _.
      destruct (data_withdrawals personData) as [rows|]; [|apply keeps_ret].
      apply keeps_for_each. intros x.
      apply keeps_bind; [apply keeps_cycles_insert_withdrawal|].
      intros _. apply keeps_ret. }
  eexists. split.
  2: { rewrite (K _ eq_refl). simpl. reflexivity. }
  reflexivity.
Qed.

Lemma import_people_adds_cycles (clk : Clock) (persons : list PersonData) :
  forall (imported r : Z) (db db' : DB),
    import_people clk persons imported db = (Return r, db') ->
    r = imported + Z.of_nat (List.length persons) /\
    exists added,
      cycles db' = cycles db ++ added /\
      List.length added = List.length persons /\
      Forall (fun c => cycle_isActive c = true) added.
Proof.
  induction persons as [|pd rest IH]; intros imported r db db' H.
  - simpl in H. injection H as <- <-. split; [simpl; lia|].
    exists []. rewrite app_nil_r. repeat split. constructor.
  - simpl in H. unfold bind in H.
    destruct (import_person_adds_one_cycle clk pd db) as (c & Hact & Hcs).
    destruct (import_person clk pd db) as [[u|e] db1]; [|discriminate].
    simpl in Hcs.
    destruct (IH _ _ _ _ H) as (Hr & added & Hadd & Hlen & Hall).
    split; [simpl List.length; lia|].
    exists (c :: added). rewrite Hadd, Hcs, <- app_assoc. simpl.
    repeat split; [congruence | now constructor].
Qed.

(** What the example shows holds of every backup: a restore that returns has
    stored one cycle, an active one, for each person of the backup and no
    other, however many cycles the backup lists. *)
Lemma restore_stores_one_cycle_per_person (clk : Clock) (data : BackupData)
    (db db' : DB) (r : Z) :
  importDatabaseFromJSON clk data db = (Return r, db') ->
  exists persons,
    backup_people data = Some persons /\
    r = Z.of_nat (List.length persons) /\
    List.length (cycles db') = List.length persons /\
    Forall (fun c => cycle_isActive c = true) (cycles db').
Proof.
  unfold importDatabaseFromJSON, try_catch. intros H.
  destruct (backup_people data) as [persons|]; [|discriminate].
  exists persons. split; [reflexivity|].
  unfold delete_all_collections, delete_all_withdrawals, delete_all_cycles,
    delete_all_people, run_statement in H.
  unfold bind at 1 2 3 4 in H. simpl in H.
  match type of H with
  | context [import_people clk persons 0 ?s] =>
      destruct (import_people clk persons 0 s) as [[r0|e] s'] eqn:E;
      [|discriminate]
  end.
  injection H as <- <-.
  destruct (import_people_adds_cycles clk persons _ _ _ _ E)
    as (Hr & added & Hadd & Hlen & Hall).
  simpl in Hadd. subst r0. rewrite Hadd.
  split; [lia|]. split; [exact Hlen | exact Hall].
Qed.

(** * The callers and the rest of the service *)

(** ** Phone numbers and date fields *)

Lemma remove_non_digits_all_digits s : all_digits (remove_non_digits s) = true.
Proof.
  induction s as [|c rest IH]; simpl; [reflexivity|].
  destruct (is_digit c) eqn:E; simpl; [now rewrite E|exact IH].
Qed.

Lemma remove_non_digits_fixed s : all_digits s = true -> remove_non_digits s = s.
Proof.
  induction s as [|c rest IH]; simpl; [reflexivity|].
  intros H. apply andb_prop in H. destruct H as [Hc Hr].
  now rewrite Hc, IH.
Qed.

Lemma remove_non_digits_idempotent s :
  remove_non_digits (remove_non_digits s) = remove_non_digits s.
Proof. apply remove_non_digits_fixed, remove_non_digits_all_digits. Qed.

(** X1.  [formatPhoneNumber] is idempotent: formatting an already formatted
    number changes nothing. *)
Theorem formatPhoneNumber_idempotent phone :
  formatPhoneNumber (formatPhoneNumber phone) = formatPhoneNumber phone.
Proof.
  pose proof (remove_non_digits_idempotent phone) as Hd.
  unfold formatPhoneNumber.
  set (digits := remove_non_digits phone) in *.
  destruct (startsWith digits "91" && (String.length digits =? 12)%nat) eqn:E1.
  - simpl remove_non_digits. now rewrite Hd, E1.
  - destruct (String.length digits =? 10)%nat eqn:E2.
    + simpl remove_non_digits. rewrite Hd.
      apply Nat.eqb_eq in E2. simpl. rewrite E2. reflexivity.
    + fold digits. now rewrite E1, E2.
Qed.

(** X2.  [formatPhoneNumber] returns either its argument untouched or a
    plus sign followed by exactly twelve digits that start with 91. *)
Theorem formatPhoneNumber_shape phone :
  formatPhoneNumber phone = phone \/
  exists digits,
    formatPhoneNumber phone = ("+" ++ digits)%string /\
    all_digits digits = true /\
    String.length digits = 12%nat /\
    startsWith digits "91" = true.
Proof.
  pose proof (remove_non_digits_all_digits phone) as Hd.
  unfold formatPhoneNumber.
  set (digits := remove_non_digits phone) in *.
  destruct (startsWith digits "91" && (String.length digits =? 12)%nat) eqn:E1.
  - right. exists digits. apply andb_prop in E1. destruct E1 as [E1 E2].
    apply Nat.eqb_eq in E2. auto.
  - destruct (String.length digits =? 10)%nat eqn:E2; [|now left].
    right. exists ("91" ++ digits)%string. apply Nat.eqb_eq in E2.
    simpl. rewrite E2, Hd. auto.
Qed.

Lemma substring_all s : substring 0 (String.length s) s = s.
Proof. induction s; simpl; congruence. Qed.

Ltac digits_known :=
  repeat match goal with
  | H : is_digit ?c = true |- context [is_digit ?c] => rewrite H
  end.

Lemma all_digits_substring s : forall n m,
  all_digits s = true -> all_digits (substring n m s) = true.
Proof.
  induction s as [|c rest IH]; intros n m H.
  - destruct n, m; reflexivity.
  - simpl in H. apply andb_prop in H. destruct H as [Hc Hr].
    destruct n, m; simpl; auto. now rewrite Hc, IH.
Qed.

Ltac split_digits H :=
  simpl in H; repeat (apply andb_prop in H; destruct H as [? H]).

Lemma handleDateChange_digits ds :
  all_digits ds = true ->
  remove_non_digits (handleDateChange ds) = substring 0 8 ds /\
  handleDateChange (substring 0 8 ds) = handleDateChange ds /\
  (String.length (handleDateChange ds) <= 10)%nat /\
  ((8 <= String.length ds)%nat -> is_display_date (handleDateChange ds) = true).
Proof.
  intros H. unfold handleDateChange.
  rewrite (remove_non_digits_fixed ds H).
  rewrite (remove_non_digits_fixed (substring 0 8 ds))
    by now apply all_digits_substring.
  do 9 (destruct ds as [|? ds];
        [split_digits H; unfold slice, slice_from; simpl; digits_known;
         repeat split; try reflexivity; simpl; lia|]).
  split_digits H. unfold slice, slice_from. simpl. digits_known.
  repeat split; try reflexivity; simpl; lia.
Qed.

(** X4.  [handleDateChange] is idempotent: feeding the field its own
    formatted value leaves it as it is. *)
Theorem handleDateChange_idempotent text :
  handleDateChange (handleDateChange text) = handleDateChange text.
Proof.
  pose proof (remove_non_digits_all_digits text) as Hd.
  destruct (handleDateChange_digits _ Hd) as (Hclean & Hsame & _).
  assert (E : handleDateChange text = handleDateChange (remove_non_digits text)).
  { unfold handleDateChange. now rewrite remove_non_digits_idempotent. }
  rewrite E.
  transitivity (handleDateChange (remove_non_digits
                  (handleDateChange (remove_non_digits text)))).
  { unfold handleDateChange at 1 3. now rewrite remove_non_digits_idempotent. }
  now rewrite Hclean.
Qed.

Lemma split_on_hyphen_nonempty s : split_on_hyphen s <> [].
Proof.
  destruct s as [|c rest]; simpl; [discriminate|].
  destruct (Ascii.eqb c "-"); [discriminate|].
  destruct (split_on_hyphen rest); discriminate.
Qed.

Lemma split_single piece :
  no_hyphen piece = true -> split_on_hyphen piece = [piece].
Proof.
  induction piece as [|c rest IH]; simpl; [reflexivity|].
  intros H. apply andb_prop in H. destruct H as [Hc Hr].
  apply negb_true_iff in Hc. now rewrite Hc, IH.
Qed.

Lemma split_joined piece rest :
  no_hyphen piece = true ->
  split_on_hyphen (piece ++ String "-" rest) = piece :: split_on_hyphen rest.
Proof.
  induction piece as [|c p IH]; simpl; [reflexivity|].
  intros H. apply andb_prop in H. destruct H as [Hc Hr].
  apply negb_true_iff in Hc. now rewrite Hc, IH.
Qed.

Lemma split_then_join s :
  join_hyphen (split_on_hyphen s) = s /\
  Forall (fun p => no_hyphen p = true) (split_on_hyphen s).
Proof.
  induction s as [|c rest [IHj IHn]]; simpl.
  - split; [reflexivity | repeat constructor].
  - destruct (Ascii.eqb_spec c "-"%char) as [->|Hc].
    + pose proof (split_on_hyphen_nonempty rest) as Hne.
      destruct (split_on_hyphen rest) as [|p ps]; [contradiction|].
      split; [simpl in *; now rewrite IHj | now constructor].
    + pose proof (split_on_hyphen_nonempty rest) as Hne.
      destruct (split_on_hyphen rest) as [|p ps]; [contradiction|].
      inversion IHn as [|? ? Hp Hps]; subst. split.
      * destruct ps; reflexivity.
      * constructor; [|exact Hps]. simpl. rewrite Hp.
        apply Ascii.eqb_neq in Hc. now rewrite Hc.
Qed.

Lemma split_three s a b c :
  split_on_hyphen s = [a; b; c] ->
  s = (a ++ "-" ++ b ++ "-" ++ c)%string /\
  no_hyphen a = true /\ no_hyphen b = true /\ no_hyphen c = true.
Proof.
  intros H. destruct (split_then_join s) as [Hj Hn]. rewrite H in Hj, Hn.
  pose proof (Forall_inv Hn) as Ha.
  pose proof (Forall_inv (Forall_inv_tail Hn)) as Hb.
  pose proof (Forall_inv (Forall_inv_tail (Forall_inv_tail Hn))) as Hc.
  simpl in Hj, Ha, Hb, Hc. auto.
Qed.

Lemma split_of_three a b c :
  no_hyphen a = true -> no_hyphen b = true -> no_hyphen c = true ->
  split_on_hyphen (a ++ String "-" (b ++ String "-" c)) = [a; b; c].
Proof.
  intros Ha Hb Hc.
  now rewrite (split_joined a _ Ha), (split_joined b _ Hb), (split_single c Hc).
Qed.

(** X5.  On a string of three hyphen-separated parts [toDisplayDate] and
    [toStorageDate] are inverse to each other, in both orders. *)
Theorem start_date_round_trip s :
  List.length (split_on_hyphen s) = 3%nat ->
  toStorageDate (toDisplayDate s) = Some s /\
  option_map toDisplayDate (toStorageDate s) = Some s.
Proof.
  intros H.
  destruct (split_on_hyphen s) as [|a [|b [|c [|]]]] eqn:E; try discriminate.
  destruct (split_three s a b c E) as (Hs & Ha & Hb & Hc).
  unfold toStorageDate, toDisplayDate. rewrite E. simpl. simpl in Hs.
  rewrite !split_of_three by assumption. simpl. now rewrite Hs.
Qed.

Lemma digit_not_hyphen c : is_digit c = true -> Ascii.eqb c "-"%char = false.
Proof.
  intros H. destruct (Ascii.eqb_spec c "-"%char) as [->|]; [discriminate|reflexivity].
Qed.

(** X6.  A stored date of the form YYYY-MM-DD that the adjust screen shows
    with [toDisplayDate] passes the screen's format test and converts back
    to the very same stored date. *)
Theorem stored_date_survives_adjust_screen (y1 y2 y3 y4 m1 m2 d1 d2 : ascii) :
  is_digit y1 = true -> is_digit y2 = true -> is_digit y3 = true ->
  is_digit y4 = true -> is_digit m1 = true -> is_digit m2 = true ->
  is_digit d1 = true -> is_digit d2 = true ->
  let iso := String y1 (String y2 (String y3 (String y4 (String "-"
             (String m1 (String m2 (String "-" (String d1 (String d2 ""))))))))) in
  start_date_to_store (toDisplayDate iso) = Some iso.
Proof.
  intros Hy1 Hy2 Hy3 Hy4 Hm1 Hm2 Hd1 Hd2 iso. subst iso.
  pose proof (digit_not_hyphen _ Hy1). pose proof (digit_not_hyphen _ Hy2).
  pose proof (digit_not_hyphen _ Hy3). pose proof (digit_not_hyphen _ Hy4).
  pose proof (digit_not_hyphen _ Hm1). pose proof (digit_not_hyphen _ Hm2).
  pose proof (digit_not_hyphen _ Hd1). pose proof (digit_not_hyphen _ Hd2).
  unfold start_date_to_store, toDisplayDate, toStorageDate.
  repeat (progress (simpl;
    repeat match goal with
           | E : _ = _ |- _ => rewrite E
           end)).
  reflexivity.
Qed.

(** ** The schema's constraints are kept *)

Lemma person_exists_In (db : DB) (id : Z) :
  person_exists db id = true <-> In id (map person_id (people db)).
Proof.
  unfold person_exists. rewrite existsb_exists, in_map_iff.
  split; intros (x & H1 & H2).
  - exists x. apply Z.eqb_eq in H2. auto.
  - exists x. split; [exact H2 | now apply Z.eqb_eq].
Qed.

Lemma cycle_exists_In (db : DB) (id : Z) :
  cycle_exists db id = true <-> In id (map cycle_id (cycles db)).
Proof.
  unfold cycle_exists. rewrite existsb_exists, in_map_iff.
  split; intros (x & H1 & H2).
  - exists x. apply Z.eqb_eq in H2. auto.
  - exists x. split; [exact H2 | now apply Z.eqb_eq].
Qed.

Lemma NoDup_fresh_id (seq : Z) (ids : list Z) :
  NoDup ids -> NoDup (ids ++ [next_rowid seq ids]).
Proof.
  intros H. apply NoDup_app; [exact H | repeat constructor; simpl; tauto |].
  intros x Hx [<-|[]]. apply (next_rowid_fresh seq) in Hx. lia.
Qed.

Lemma NoDup_map_filter {A} (f : A -> Z) (g : A -> bool) (rows : list A) :
  NoDup (map f rows) -> NoDup (map f (filter g rows)).
Proof.
  induction rows as [|x rest IH]; simpl; intros H; [constructor|].
  inversion H as [|? ? Hx Hrest]; subst.
  destruct (g x); simpl; [|auto].
  constructor; [|auto]. intros Hin. apply Hx.
  apply in_map_iff in Hin. destruct Hin as (y & Hy & Hyin).
  apply filter_In in Hyin. apply in_map_iff. exists y. tauto.
Qed.

Lemma NoDup_replaced_id {A} (f : A -> Z) (g : A -> bool) (rows : list A)
    (seq : Z) (x : A) :
  f x = next_rowid seq (map f rows) ->
  NoDup (map f rows) ->
  NoDup (map f (filter g rows ++ [x])).
Proof.
  intros Hx H. rewrite map_app. simpl.
  apply NoDup_app; [now apply NoDup_map_filter | repeat constructor; simpl; tauto|].
  intros i Hi [<-|[]].
  apply in_map_iff in Hi. destruct Hi as (y & Hy & Hyin).
  apply filter_In in Hyin. destruct Hyin as [Hyin _].
  pose proof (next_rowid_fresh seq (map f rows) (f y) (in_map f _ _ Hyin)).
  lia.
Qed.

Lemma filter_filter_shrinks {A} (P g : A -> bool) (rows : list A) :
  (List.length (filter P (filter g rows)) <= List.length (filter P rows))%nat.
Proof.
  induction rows as [|x rest IH]; simpl; [lia|].
  destruct (g x); simpl; destruct (P x); simpl; lia.
Qed.

Lemma is_collection_on_same (p q : Z) (day d : string) (r : Collection) :
  is_collection_on p day r = true ->
  is_collection_on q d r = true ->
  forall x, is_collection_on q d x = is_collection_on p day x.
Proof.
  unfold is_collection_on. intros H1 H2 x.
  apply andb_prop in H1. destruct H1 as [Hp Hd].
  apply andb_prop in H2. destruct H2 as [Hq Hd'].
  apply Z.eqb_eq in Hp, Hq. apply String.eqb_eq in Hd, Hd'.
  congruence.
Qed.

Lemma one_row_after_replace (rows : list Collection) (p : Z) (day : string)
    (x : Collection) :
  is_collection_on p day x = true ->
  (forall q d, (List.length (filter (is_collection_on q d) rows) <= 1)%nat) ->
  forall q d,
    (List.length
       (filter (is_collection_on q d)
               (filter (fun r => negb (is_collection_on p day r)) rows ++ [x]))
     <= 1)%nat.
Proof.
  intros Hx H q d. rewrite filter_app, length_app. simpl.
  destruct (is_collection_on q d x) eqn:E; simpl.
  - rewrite (filter_ext _ _ (is_collection_on_same p q day d x Hx E)).
    rewrite filter_out_then_in. simpl. lia.
  - pose proof (filter_filter_shrinks (is_collection_on q d)
                  (fun r => negb (is_collection_on p day r)) rows).
    specialize (H q d). lia.
Qed.

Section SchemaKept.

Variable db : DB.
Hypothesis Hok : schema_ok db.

Lemma schema_ok_new_person (p : Person) :
  person_id p = next_rowid (seq_people db) (map person_id (people db)) ->
  schema_ok (mkDB (people db ++ [p]) (cycles db) (collections db)
                  (withdrawals db) (person_id p) (seq_cycles db)
                  (seq_collections db) (seq_withdrawals db)).
Proof.
  intros Hid. destruct Hok.
  assert (Hmono : forall id, person_exists db id = true ->
            person_exists (mkDB (people db ++ [p]) (cycles db) (collections db)
              (withdrawals db) (person_id p) (seq_cycles db)
              (seq_collections db) (seq_withdrawals db)) id = true).
  { intros id H. unfold person_exists in *. simpl. rewrite existsb_app, H.
    reflexivity. }
  constructor; simpl; auto.
  - rewrite map_app. simpl. rewrite Hid. now apply NoDup_fresh_id.
  - intros c Hc. apply Hmono. now apply cycles_refs0.
  - intros r Hr. destruct (collections_refs0 r Hr). split; auto.
  - intros w Hw. destruct (withdrawals_refs0 w Hw). split; auto.
Qed.

Lemma schema_ok_new_cycle (c : Cycle) :
  cycle_id c = next_rowid (seq_cycles db) (map cycle_id (cycles db)) ->
  person_exists db (cycle_personId c) = true ->
  schema_ok (mkDB (people db) (cycles db ++ [c]) (collections db)
                  (withdrawals db) (seq_people db) (cycle_id c)
                  (seq_collections db) (seq_withdrawals db)).
Proof.
  intros Hid Hp. destruct Hok.
  assert (Hmono : forall id, cycle_exists db id = true ->
            cycle_exists (mkDB (people db) (cycles db ++ [c]) (collections db)
              (withdrawals db) (seq_people db) (cycle_id c)
              (seq_collections db) (seq_withdrawals db)) id = true).
  { intros id H. unfold cycle_exists in *. simpl. rewrite existsb_app, H.
    reflexivity. }
  constructor; simpl; auto.
  - rewrite map_app. simpl. rewrite Hid. now apply NoDup_fresh_id.
  - intros x Hx. simpl in Hx. apply in_app_or in Hx.
    destruct Hx as [Hx|[<-|[]]]; [now apply cycles_refs0 | exact Hp].
  - intros r Hr. destruct (collections_refs0 r Hr). split; auto.
  - intros w Hw. destruct (withdrawals_refs0 w Hw). split; auto.
Qed.

Lemma schema_ok_replaced_collection (x : Collection) (p : Z) (day : string) :
  collection_id x
  = next_rowid (seq_collections db) (map collection_id (collections db)) ->
  is_collection_on p day x = true ->
  collection_refs_ok db x ->
  schema_ok (mkDB (people db) (cycles db)
                  (filter (fun r => negb (is_collection_on p day r))
                          (collections db) ++ [x])
                  (withdrawals db) (seq_people db) (seq_cycles db)
                  (collection_id x) (seq_withdrawals db)).
Proof.
  intros Hid Hon Href. destruct Hok.
  constructor; simpl; auto.
  - eapply NoDup_replaced_id; eauto.
  - intros r Hr. apply in_app_or in Hr.
    destruct Hr as [Hr|[<-|[]]]; [|exact Href].
    apply filter_In in Hr. now apply collections_refs0.
  - intros q d. unfold collections_on. simpl.
    now apply one_row_after_replace.
Qed.

Lemma schema_ok_deleted_collection (p : Z) (day : string) :
  schema_ok (mkDB (people db) (cycles db)
                  (filter (fun r => negb (is_collection_on p day r))
                          (collections db))
                  (withdrawals db) (seq_people db) (seq_cycles db)
                  (seq_collections db) (seq_withdrawals db)).
Proof.
  destruct Hok. constructor; simpl; auto.
  - now apply NoDup_map_filter.
  - intros r Hr. apply filter_In in Hr. now apply collections_refs0.
  - intros q d. unfold collections_on. simpl.
    pose proof (filter_filter_shrinks (is_collection_on q d)
                  (fun r => negb (is_collection_on p day r)) (collections db)).
    specialize (collections_unique0 q d). unfold collections_on in *. lia.
Qed.

Lemma schema_ok_new_withdrawal (w : Withdrawal) :
  withdrawal_id w
  = next_rowid (seq_withdrawals db) (map withdrawal_id (withdrawals db)) ->
  withdrawal_refs_ok db w ->
  schema_ok (mkDB (people db) (cycles db) (collections db)
                  (withdrawals db ++ [w]) (seq_people db) (seq_cycles db)
                  (seq_collections db) (withdrawal_id w)).
Proof.
  intros Hid Href. destruct Hok. constructor; simpl; auto.
  - rewrite map_app. simpl. rewrite Hid. now apply NoDup_fresh_id.
  - intros x Hx. apply in_app_or in Hx.
    destruct Hx as [Hx|[<-|[]]]; [now apply withdrawals_refs0 | exact Href].
Qed.

Lemma schema_ok_updated_cycles (cycleId : Z) (f : Cycle -> Cycle) :
  (forall c, cycle_id (f c) = cycle_id c) ->
  (forall c, cycle_personId (f c) = cycle_personId c) ->
  schema_ok (update_cycles cycleId f db).
Proof.
  intros Hid Hpid. destruct Hok.
  assert (Hids : map cycle_id (cycles (update_cycles cycleId f db))
                 = map cycle_id (cycles db))
    by (apply cycle_ids_after_update; exact Hid).
  assert (Hex : forall id, cycle_exists (update_cycles cycleId f db) id
                           = cycle_exists db id).
  { intros id. apply eq_true_iff_eq. rewrite !cycle_exists_In, Hids. tauto. }
  constructor; auto.
  - now rewrite Hids.
  - intros c Hc. unfold update_cycles in Hc. simpl in Hc.
    apply in_map_iff in Hc. destruct Hc as (x & <- & Hx).
    unfold person_exists, update_cycles. simpl.
    destruct (cycle_id x =? cycleId); [rewrite Hpid|]; now apply cycles_refs0.
  - intros r Hr. destruct (collections_refs0 r Hr). split; [assumption|].
    now rewrite Hex.
  - intros w Hw. destruct (withdrawals_refs0 w Hw). split; [assumption|].
    now rewrite Hex.
Qed.

Lemma schema_ok_updated_people (id : Z) (f : Person -> Person) :
  (forall p, person_id (f p) = person_id p) ->
  schema_ok (mkDB (map (fun p => if person_id p =? id then f p else p) (people db))
                  (cycles db) (collections db) (withdrawals db)
                  (seq_people db) (seq_cycles db) (seq_collections db)
                  (seq_withdrawals db)).
Proof.
  intros Hid. destruct Hok.
  assert (Hids : map person_id
                   (map (fun p => if person_id p =? id then f p else p) (people db))
                 = map person_id (people db)).
  { rewrite map_map. apply map_ext. intros p.
    destruct (person_id p =? id); [apply Hid | reflexivity]. }
  assert (Hex : forall i,
            person_exists
              (mkDB (map (fun p => if person_id p =? id then f p else p) (people db))
                    (cycles db) (collections db) (withdrawals db)
                    (seq_people db) (seq_cycles db) (seq_collections db)
                    (seq_withdrawals db)) i
            = person_exists db i).
  { intros i. apply eq_true_iff_eq. rewrite !person_exists_In. simpl.
    rewrite Hids. tauto. }
  constructor; simpl; auto.
  - now rewrite Hids.
  - intros c Hc. rewrite Hex. now apply cycles_refs0.
  - intros r Hr. destruct (collections_refs0 r Hr). split; [|assumption].
    now rewrite Hex.
  - intros w Hw. destruct (withdrawals_refs0 w Hw). split; [|assumption].
    now rewrite Hex.
Qed.

End SchemaKept.

Create HintDb keeps.

Lemma keeps_schema_insert_person (clk : Clock) (name : string)
    (phone location photoPath : option string) (defaultAmount : Z)
    (frequency : Frequency) (notes : option string) (isActive : bool) :
  keeps schema_ok (insert_person clk name phone location photoPath defaultAmount
                                 frequency notes isActive).
Proof.
  intros db H. unfold insert_person. simpl.
  apply (schema_ok_new_person db H
           (mkPerson (next_rowid (seq_people db) (map person_id (people db)))
                     name phone location photoPath defaultAmount frequency notes
                     isActive (datetime_now clk) (datetime_now clk))).
  reflexivity.
Qed.

Lemma keeps_schema_insert_cycle (p total : Z) (start : string) :
  keeps schema_ok (insert_cycle p start total).
Proof.
  intros db H. unfold insert_cycle.
  destruct (person_exists db p) eqn:Hp; simpl; [|exact H].
  apply (schema_ok_new_cycle db H
           (mkCycle (next_rowid (seq_cycles db) (map cycle_id (cycles db)))
                    p start None total true None None)); auto.
Qed.

Lemma keeps_schema_insert_or_replace_collection (clk : Clock) (p cid : Z)
    (day : string) (amount : option Z) (st : CollectionStatus)
    (n : option string) :
  keeps schema_ok (insert_or_replace_collection clk p cid day amount st n).
Proof.
  intros db H. unfold insert_or_replace_collection.
  destruct (person_exists db p && cycle_exists db cid) eqn:E; simpl; [|exact H].
  apply andb_prop in E.
  apply (schema_ok_replaced_collection db H
           (mkCollection (next_rowid (seq_collections db)
                                     (map collection_id (collections db)))
                         p cid day amount st n (datetime_now clk)) p day);
    [reflexivity | apply is_collection_on_new | exact E].
Qed.

Lemma keeps_schema_delete_collection (p : Z) (day : string) :
  keeps schema_ok (delete_collection p day).
Proof. intros db H. now apply schema_ok_deleted_collection. Qed.

Lemma keeps_schema_insert_withdrawal (p cid amount : Z) (day : string)
    (n : option string) :
  keeps schema_ok (insert_withdrawal p cid amount day n).
Proof.
  intros db H. unfold insert_withdrawal.
  destruct (person_exists db p && cycle_exists db cid) eqn:E; simpl; [|exact H].
  apply andb_prop in E.
  apply (schema_ok_new_withdrawal db H
           (mkWithdrawal (next_rowid (seq_withdrawals db)
                                     (map withdrawal_id (withdrawals db)))
                         p cid amount day n)); [reflexivity | exact E].
Qed.

Lemma keeps_schema_add_to_total (cycleId delta : Z) :
  keeps schema_ok (run_statement (update_cycles cycleId (add_to_total delta))).
Proof. intros db H. now apply schema_ok_updated_cycles. Qed.

Lemma keeps_schema_closeCycle (clk : Clock) (cycleId : Z) :
  keeps schema_ok (closeCycle clk cycleId).
Proof. intros db H. now apply schema_ok_updated_cycles. Qed.

Lemma keeps_schema_createCycle (clk : Clock) (p : Z) :
  keeps schema_ok (createCycle clk p).
Proof. apply keeps_schema_insert_cycle. Qed.

Lemma keeps_schema_deletePerson (id : Z) : keeps schema_ok (deletePerson id).
Proof. intros db H. now apply (schema_ok_updated_people db H id soft_delete). Qed.

#[local] Hint Resolve keeps_schema_insert_person keeps_schema_insert_cycle
  keeps_schema_insert_or_replace_collection keeps_schema_delete_collection
  keeps_schema_insert_withdrawal keeps_schema_add_to_total
  keeps_schema_closeCycle keeps_schema_createCycle keeps_schema_deletePerson
  : keeps.

(** One step of a proof that a composed action keeps a predicate. *)
Ltac keeps_step :=
  first
    [ apply keeps_ret
    | apply keeps_throw
    | apply keeps_query
    | solve [auto with keeps]
    | apply keeps_bind; [|intros ?]
    | match goal with
      | |- keeps _ (match ?x with _ => _ end) => destruct x
      end ].

Ltac keeps_all := repeat keeps_step.

Ltac unfold_ops :=
  unfold addPerson, recordCollection, skipCollection, undoCollection,
    processWithdrawal, processPartialWithdrawal, active_cycle_or_create,
    getActiveCycle, getTodayCollection.

Lemma step_keeps_schema (clk : Clock) (op : Op) (db : DB) :
  schema_ok db -> schema_ok (step clk op db).
Proof.
  intros H. destruct op; unfold step;
    match goal with
    | |- schema_ok (snd (?m db)) =>
        let K := fresh in
        assert (K : keeps schema_ok m) by (unfold_ops; keeps_all);
        exact (K db H)
    end.
Qed.

(** ** Every person keeps exactly one active cycle *)

Lemma has_cycle_kept (db db' : DB) :
  (forall p, In p (people db') -> In (person_id p) (map person_id (people db))) ->
  (forall id, active_cycles_of db id <> [] -> active_cycles_of db' id <> []) ->
  every_person_has_cycle db -> every_person_has_cycle db'.
Proof.
  intros Hp Hc H p Hin. apply Hc.
  specialize (Hp p Hin). apply in_map_iff in Hp. destruct Hp as (p0 & Hid & Hp0).
  rewrite <- Hid. now apply H.
Qed.

Lemma keeps_has_cycle_insert_or_replace_collection (clk : Clock) (p cid : Z)
    (day : string) (amount : option Z) (st : CollectionStatus)
    (n : option string) :
  keeps every_person_has_cycle
        (insert_or_replace_collection clk p cid day amount st n).
Proof.
  intros db H. unfold insert_or_replace_collection.
  destruct (person_exists db p && cycle_exists db cid); exact H.
Qed.

Lemma keeps_has_cycle_delete_collection (p : Z) (day : string) :
  keeps every_person_has_cycle (delete_collection p day).
Proof. intros db H. exact H. Qed.

Lemma keeps_has_cycle_insert_withdrawal (p cid amount : Z) (day : string)
    (n : option string) :
  keeps every_person_has_cycle (insert_withdrawal p cid amount day n).
Proof.
  intros db H. unfold insert_withdrawal.
  destruct (person_exists db p && cycle_exists db cid); exact H.
Qed.

Lemma keeps_has_cycle_add_to_total (cycleId delta : Z) :
  keeps every_person_has_cycle
        (run_statement (update_cycles cycleId (add_to_total delta))).
Proof.
  intros db H p Hin. simpl in Hin. specialize (H p Hin).
  unfold active_cycles_of, update_cycles in *. simpl.
  rewrite filter_map_stable by (intros x; apply active_after_add).
  destruct (filter _ (cycles db)); [contradiction | discriminate].
Qed.

Lemma keeps_has_cycle_createCycle (clk : Clock) (p : Z) :
  keeps every_person_has_cycle (createCycle clk p).
Proof.
  intros db H. unfold createCycle, insert_cycle.
  destruct (person_exists db p); simpl; [|exact H].
  intros q Hin. simpl in Hin. specialize (H q Hin).
  unfold active_cycles_of in *. simpl. rewrite filter_app.
  destruct (filter _ (cycles db)); [contradiction | discriminate].
Qed.

Lemma keeps_has_cycle_deletePerson (id : Z) :
  keeps every_person_has_cycle (deletePerson id).
Proof.
  intros db H. apply (has_cycle_kept db); [|auto|exact H].
  intros p Hin. simpl in Hin. apply in_map_iff in Hin.
  destruct Hin as (x & <- & Hx).
  destruct (person_id x =? id); simpl; now apply in_map.
Qed.

#[local] Hint Resolve keeps_has_cycle_insert_or_replace_collection
  keeps_has_cycle_delete_collection keeps_has_cycle_insert_withdrawal
  keeps_has_cycle_add_to_total keeps_has_cycle_createCycle
  keeps_has_cycle_deletePerson : keeps.

Lemma keeps_has_cycle_addPerson (clk : Clock) (person : NewPerson) :
  keeps every_person_has_cycle (addPerson clk person).
Proof.
  intros db H.
  unfold addPerson, insert_person, createCycle, insert_cycle, bind, ret.
  unfold person_exists at 1. simpl. rewrite existsb_app. simpl.
  rewrite Z.eqb_refl, orb_true_r. simpl.
  intros q Hin. simpl in Hin. unfold active_cycles_of. simpl.
  rewrite filter_app. apply in_app_or in Hin. destruct Hin as [Hin|[<-|[]]].
  - specialize (H q Hin). unfold active_cycles_of in H.
    destruct (filter _ (cycles db)); [contradiction | discriminate].
  - simpl. unfold is_active_cycle_of at 2. simpl. rewrite Z.eqb_refl. simpl.
    destruct (filter _ (cycles db)); discriminate.
Qed.

Lemma same_id_same_cycle (db : DB) (x y : Cycle) :
  NoDup (map cycle_id (cycles db)) ->
  In x (cycles db) -> In y (cycles db) -> cycle_id x = cycle_id y -> x = y.
Proof.
  induction (cycles db) as [|c cs IH]; simpl; [tauto|].
  intros Hnd Hx Hy Hid. inversion Hnd as [|? ? Hc Hcs]; subst.
  destruct Hx as [->|Hx], Hy as [->|Hy]; auto.
  - exfalso. apply Hc. rewrite Hid. now apply in_map.
  - exfalso. apply Hc. rewrite <- Hid. now apply in_map.
Qed.

Lemma ledger_ok_processWithdrawal (clk : Clock) (p : Z) (n : option string) :
  keeps ledger_ok (processWithdrawal clk p n).
Proof.
  intros db (Hs & Hone & Hhas).
  assert (Hcons : ledger_consistent db) by (split; [exact Hone | apply Hs]).
  split; [|split].
  - revert db Hs Hone Hhas Hcons.
    assert (K : keeps schema_ok (processWithdrawal clk p n))
      by (unfold_ops; keeps_all).
    intros db Hs _ _ _. exact (K db Hs).
  - apply (keeps_processWithdrawal clk p n db Hcons).
  - unfold processWithdrawal, getActiveCycle, insert_withdrawal, closeCycle,
      createCycle, insert_cycle, run_statement, query, bind, ret, throw.
    destruct (find (is_active_cycle_of p) (cycles db)) as [c|] eqn:Hc;
      [|exact Hhas].
    destruct (person_exists db p) eqn:Hp; simpl; [|exact Hhas].
    destruct (cycle_exists db (cycle_id c)); simpl; [|exact Hhas].
    replace (person_exists (update_cycles _ _ _) p) with true
      by (symmetry; exact Hp).
    simpl. intros q Hq. simpl in Hq. unfold active_cycles_of. simpl.
    rewrite filter_app. simpl. unfold is_active_cycle_of at 2. simpl.
    destruct (Z.eqb_spec p (person_id q)) as [E|E]; simpl.
    + destruct (filter _ (map _ (cycles db))); discriminate.
    + rewrite app_nil_r. specialize (Hhas q Hq). unfold active_cycles_of in Hhas.
      destruct (filter (is_active_cycle_of (person_id q)) (cycles db))
        as [|cq more] eqn:Hf; [contradiction|].
      assert (Hcq : In cq (filter (is_active_cycle_of (person_id q)) (cycles db)))
        by (rewrite Hf; now left).
      apply filter_In in Hcq. destruct Hcq as [Hin Hact].
      pose proof (find_some _ _ Hc) as [Hcin Hcact].
      assert (Hneq : cycle_id cq <> cycle_id c).
      { intros Heq.
        pose proof (same_id_same_cycle db cq c (cycle_ids_unique db Hs)
                      Hin Hcin Heq) as ->.
        unfold is_active_cycle_of in Hact, Hcact.
        apply andb_prop in Hact, Hcact.
        destruct Hact as [Ha _], Hcact as [Hb _].
        apply Z.eqb_eq in Ha, Hb. congruence. }
      intros Hnil.
      assert (Hin' : In cq (filter (is_active_cycle_of (person_id q))
                (map (fun x => if cycle_id x =? cycle_id c then close clk x else x)
                     (cycles db)))).
      { apply filter_In. split; [|exact Hact].
        apply in_map_iff. exists cq. split; [|exact Hin].
        destruct (Z.eqb_spec (cycle_id cq) (cycle_id c)); [contradiction|reflexivity]. }
      rewrite Hnil in Hin'. exact Hin'.
Qed.

Lemma step_keeps_ledger_ok (clk : Clock) (op : Op) (db : DB) :
  ledger_ok db -> ledger_ok (step clk op db).
Proof.
  intros H.
  destruct op; try exact (ledger_ok_processWithdrawal clk _ _ db H);
    destruct H as (Hs & Hone & Hhas);
    (split; [now apply step_keeps_schema|]);
    (split;
     [apply (step_keeps_consistent clk _ db); split; [exact Hone | apply Hs]|]);
    unfold step;
    match goal with
    | |- every_person_has_cycle (snd (?m db)) =>
        let K := fresh in
        assert (K : keeps every_person_has_cycle m)
          by (first [apply keeps_has_cycle_addPerson | unfold_ops; keeps_all]);
        exact (K db Hhas)
    end.
Qed.

Lemma run_keeps_ledger_ok (ops : list (Clock * Op)) (db : DB) :
  ledger_ok db -> ledger_ok (run ops db).
Proof.
  revert db. induction ops as [|[clk op] rest IH]; intros db H; [exact H|].
  apply IH. now apply step_keeps_ledger_ok.
Qed.

Lemma empty_db_ledger_ok : ledger_ok empty_db.
Proof.
  split; [|split].
  - constructor; simpl.
    + apply NoDup_nil.
    + apply NoDup_nil.
    + apply NoDup_nil.
    + apply NoDup_nil.
    + intros c [].
    + intros r [].
    + intros w [].
    + intros p day. unfold collections_on. simpl. apply Nat.le_0_l.
  - intros p. unfold active_cycles_of. simpl. apply Nat.le_0_l.
  - intros p [].
Qed.

(** X9.  In every state reached from the empty database by a sequence of
    [addPerson], [recordCollection], [skipCollection], [undoCollection],
    [processWithdrawal], [processPartialWithdrawal] and [deletePerson] calls
    (the operations of [Op]; [createCycle] and [closeCycle] only as these call
    them), each stored person has exactly one active cycle, and
    [getActiveCycle] returns it. *)
Theorem every_person_has_one_active_cycle :
  forall (ops : list (Clock * Op)) (p : Person),
    In p (people (run ops empty_db)) ->
    exists c,
      active_cycles_of (run ops empty_db) (person_id p) = [c] /\
      getActiveCycle (person_id p) (run ops empty_db)
        = (Return (Some c), run ops empty_db) /\
      cycle_personId c = person_id p /\ cycle_isActive c = true.
Proof.
  intros ops p Hin.
  destruct (run_keeps_ledger_ok ops empty_db empty_db_ledger_ok)
    as (_ & Hone & Hhas).
  specialize (Hone (person_id p)). specialize (Hhas p Hin).
  destruct (active_cycles_of (run ops empty_db) (person_id p))
    as [|c [|c' more]] eqn:E; [contradiction| |simpl in Hone; lia].
  exists c. split; [reflexivity|].
  assert (Hc : In c (active_cycles_of (run ops empty_db) (person_id p)))
    by (rewrite E; now left).
  apply filter_In in Hc. destruct Hc as [Hcin Hact].
  unfold is_active_cycle_of in Hact. apply andb_prop in Hact.
  destruct Hact as [Hpid Hactive]. apply Z.eqb_eq in Hpid.
  repeat split; auto.
  unfold getActiveCycle, query. f_equal. f_equal.
  unfold active_cycles_of in E.
  destruct (find (is_active_cycle_of (person_id p)) (cycles (run ops empty_db)))
    as [c0|] eqn:F.
  - destruct (find_head_of_filter _ _ _ F) as [more Hm]. congruence.
  - apply find_none_filter in F. congruence.
Qed.

(** ** What the engine never does *)

Lemma keeps_bind_with {A B} (I : DB -> Prop) (J : A -> Prop) (m : M A)
    (k : A -> M B) :
  (forall db, I db ->
     I (snd (m db)) /\ forall a, fst (m db) = Return a -> J a) ->
  (forall a, J a -> keeps I (k a)) ->
  keeps I (bind m k).
Proof.
  intros Hm Hk db H. unfold bind. destruct (Hm db H) as [HI HJ].
  destruct (m db) as [[a|e] db']; simpl in *.
  - apply Hk; auto.
  - exact HI.
Qed.

Lemma keeps_withdrawals_insert_withdrawal (ws : list Withdrawal)
    (p cid amount : Z) (day : string) (n : option string) :
  keeps (withdrawals_extend ws) (insert_withdrawal p cid amount day n).
Proof.
  intros db [added H]. unfold insert_withdrawal.
  destruct (person_exists db p && cycle_exists db cid); simpl;
    [|now exists added].
  eexists. rewrite H, <- app_assoc. reflexivity.
Qed.

Lemma keeps_withdrawals_same (ws : list Withdrawal) {A} (m : M A) :
  (forall db, withdrawals (snd (m db)) = withdrawals db) ->
  keeps (withdrawals_extend ws) m.
Proof. intros Hm db [added H]. exists added. now rewrite Hm. Qed.

Lemma keeps_withdrawals_insert_or_replace_collection (ws : list Withdrawal)
    (clk : Clock) (p cid : Z) (day : string) (amount : option Z)
    (st : CollectionStatus) (n : option string) :
  keeps (withdrawals_extend ws)
        (insert_or_replace_collection clk p cid day amount st n).
Proof.
  apply keeps_withdrawals_same. intros db. unfold insert_or_replace_collection.
  destruct (person_exists db p && cycle_exists db cid); reflexivity.
Qed.

Lemma keeps_withdrawals_insert_cycle (ws : list Withdrawal) (p total : Z)
    (start : string) :
  keeps (withdrawals_extend ws) (insert_cycle p start total).
Proof.
  apply keeps_withdrawals_same. intros db. unfold insert_cycle.
  destruct (person_exists db p); reflexivity.
Qed.

Lemma keeps_withdrawals_createCycle (ws : list Withdrawal) (clk : Clock) (p : Z) :
  keeps (withdrawals_extend ws) (createCycle clk p).
Proof. apply keeps_withdrawals_insert_cycle. Qed.

Lemma keeps_withdrawals_statement (ws : list Withdrawal) (f : DB -> DB) :
  (forall db, withdrawals (f db) = withdrawals db) ->
  keeps (withdrawals_extend ws) (run_statement f).
Proof. intros Hf. now apply keeps_withdrawals_same. Qed.

Lemma keeps_withdrawals_insert_person (ws : list Withdrawal) (clk : Clock)
    (name : string) (phone location photoPath : option string)
    (defaultAmount : Z) (frequency : Frequency) (notes : option string)
    (isActive : bool) :
  keeps (withdrawals_extend ws)
        (insert_person clk name phone location photoPath defaultAmount
                       frequency notes isActive).
Proof. now apply keeps_withdrawals_same. Qed.

#[local] Hint Resolve keeps_withdrawals_insert_withdrawal
  keeps_withdrawals_insert_or_replace_collection keeps_withdrawals_insert_cycle
  keeps_withdrawals_createCycle keeps_withdrawals_insert_person : keeps.
#[local] Hint Extern 1 (keeps (withdrawals_extend _) (run_statement _)) =>
  apply keeps_withdrawals_statement; reflexivity : keeps.
#[local] Hint Extern 1 (keeps (withdrawals_extend _) (delete_collection _ _)) =>
  apply keeps_withdrawals_statement; reflexivity : keeps.
#[local] Hint Extern 1 (keeps (withdrawals_extend _) (closeCycle _ _)) =>
  apply keeps_withdrawals_statement; reflexivity : keeps.
#[local] Hint Extern 1 (keeps (withdrawals_extend _) (deletePerson _)) =>
  apply keeps_withdrawals_statement; reflexivity : keeps.



Section ClosedCycle.

Variable x : Cycle.
Hypothesis Hclosed : cycle_isActive x = false.

Lemma keeps_cycle_same {A} (m : M A) :
  (forall db, cycles (snd (m db)) = cycles db) -> keeps (cycle_kept x) m.
Proof. intros Hm db [H1 H2]. split; rewrite Hm; assumption. Qed.

Lemma keeps_cycle_update (cycleId : Z) (f : Cycle -> Cycle) :
  (forall c, cycle_id (f c) = cycle_id c) ->
  cycleId <> cycle_id x ->
  keeps (cycle_kept x) (run_statement (update_cycles cycleId f)).
Proof.
  intros Hf Hneq db [Hnd Hin]. split; simpl.
  - now rewrite cycle_ids_after_update.
  - apply in_map_iff. exists x. split; [|exact Hin].
    destruct (Z.eqb_spec (cycle_id x) cycleId); [congruence|reflexivity].
Qed.

Lemma keeps_cycle_insert_cycle (p total : Z) (start : string) :
  keeps (cycle_kept x) (insert_cycle p start total).
Proof.
  intros db [Hnd Hin]. unfold insert_cycle.
  destruct (person_exists db p); simpl; [|now split].
  split; simpl.
  - rewrite map_app. simpl. now apply NoDup_fresh_id.
  - apply in_or_app. now left.
Qed.

Lemma active_id_differs (db : DB) (p : Z) (c : Cycle) :
  cycle_kept x db ->
  find (is_active_cycle_of p) (cycles db) = Some c ->
  cycle_id c <> cycle_id x.
Proof.
  intros [Hnd Hin] Hc Heq. apply find_some in Hc. destruct Hc as [Hcin Hact].
  rewrite (same_id_same_cycle db c x Hnd Hcin Hin Heq) in Hact.
  unfold is_active_cycle_of in Hact. rewrite Hclosed, andb_false_r in Hact.
  discriminate.
Qed.

Lemma active_cycle_or_create_differs (clk : Clock) (p : Z) (db : DB) :
  cycle_kept x db ->
  cycle_kept x (snd (active_cycle_or_create clk p db)) /\
  forall cid, fst (active_cycle_or_create clk p db) = Return cid ->
              cid <> cycle_id x.
Proof.
  intros H. unfold active_cycle_or_create, getActiveCycle, query, bind, ret.
  destruct (find (is_active_cycle_of p) (cycles db)) as [c|] eqn:Hc; simpl.
  - split; [exact H|]. intros cid [= <-]. now apply (active_id_differs db p).
  - split; [now apply keeps_cycle_insert_cycle|].
    unfold createCycle, insert_cycle. destruct (person_exists db p); simpl.
    + intros cid [= <-]. destruct H as [_ Hin].
      pose proof (next_cycle_id_fresh db x Hin). lia.
    + discriminate.
Qed.

Lemma keeps_cycle_insert_or_replace_collection (clk : Clock) (p cid : Z)
    (day : string) (amount : option Z) (st : CollectionStatus)
    (n : option string) :
  keeps (cycle_kept x) (insert_or_replace_collection clk p cid day amount st n).
Proof.
  apply keeps_cycle_same. intros db. unfold insert_or_replace_collection.
  destruct (person_exists db p && cycle_exists db cid); reflexivity.
Qed.

Lemma keeps_cycle_insert_withdrawal (p cid amount : Z) (day : string)
    (n : option string) :
  keeps (cycle_kept x) (insert_withdrawal p cid amount day n).
Proof.
  apply keeps_cycle_same. intros db. unfold insert_withdrawal.
  destruct (person_exists db p && cycle_exists db cid); reflexivity.
Qed.

Lemma keeps_cycle_after_active (p : Z) {B} (k : option Cycle -> M B) :
  (forall c, cycle_id c <> cycle_id x -> keeps (cycle_kept x) (k (Some c))) ->
  keeps (cycle_kept x) (k None) ->
  keeps (cycle_kept x) (bind (getActiveCycle p) k).
Proof.
  intros Hsome Hnone db H. unfold bind, getActiveCycle, query.
  destruct (find (is_active_cycle_of p) (cycles db)) as [c|] eqn:Hc.
  - apply Hsome; [now apply (active_id_differs db p)|exact H].
  - now apply Hnone.
Qed.

Lemma step_keeps_closed_cycle (clk : Clock) (op : Op) (db : DB) :
  cycle_kept x db -> cycle_kept x (step clk op db).
Proof.
  intros H. destruct op; unfold step.
  - (* addPerson *)
    revert db H. change (keeps (cycle_kept x) (addPerson clk person)).
    unfold addPerson. apply keeps_bind; [now apply keeps_cycle_same|].
    intros id. apply keeps_bind; [apply keeps_cycle_insert_cycle|].
    intros _. apply keeps_ret.
  - (* recordCollection *)
    revert db H. change (keeps (cycle_kept x) (recordCollection clk personId amount notes)).
    unfold recordCollection.
    apply (keeps_bind_with _ (fun cid => cid <> cycle_id x));
      [apply active_cycle_or_create_differs|].
    intros cid Hcid. apply keeps_bind; [apply keeps_query|]. intros existing.
    apply keeps_bind; [apply keeps_cycle_insert_or_replace_collection|].
    intros _. now apply keeps_cycle_update.
  - (* skipCollection *)
    revert db H. change (keeps (cycle_kept x) (skipCollection clk personId notes)).
    unfold skipCollection.
    apply (keeps_bind_with _ (fun cid => cid <> cycle_id x));
      [apply active_cycle_or_create_differs|].
    intros cid Hcid. apply keeps_cycle_insert_or_replace_collection.
  - (* undoCollection *)
    revert db H. change (keeps (cycle_kept x) (undoCollection clk personId)).
    unfold undoCollection.
    apply keeps_bind; [apply keeps_query|]. intros existing.
    apply keeps_bind; [now apply keeps_cycle_same|]. intros _.
    destruct (collected_amount existing >? 0); [|apply keeps_ret].
    apply keeps_cycle_after_active; [|apply keeps_ret].
    intros c Hc. now apply keeps_cycle_update.
  - (* processWithdrawal *)
    revert db H. change (keeps (cycle_kept x) (processWithdrawal clk personId notes)).
    unfold processWithdrawal.
    apply keeps_cycle_after_active; [|apply keeps_throw].
    intros c Hc.
    apply keeps_bind; [apply keeps_cycle_insert_withdrawal|]. intros wid.
    apply keeps_bind; [now apply keeps_cycle_update|]. intros _.
    apply keeps_bind; [apply keeps_cycle_insert_cycle|]. intros _.
    apply keeps_ret.
  - (* processPartialWithdrawal *)
    revert db H.
    change (keeps (cycle_kept x)
                  (processPartialWithdrawal clk personId amount notes)).
    unfold processPartialWithdrawal.
    apply keeps_cycle_after_active; [|apply keeps_throw].
    intros c Hc.
    destruct (amount >? cycle_totalAmount c); [apply keeps_throw|].
    apply keeps_bind; [apply keeps_cycle_insert_withdrawal|]. intros wid.
    apply keeps_bind; [now apply keeps_cycle_update|]. intros _.
    apply keeps_ret.
  - (* deletePerson *)
    revert db H. change (keeps (cycle_kept x) (deletePerson id)).
    now apply keeps_cycle_same.
Qed.

End ClosedCycle.

(** X11.  A closed cycle is never touched again by [addPerson],
    [recordCollection], [skipCollection], [undoCollection],
    [processWithdrawal], [processPartialWithdrawal] or [deletePerson]:
    whatever sequence of these operations follows, the row stays in the
    cycles table as it is.  ([updateCycleData] is not one of them: it
    overwrites the cycle it is given, open or closed.) *)
Theorem closed_cycles_never_change :
  forall (ops : list (Clock * Op)) (db : DB) (x : Cycle),
    NoDup (map cycle_id (cycles db)) ->
    In x (cycles db) ->
    cycle_isActive x = false ->
    In x (cycles (run ops db)).
Proof.
  intros ops db x Hnd Hin Hclosed.
  assert (G : forall ops s, cycle_kept x s -> cycle_kept x (run ops s)).
  { clear ops Hnd Hin. induction ops as [|[clk op] rest IH]; intros s H; [exact H|].
    apply IH. now apply step_keeps_closed_cycle. }
  apply (G ops db). now split.
Qed.

(** ** The schema along sequences of operations *)

(** X8.  Every sequence of engine operations, whether its steps return or
    throw, keeps the constraints of the schema: primary keys stay unique,
    every cycle, collection and withdrawal refers to a stored person and
    cycle, and no person has two collection rows for one date. *)
Theorem engine_keeps_schema :
  forall (ops : list (Clock * Op)) (db : DB),
    schema_ok db -> schema_ok (run ops db).
Proof.
  induction ops as [|[clk op] rest IH]; intros db H; [exact H|].
  apply IH. now apply step_keeps_schema.
Qed.

Lemma db_one_person_ledger_ok : ledger_ok db_one_person.
Proof.
  assert (E : db_one_person = run [(sample_clock, OpAddPerson sample_person)] empty_db) by (vm_compute; reflexivity).
  rewrite E. apply run_keeps_ledger_ok, empty_db_ledger_ok.
Qed.

Lemma engine_keeps_schema_witness : schema_ok (run sample_ops db_one_person).
Proof.
  apply (engine_keeps_schema sample_ops db_one_person).
  apply db_one_person_ledger_ok.
Defined.

(** ** Delta updates against the sum of the rows *)

Lemma sum_amounts_app (l1 l2 : list Collection) :
  sum_amounts (l1 ++ l2) = sum_amounts l1 + sum_amounts l2.
Proof.
  induction l1 as [|r rest IH]; simpl; [reflexivity|].
  unfold sum_amounts in *. simpl. rewrite IH.
  destruct (collection_amount r); lia.
Qed.

Lemma sum_amounts_split (Q g : Collection -> bool) (rows : list Collection) :
  sum_amounts (filter Q rows)
  = sum_amounts (filter Q (filter (fun r => negb (g r)) rows))
    + sum_amounts (filter Q (filter g rows)).
Proof.
  induction rows as [|r rest IH]; simpl; [reflexivity|].
  destruct (g r); simpl; destruct (Q r); simpl; unfold sum_amounts in *;
    simpl; try rewrite IH; try destruct (collection_amount r); lia.
Qed.

Lemma todays_rows (db : DB) (p : Z) (day : string) :
  one_row_per_day db ->
  filter (is_collection_on p day) (collections db)
  = match find (is_collection_on p day) (collections db) with
    | Some r => [r]
    | None => []
    end.
Proof.
  intros H. specialize (H p day). unfold collections_on in H.
  destruct (find (is_collection_on p day) (collections db)) as [r|] eqn:F.
  - destruct (find_head_of_filter _ _ _ F) as [more Hm]. rewrite Hm in *.
    destruct more; [reflexivity | simpl in H; lia].
  - now apply find_none_filter.
Qed.

Lemma counted_in_cycle (clk : Clock) (db : DB) (p cid : Z) :
  one_row_per_day db ->
  (forall r, find (is_collection_on p (getTodayDate clk)) (collections db) = Some r ->
             collection_cycleId r = cid) ->
  sum_amounts
    (filter (fun r => (collection_cycleId r =? cid) && is_collected r)
            (filter (is_collection_on p (getTodayDate clk)) (collections db)))
  = counted_today clk p db.
Proof.
  intros Hone Hcid. rewrite (todays_rows db p _ Hone). unfold counted_today.
  destruct (find _ (collections db)) as [r|]; [|reflexivity].
  simpl. rewrite (Hcid r eq_refl), Z.eqb_refl. simpl.
  unfold collected_amount, is_collected.
  destruct (collection_status r); simpl; try reflexivity.
  unfold sum_amounts, or_zero. simpl.
  destruct (collection_amount r) as [a|]; [|reflexivity].
  destruct (Z.eqb_spec a 0); lia.
Qed.

(** The difference between a cycle's total and the sum of its collected rows
    across [recordCollection]. *)
Lemma recordCollection_keeps_the_drift :
  forall (clk : Clock) (db : DB) (p : Z) (c : Cycle),
    person_exists db p = true ->
    getActiveCycle p db = (Return (Some c), db) ->
    one_row_per_day db ->
    (forall r, fst (getTodayCollection clk p db) = Return (Some r) ->
               collection_cycleId r = cycle_id c) ->
    forall (a : Z) (n : option string),
      exists db' c',
        recordCollection clk p a n db = (Return tt, db') /\
        getActiveCycle p db' = (Return (Some c'), db') /\
        cycle_totalAmount c' - collected_sum (cycle_id c) db'
        = cycle_totalAmount c - collected_sum (cycle_id c) db.
Proof.
  intros clk db p c Hp Hc Hone Hrow a n.
  unfold getActiveCycle, query in Hc. injection Hc as Hc.
  assert (Hrow' : forall r,
            find (is_collection_on p (getTodayDate clk)) (collections db) = Some r ->
            collection_cycleId r = cycle_id c).
  { intros r Hr. apply Hrow. unfold getTodayCollection, query. simpl.
    now rewrite Hr. }
  pose proof (counted_in_cycle clk db p (cycle_id c) Hone Hrow') as Hcount.
  pose proof (sum_amounts_split
                (fun r => (collection_cycleId r =? cycle_id c) && is_collected r)
                (is_collection_on p (getTodayDate clk)) (collections db)) as Hsplit.
  rewrite Hcount in Hsplit.
  rewrite (recordCollection_on_active clk db p a n c Hp Hc).
  eexists. eexists. split; [reflexivity|]. split.
  { unfold getActiveCycle, query. simpl.
    now rewrite (getActiveCycle_after_add (cycles db) p _ c Hc). }
  unfold collected_sum. simpl. rewrite filter_app, sum_amounts_app. simpl.
  rewrite Z.eqb_refl. simpl. unfold sum_amounts at 2. simpl.
  unfold sum_amounts in *. lia.
Qed.

(** X12.  For a person whose row of today, if any, belongs to the active
    cycle, [recordCollection] and (when the counted amount is not negative)
    [undoCollection] change the cycle's total and the sum of its collected
    rows by the same amount: the difference between the two, which holds the
    manual adjustments, stays as it is. *)
Theorem delta_updates_keep_the_drift :
  forall (clk : Clock) (db : DB) (p : Z) (c : Cycle),
    person_exists db p = true ->
    getActiveCycle p db = (Return (Some c), db) ->
    one_row_per_day db ->
    (forall r, fst (getTodayCollection clk p db) = Return (Some r) ->
               collection_cycleId r = cycle_id c) ->
    (forall (a : Z) (n : option string),
       exists db' c',
         recordCollection clk p a n db = (Return tt, db') /\
         getActiveCycle p db' = (Return (Some c'), db') /\
         cycle_totalAmount c' - collected_sum (cycle_id c) db'
         = cycle_totalAmount c - collected_sum (cycle_id c) db) /\
    (0 <= counted_today clk p db ->
     exists db' c',
       undoCollection clk p db = (Return tt, db') /\
       getActiveCycle p db' = (Return (Some c'), db') /\
       cycle_totalAmount c' - collected_sum (cycle_id c) db'
       = cycle_totalAmount c - collected_sum (cycle_id c) db).
Proof.
  intros clk db p c Hp Hc Hone Hrow.
  split; [now apply recordCollection_keeps_the_drift|].
  unfold getActiveCycle, query in Hc. injection Hc as Hc.
  assert (Hrow' : forall r,
            find (is_collection_on p (getTodayDate clk)) (collections db) = Some r ->
            collection_cycleId r = cycle_id c).
  { intros r Hr. apply Hrow. unfold getTodayCollection, query. simpl.
    now rewrite Hr. }
  pose proof (counted_in_cycle clk db p (cycle_id c) Hone Hrow') as Hcount.
  pose proof (sum_amounts_split
                (fun r => (collection_cycleId r =? cycle_id c) && is_collected r)
                (is_collection_on p (getTodayDate clk)) (collections db)) as Hsplit.
  rewrite Hcount in Hsplit.
  intros Hnn.
  rewrite (undoCollection_on_active clk db p c Hc). cbv zeta.
  destruct (Z.gtb_spec (counted_today clk p db) 0) as [Hpos|Hle].
  - eexists. eexists. split; [reflexivity|]. split.
    { unfold getActiveCycle, query. simpl.
      now rewrite (getActiveCycle_after_add (cycles db) p _ c Hc). }
    unfold collected_sum. simpl. unfold sum_amounts in *. lia.
  - eexists. eexists. split; [reflexivity|]. split.
    { unfold getActiveCycle, query. simpl. now rewrite Hc. }
    unfold collected_sum. simpl. unfold sum_amounts in *. lia.
Qed.

(** ** [ORDER BY] keeps the rows *)

Lemma insert_sorted_Permutation {A} (precedes : A -> A -> bool) (r : A)
    (rows : list A) :
  Permutation (insert_sorted precedes r rows) (r :: rows).
Proof.
  induction rows as [|x rest IH]; simpl; [reflexivity|].
  destruct (precedes r x); [reflexivity|].
  rewrite IH. apply perm_swap.
Qed.

Lemma order_by_Permutation {A} (precedes : A -> A -> bool) (rows : list A) :
  Permutation (order_by precedes rows) rows.
Proof.
  induction rows as [|x rest IH]; simpl; [reflexivity|].
  rewrite insert_sorted_Permutation. now constructor.
Qed.

Lemma order_by_In {A} (precedes : A -> A -> bool) (rows : list A) (x : A) :
  In x (order_by precedes rows) <-> In x rows.
Proof.
  split; apply Permutation_in;
    [apply order_by_Permutation | symmetry; apply order_by_Permutation].
Qed.

(** ** Soft delete *)

Lemma find_soft_deleted (id : Z) (ps : list Person) (p : Person) :
  find (fun x => person_id x =? id) ps = Some p ->
  find (fun x => person_id x =? id)
       (map (fun x => if person_id x =? id then soft_delete x else x) ps)
  = Some (soft_delete p).
Proof.
  induction ps as [|x rest IH]; simpl; [discriminate|].
  destruct (person_id x =? id) eqn:E; simpl.
  - rewrite E. now intros [= ->].
  - rewrite E. exact IH.
Qed.

(** X13.  [deletePerson] only clears the person's flag: [getAllPeople] no
    longer lists the person, [getPersonById] still returns it, the other
    people and all cycles, collections and withdrawals are untouched. *)
Theorem deletePerson_is_a_soft_delete :
  forall (db : DB) (id : Z) (p : Person),
    getPersonById id db = (Return (Some p), db) ->
    exists db',
      deletePerson id db = (Return tt, db') /\
      getPersonById id db' = (Return (Some (soft_delete p)), db') /\
      (forall listed, fst (getAllPeople db') = Return listed ->
                      forall q, In q listed -> person_id q <> id) /\
      (forall q, person_id q <> id ->
                 In q (people db') <-> In q (people db)) /\
      cycles db' = cycles db /\
      collections db' = collections db /\
      withdrawals db' = withdrawals db.
Proof.
  intros db id p Hp. unfold getPersonById, query in Hp. injection Hp as Hp.
  eexists. split; [reflexivity|]. simpl.
  split; [|split; [|split]].
  - unfold getPersonById, query. simpl. now rewrite (find_soft_deleted id _ p Hp).
  - intros listed [= <-] q Hq Hid.
    apply order_by_In in Hq. apply filter_In in Hq. destruct Hq as [Hq Hact].
    simpl in Hq. apply in_map_iff in Hq. destruct Hq as (x & Hx & Hin).
    destruct (Z.eqb_spec (person_id x) id) as [E|E]; subst q.
    + simpl in Hact. discriminate.
    + contradiction.
  - intros q Hq. rewrite in_map_iff. split.
    + intros (x & Hx & Hin).
      destruct (Z.eqb_spec (person_id x) id) as [E|E]; subst q.
      * simpl in Hq. contradiction.
      * exact Hin.
    + intros Hin. exists q. split; [|exact Hin].
      destruct (Z.eqb_spec (person_id q) id); [contradiction|reflexivity].
  - repeat split.
Qed.

(** ** Undoing twice *)

(** X14.  A second [undoCollection] on the same day returns and changes
    nothing: an amount is never subtracted twice. *)
Theorem undoCollection_twice_is_once :
  forall (clk1 clk2 : Clock) (db : DB) (p : Z),
    getTodayDate clk2 = getTodayDate clk1 ->
    undoCollection clk2 p (snd (undoCollection clk1 p db))
    = (Return tt, snd (undoCollection clk1 p db)).
Proof.
  intros clk1 clk2 db p Hday.
  assert (G : forall s : DB,
            find (is_collection_on p (getTodayDate clk1)) (collections s) = None ->
            undoCollection clk2 p s = (Return tt, s)).
  { intros s Hnone.
    unfold undoCollection, getTodayCollection, delete_collection, run_statement,
      query, bind, ret.
    rewrite Hday, Hnone. simpl.
    rewrite (find_none_filter_out _ _ Hnone). now destruct s. }
  apply G.
  assert (Hrem : forall rows : list Collection,
            find (is_collection_on p (getTodayDate clk1))
                 (filter (fun r => negb (is_collection_on p (getTodayDate clk1) r))
                         rows) = None).
  { intros rows. induction rows as [|r rest IH]; simpl; [reflexivity|].
    destruct (is_collection_on p (getTodayDate clk1) r) eqn:E; simpl;
      [exact IH|]. now rewrite E. }
  unfold undoCollection, getTodayCollection, delete_collection, getActiveCycle,
    run_statement, query, bind, ret.
  destruct (collected_amount _ >? 0); simpl; [|apply Hrem].
  destruct (find (is_active_cycle_of p) (cycles db)); simpl; apply Hrem.
Qed.

(** ** Today's row follows the active cycle *)

(** X15.  After [recordCollection] no cycle but the active one holds a row of
    that person for today: a row recorded before a withdrawal of the same day
    leaves the closed cycle, whose other rows stay. *)
Theorem recordCollection_moves_todays_row :
  forall (clk : Clock) (db : DB) (p a : Z) (n : option string) (c : Cycle)
         (other : Z) (rows : list Collection),
    person_exists db p = true ->
    getActiveCycle p db = (Return (Some c), db) ->
    other <> cycle_id c ->
    fst (getCollectionsByCycle other (snd (recordCollection clk p a n db)))
      = Return rows ->
    (forall r, In r rows -> is_collection_on p (getTodayDate clk) r = false) /\
    (forall r, In r rows <->
               In r (collections db) /\ collection_cycleId r = other /\
               is_collection_on p (getTodayDate clk) r = false).
Proof.
  intros clk db p a n c other rows Hp Hc Hother Hrows.
  unfold getActiveCycle, query in Hc. injection Hc as Hc.
  rewrite (recordCollection_on_active clk db p a n c Hp Hc) in Hrows.
  unfold getCollectionsByCycle, query in Hrows. simpl in Hrows.
  injection Hrows as <-.
  assert (G : forall r,
            In r (order_by_date_desc
                    (filter (fun r0 => collection_cycleId r0 =? other)
                       (filter (fun r0 => negb (is_collection_on p (getTodayDate clk) r0))
                               (collections db) ++
                        [mkCollection
                           (next_rowid (seq_collections db)
                                       (map collection_id (collections db)))
                           p (cycle_id c) (getTodayDate clk) (Some a) collected
                           (or_null n) (datetime_now clk)]))) <->
            In r (collections db) /\ collection_cycleId r = other /\
            is_collection_on p (getTodayDate clk) r = false).
  { intros r. rewrite order_by_date_desc_In, filter_In, in_app_iff, filter_In.
    rewrite Z.eqb_eq, negb_true_iff. simpl. split.
    - intros [[[H1 H2]|[<-|[]]] H3]; [tauto|]. simpl in H3. congruence.
    - tauto. }
  split; [|exact G]. intros r Hr. now apply G in Hr.
Qed.

(** ** The withdrawal screen *)

Lemma withdrawal_stored_changes (clk : Clock) (person : option Person)
    (cycle : option Cycle) (withdrawalType : WithdrawalType)
    (calculatedAmount : Z) (tillDate : string) (db : DB) :
  ~ withdrawal_stored clk person cycle withdrawalType calculatedAmount tillDate
                      db db.
Proof.
  intros (p & shown & current & wid & _ & _ & _ & _ & H).
  assert (G : forall w, withdrawals db <> withdrawals db ++ [w]).
  { intros w E. apply (f_equal (@List.length Withdrawal)) in E.
    rewrite length_app in E. simpl in E. lia. }
  destruct withdrawalType.
  - exact (G _ H).
  - destruct H as (_ & _ & _ & H & _). exact (G _ H).
Qed.

(** X16.  [handleConfirmWithdrawal] never throws, and the database it leaves
    is the one it found or that one after a single withdrawal that passed
    the guards: the total shown was positive, and a partial amount was
    positive, not above the total shown and not above the current total,
    which it reduced.  It reports success only when the withdrawal is stored
    and the feedback after the write (the awaited
    [Haptics.notificationAsync]) completed; when the feedback completes,
    every other result leaves the database unchanged; when it throws, a
    stored withdrawal is reported as a failure. *)
Theorem handleConfirmWithdrawal_is_guarded :
  forall (clk : Clock) (feedback : Outcome unit) (db : DB)
         (person : option Person) (cycle : option Cycle)
         (withdrawalType : WithdrawalType) (calculatedAmount : Z)
         (tillDate : string),
    exists (result : ScreenResult) (db' : DB),
      handleConfirmWithdrawal clk feedback person cycle withdrawalType
                              calculatedAmount tillDate db
        = (Return result, db') /\
      (db' = db \/
       withdrawal_stored clk person cycle withdrawalType calculatedAmount
                         tillDate db db') /\
      (result = Processed ->
       feedback = Return tt /\
       withdrawal_stored clk person cycle withdrawalType calculatedAmount
                         tillDate db db') /\
      (feedback = Return tt -> result <> Processed -> db' = db) /\
      (forall e, feedback = Throw e ->
                 withdrawal_stored clk person cycle withdrawalType
                                   calculatedAmount tillDate db db' ->
                 result = Alerted "Error" "Failed to process withdrawal").
Proof.
  intros clk feedback db person cycle withdrawalType calculatedAmount
         tillDate.
  assert (Same : forall result,
            result <> Processed ->
            (db = db \/
             withdrawal_stored clk person cycle withdrawalType calculatedAmount
                               tillDate db db) /\
            (result = Processed ->
             feedback = Return tt /\
             withdrawal_stored clk person cycle withdrawalType calculatedAmount
                               tillDate db db) /\
            (feedback = Return tt -> result <> Processed -> db = db) /\
            (forall e, feedback = Throw e ->
                       withdrawal_stored clk person cycle withdrawalType
                                         calculatedAmount tillDate db db ->
                       result = Alerted "Error" "Failed to process withdrawal")).
  { intros result Hr. split; [now left|]. split; [contradiction|].
    split; [reflexivity|].
    intros e _ H. now apply withdrawal_stored_changes in H. }
  unfold handleConfirmWithdrawal.
  destruct person as [p|];
    [|exists Ignored, db; split; [reflexivity | now apply Same]].
  destruct cycle as [shown|];
    [|exists Ignored, db; split; [reflexivity | now apply Same]].
  set (amount := match withdrawalType with
                 | full => cycle_totalAmount shown
                 | partial => calculatedAmount
                 end).
  destruct (Z.leb_spec amount 0) as [Hle|Hpos].
  { eexists. exists db. split; [reflexivity | now apply Same]. }
  destruct (Z.gtb_spec amount (cycle_totalAmount shown)) as [Hgt|Hok].
  { eexists. exists db. split; [reflexivity | now apply Same]. }
  assert (Done : forall (result : ScreenResult) (db' : DB),
            withdrawal_stored clk (Some p) (Some shown) withdrawalType
                              calculatedAmount tillDate db db' ->
            match feedback with
            | Return _ => result = Processed
            | Throw _ => result = Alerted "Error" "Failed to process withdrawal"
            end ->
            (db' = db \/
             withdrawal_stored clk (Some p) (Some shown) withdrawalType
                               calculatedAmount tillDate db db') /\
            (result = Processed ->
             feedback = Return tt /\
             withdrawal_stored clk (Some p) (Some shown) withdrawalType
                               calculatedAmount tillDate db db') /\
            (feedback = Return tt -> result <> Processed -> db' = db) /\
            (forall e, feedback = Throw e ->
                       withdrawal_stored clk (Some p) (Some shown) withdrawalType
                                         calculatedAmount tillDate db db' ->
                       result = Alerted "Error" "Failed to process withdrawal")).
  { intros result db' H Hr. split; [now right|].
    destruct feedback as [[]|e]; subst result.
    - split; [now split|]. split; [congruence|]. intros e; discriminate.
    - split; [discriminate|]. split; [discriminate|]. reflexivity. }
  unfold try_catch, bind, ret, await.
  destruct withdrawalType; subst amount.
  - unfold processWithdrawal, getActiveCycle, insert_withdrawal, closeCycle,
      createCycle, insert_cycle, run_statement, query, bind, ret, throw.
    destruct (find (is_active_cycle_of (person_id p)) (cycles db))
      as [current|] eqn:Hc;
      [|eexists; exists db; split; [reflexivity | now apply Same]].
    destruct (person_exists db (person_id p)) eqn:Hp; simpl;
      [|eexists; exists db; split; [reflexivity | now apply Same]].
    destruct (cycle_exists db (cycle_id current)); simpl;
      [|eexists; exists db; split; [reflexivity | now apply Same]].
    replace (person_exists (update_cycles _ _ _) (person_id p)) with true
      by (symmetry; exact Hp).
    simpl.
    destruct feedback as [[]|e]; eexists; eexists;
      (split; [reflexivity|]); (apply Done; [|reflexivity]);
      exists p, shown, current; eexists; repeat split; auto;
      unfold getActiveCycle, query; now rewrite Hc.
  - unfold processPartialWithdrawal, getActiveCycle, insert_withdrawal,
      run_statement, query, bind, ret, throw.
    destruct (find (is_active_cycle_of (person_id p)) (cycles db))
      as [current|] eqn:Hc;
      [|eexists; exists db; split; [reflexivity | now apply Same]].
    destruct (Z.gtb_spec calculatedAmount (cycle_totalAmount current)) as [Hg|Hl];
      [eexists; exists db; split; [reflexivity | now apply Same]|].
    destruct (person_exists db (person_id p)) eqn:Hp; simpl;
      [|eexists; exists db; split; [reflexivity | now apply Same]].
    destruct (cycle_exists db (cycle_id current)); simpl;
      [|eexists; exists db; split; [reflexivity | now apply Same]].
    destruct feedback as [[]|e]; eexists; eexists;
      (split; [reflexivity|]); (apply Done; [|reflexivity]);
      exists p, shown, current; eexists;
      repeat split; auto; try lia; unfold getActiveCycle, query;
      try (now rewrite Hc); simpl;
      now rewrite (getActiveCycle_after_add (cycles db) _ _ current Hc).
Qed.

(** ** Settings *)

(** X7.  [getSetting] after [setSetting] of the same key returns the value
    written ([null] for the empty string), other keys read as before, and the
    key is stored once. *)
Theorem setSetting_then_getSetting :
  forall (settings : SettingsTable) (key value : string),
    getSetting key (setSetting key value settings) = or_null (Some value) /\
    (forall other, other <> key ->
       getSetting other (setSetting key value settings) = getSetting other settings) /\
    List.length (filter (fun row => (fst row =? key)%string)
                        (setSetting key value settings)) = 1%nat.
Proof.
  intros settings key value. unfold getSetting, setSetting. split; [|split].
  - rewrite (find_app_last (fun row => (fst row =? key)%string) settings
               (key, Some value)) by apply String.eqb_refl.
    reflexivity.
  - intros other Hneq.
    assert (G : find (fun row => (fst row =? other)%string)
                     (filter (fun row => negb (fst row =? key)%string) settings
                      ++ [(key, Some value)])
                = find (fun row => (fst row =? other)%string) settings).
    { induction settings as [|[k v] rest IH]; simpl.
      - destruct (String.eqb_spec key other); [congruence|reflexivity].
      - destruct (String.eqb_spec k key) as [->|Hk]; simpl.
        + destruct (String.eqb_spec key other); [congruence|exact IH].
        + destruct (String.eqb_spec k other); [reflexivity|exact IH]. }
    now rewrite G.
  - rewrite (filter_replaced (fun row => (fst row =? key)%string) settings
               (key, Some value)) by apply String.eqb_refl.
    reflexivity.
Qed.

(** ** Restore does not depend on what was stored *)

(** X20.  The outcome of a restore, returned or thrown, does not depend on
    the rows stored before, only on the id counters: the old rows are deleted
    before the first insert and nothing brings them back. *)
Theorem restore_ignores_previous_rows :
  forall (clk : Clock) (data : BackupData) (db1 db2 : DB),
    backup_people data <> None ->
    seq_people db1 = seq_people db2 ->
    seq_cycles db1 = seq_cycles db2 ->
    seq_collections db1 = seq_collections db2 ->
    seq_withdrawals db1 = seq_withdrawals db2 ->
    importDatabaseFromJSON clk data db1 = importDatabaseFromJSON clk data db2.
Proof.
  intros clk data db1 db2 Hsome H1 H2 H3 H4.
  unfold importDatabaseFromJSON, try_catch.
  destruct (backup_people data) as [persons|]; [|contradiction].
  unfold delete_all_collections, delete_all_withdrawals, delete_all_cycles,
    delete_all_people, run_statement.
  unfold bind. simpl.
  now rewrite H1, H2, H3, H4.
Qed.

Lemma restore_rejects_malformed_backup :
  forall (clk : Clock) (data : BackupData) (db : DB),
    backup_people data = None ->
    importDatabaseFromJSON clk data db
    = (Throw (JsError "Failed to import backup: Invalid backup format"), db).
Proof.
  intros clk data db H. unfold importDatabaseFromJSON, try_catch. now rewrite H.
Qed.

(** ** The dashboard after a collection *)

Lemma pending_without (f : Person -> bool) (ps : list Person) (P : Person) :
  NoDup (map person_id ps) ->
  In P ps ->
  f P = true ->
  let g := fun q => f q && negb (person_id q =? person_id P) in
  List.length (filter f ps) = S (List.length (filter g ps)) /\
  fold_right (fun p acc => person_defaultAmount p + acc) 0 (filter f ps)
  = person_defaultAmount P
    + fold_right (fun p acc => person_defaultAmount p + acc) 0 (filter g ps).
Proof.
  intros Hnd Hin HP g.
  assert (Hout : forall l, ~ In (person_id P) (map person_id l) ->
                           filter g l = filter f l).
  { intros l Hl. apply filter_ext_in. intros q Hq. unfold g.
    destruct (Z.eqb_spec (person_id q) (person_id P)) as [E|E].
    - exfalso. apply Hl. rewrite <- E. now apply in_map.
    - now rewrite andb_true_r. }
  assert (HgP : g P = false) by (unfold g; now rewrite Z.eqb_refl, andb_false_r).
  induction ps as [|x rest IH]; [contradiction|].
  cbn [map] in Hnd. inversion Hnd as [|? ? Hx Hrest]; subst.
  destruct Hin as [->|Hin].
  - cbn [filter]. rewrite HP, HgP, (Hout rest Hx). cbn [List.length fold_right].
    split; reflexivity.
  - specialize (IH Hrest Hin). destruct IH as [IH1 IH2].
    assert (Hneq : person_id x <> person_id P).
    { intros E. apply Hx. rewrite E. now apply in_map. }
    assert (Hgx : g x = f x).
    { unfold g. destruct (Z.eqb_spec (person_id x) (person_id P));
        [contradiction | now rewrite andb_true_r]. }
    cbn [filter]. rewrite Hgx. destruct (f x); cbn [List.length fold_right].
    + rewrite IH1, IH2. split; [reflexivity | lia].
    + now split.
Qed.

(** X17.  Recording a collection for an active person without a row today
    moves the dashboard accordingly: today's sum grows by the amount, today's
    count by one, and the person leaves the pending count and estimate. *)
Theorem recordCollection_updates_dashboard :
  forall (strftime_Ym : string -> option string) (clk : Clock) (month : string)
         (db : DB) (P : Person) (c : Cycle) (a : Z) (n : option string),
    NoDup (map person_id (people db)) ->
    In P (people db) ->
    person_isActive P = true ->
    getActiveCycle (person_id P) db = (Return (Some c), db) ->
    getTodayCollection clk (person_id P) db = (Return None, db) ->
    exists (db' : DB) (before after : DashboardSummary),
      recordCollection clk (person_id P) a n db = (Return tt, db') /\
      getDashboardSummary strftime_Ym clk month db = (Return before, db) /\
      getDashboardSummary strftime_Ym clk month db' = (Return after, db') /\
      todayCollected after = todayCollected before + a /\
      todayCount after = todayCount before + 1 /\
      pendingCount after = pendingCount before - 1 /\
      pendingEstimate after = pendingEstimate before - person_defaultAmount P.
Proof.
  intros strftime_Ym clk month db P c a n Hnd Hin Hact Hc Hnone.
  unfold getActiveCycle, query in Hc. injection Hc as Hc.
  unfold getTodayCollection, query in Hnone. injection Hnone as Hnone.
  assert (Hp : person_exists db (person_id P) = true).
  { apply person_exists_In. now apply in_map. }
  pose proof (recordCollection_on_active clk db (person_id P) a n c Hp Hc) as R.
  rewrite (find_none_filter_out _ _ Hnone) in R.
  set (row := mkCollection
                (next_rowid (seq_collections db) (map collection_id (collections db)))
                (person_id P) (cycle_id c) (getTodayDate clk) (Some a) collected
                (or_null n) (datetime_now clk)) in R.
  set (db' := snd (recordCollection clk (person_id P) a n db)).
  assert (Hrows : collections db' = collections db ++ [row])
    by (subst db'; now rewrite R).
  assert (Hpeople : people db' = people db) by (subst db'; now rewrite R).
  exists db'.
  eexists. eexists.
  split; [subst db'; now rewrite R|].
  split; [unfold getDashboardSummary, query; reflexivity|].
  split; [unfold getDashboardSummary, query; reflexivity|].
  cbn [todayCollected todayCount pendingCount pendingEstimate].
  rewrite !or_zero_some, Hrows, Hpeople.
  rewrite filter_app, sum_amounts_app, length_app, Nat2Z.inj_add.
  cbn [filter]. unfold row.
  cbn [collection_date is_collected collection_status].
  rewrite String.eqb_refl. cbn [andb].
  split; [unfold sum_amounts; simpl; lia|].
  split; [cbn [List.length]; lia|].
  assert (Hpend : is_pending_today clk db P = true).
  { unfold is_pending_today. rewrite Hact. simpl.
    destruct (existsb _ _) eqn:E; [|reflexivity].
    apply existsb_exists in E. destruct E as (r & Hr & Hon).
    pose proof (find_none _ _ Hnone r Hr). congruence. }
  destruct (pending_without (is_pending_today clk db) (people db) P Hnd Hin Hpend)
    as [H1 H2].
  cbv zeta in H1, H2. rewrite H1, H2.
  assert (Hext : forall q, is_pending_today clk db' q
                = is_pending_today clk db q && negb (person_id q =? person_id P)).
  { intros q. unfold is_pending_today. rewrite Hrows, existsb_app. simpl.
    unfold is_collection_on at 2. simpl. rewrite String.eqb_refl.
    rewrite orb_false_r, andb_true_r, negb_orb, andb_assoc.
    now rewrite (Z.eqb_sym (person_id P)). }
  rewrite !(filter_ext _ _ Hext). split; lia.
Qed.

(** ** The dashboard list *)

Lemma status_precedes_rank (r x : PersonWithTodayStatus) :
  (status_precedes r x = true -> rank_le r x) /\
  (status_precedes r x = false -> rank_le x r).
Proof.
  unfold status_precedes, rank_le.
  destruct (Z.ltb_spec (status_rank (row_todayStatus r))
                       (status_rank (row_todayStatus x)));
    destruct (Z.eqb_spec (status_rank (row_todayStatus r))
                         (status_rank (row_todayStatus x)));
    simpl; split; intros; try discriminate; lia.
Qed.

Lemma insert_sorted_by_rank (r : PersonWithTodayStatus)
    (rows : list PersonWithTodayStatus) :
  StronglySorted rank_le rows ->
  StronglySorted rank_le (insert_sorted status_precedes r rows).
Proof.
  induction rows as [|x rest IH]; intros H; simpl.
  - repeat constructor.
  - inversion H as [|? ? Hrest Hx]; subst.
    destruct (status_precedes r x) eqn:E.
    + apply status_precedes_rank in E. constructor; [exact H|].
      constructor; [exact E|].
      eapply Forall_impl; [|exact Hx]. intros y Hy. unfold rank_le in *. lia.
    + apply status_precedes_rank in E. constructor; [now apply IH|].
      apply Forall_forall. intros y Hy.
      apply (Permutation_in _ (insert_sorted_Permutation _ _ _)) in Hy.
      destruct Hy as [<-|Hy]; [exact E|].
      rewrite Forall_forall in Hx. now apply Hx.
Qed.

Lemma order_by_rank_sorted (rows : list PersonWithTodayStatus) :
  StronglySorted rank_le (order_by status_precedes rows).
Proof.
  induction rows as [|x rest IH]; simpl; [constructor|].
  now apply insert_sorted_by_rank.
Qed.

Lemma active_cycle_rows (db : DB) (p : Z) :
  one_active_cycle db ->
  active_cycles_of db p
  = match find (is_active_cycle_of p) (cycles db) with
    | Some c => [c]
    | None => []
    end.
Proof.
  intros H. specialize (H p). unfold active_cycles_of in *.
  destruct (find (is_active_cycle_of p) (cycles db)) as [c|] eqn:F.
  - destruct (find_head_of_filter _ _ _ F) as [more Hm]. rewrite Hm in *.
    destruct more; [reflexivity | simpl in H; lia].
  - now apply find_none_filter.
Qed.

Lemma left_join_of_find {B} (found : option B) :
  left_join (match found with Some r => [r] | None => [] end) = [found].
Proof. destruct found; reflexivity. Qed.

(** X18.  With at most one row per person and date and one active cycle per
    person, [getPeopleWithTodayStatus] lists each active person exactly once,
    with today's row and the active cycle, pending before collected before
    skipped. *)
Theorem dashboard_lists_each_active_person_once :
  forall (clk : Clock) (db : DB) (rows : list PersonWithTodayStatus),
    one_row_per_day db ->
    one_active_cycle db ->
    getPeopleWithTodayStatus clk db = (Return rows, db) ->
    Permutation rows
      (map (fun p =>
              joined_row p
                (find (is_collection_on (person_id p) (getTodayDate clk))
                      (collections db))
                (find (is_active_cycle_of (person_id p)) (cycles db)))
           (filter person_isActive (people db))) /\
    StronglySorted
      (fun r x => status_rank (row_todayStatus r) <= status_rank (row_todayStatus x))
      rows.
Proof.
  intros clk db rows Hday Hone Hrows.
  unfold getPeopleWithTodayStatus, query in Hrows. injection Hrows as <-.
  split; [|apply order_by_rank_sorted].
  rewrite order_by_Permutation.
  assert (G : forall ps,
            flat_map (joined_rows clk db) ps
            = map (fun p =>
                     joined_row p
                       (find (is_collection_on (person_id p) (getTodayDate clk))
                             (collections db))
                       (find (is_active_cycle_of (person_id p)) (cycles db))) ps).
  { induction ps as [|p rest IH]; simpl; [reflexivity|].
    rewrite IH. unfold joined_rows at 1. unfold collections_on.
    rewrite (todays_rows db _ _ Hday), (active_cycle_rows db _ Hone).
    now rewrite !left_join_of_find. }
  now rewrite G.
Qed.

(** ** Sample states *)

Lemma db_collected_100_ledger_ok : ledger_ok db_collected_100.
Proof.
  assert (E : db_collected_100 = run [(sample_clock, OpAddPerson sample_person);
               (sample_clock, OpRecordCollection 1 100 None)] empty_db) by (vm_compute; reflexivity).
  rewrite E. apply run_keeps_ledger_ok, empty_db_ledger_ok.
Qed.

Lemma db_withdrawn_ledger_ok : ledger_ok db_withdrawn.
Proof.
  assert (E : db_withdrawn = run [(sample_clock, OpAddPerson sample_person);
               (sample_clock, OpRecordCollection 1 100 None);
               (sample_clock, OpProcessWithdrawal 1 None)] empty_db) by (vm_compute; reflexivity).
  rewrite E. apply run_keeps_ledger_ok, empty_db_ledger_ok.
Qed.

Lemma delta_updates_keep_the_drift_witness :
  (forall (a : Z) (n : option string),
     exists db' c',
       recordCollection sample_clock 1 a n db_collected_100 = (Return tt, db') /\
       getActiveCycle 1 db' = (Return (Some c'), db') /\
       cycle_totalAmount c' - collected_sum 1 db'
       = 100 - collected_sum 1 db_collected_100) /\
  (0 <= counted_today sample_clock 1 db_collected_100 ->
   exists db' c',
     undoCollection sample_clock 1 db_collected_100 = (Return tt, db') /\
     getActiveCycle 1 db' = (Return (Some c'), db') /\
     cycle_totalAmount c' - collected_sum 1 db'
     = 100 - collected_sum 1 db_collected_100).
Proof.
  apply (delta_updates_keep_the_drift sample_clock db_collected_100 1
           (mkCycle 1 1 "2025-01-01" None 100 true None None)).
  - reflexivity.
  - reflexivity.
  - apply db_collected_100_ledger_ok.
  - intros r [= <-]. reflexivity.
Defined.

Lemma deletePerson_is_a_soft_delete_witness :
  exists db',
    deletePerson 1 db_collected_100 = (Return tt, db') /\
    getPersonById 1 db'
      = (Return (Some (soft_delete
           (mkPerson 1 "A" None None None 200 daily None true
                     "2025-01-01 10:00:00" "2025-01-01 10:00:00"))), db') /\
    (forall listed, fst (getAllPeople db') = Return listed ->
                    forall q, In q listed -> person_id q <> 1) /\
    (forall q, person_id q <> 1 ->
               In q (people db') <-> In q (people db_collected_100)) /\
    cycles db' = cycles db_collected_100 /\
    collections db' = collections db_collected_100 /\
    withdrawals db' = withdrawals db_collected_100.
Proof.
  apply (deletePerson_is_a_soft_delete db_collected_100 1). reflexivity.
Defined.

Lemma undoCollection_twice_is_once_witness :
  undoCollection sample_clock 1 (snd (undoCollection sample_clock 1 db_collected_100))
  = (Return tt, snd (undoCollection sample_clock 1 db_collected_100)).
Proof.
  apply (undoCollection_twice_is_once sample_clock sample_clock db_collected_100 1).
  reflexivity.
Defined.

Lemma recordCollection_moves_todays_row_witness :
  (forall r, In r [] -> is_collection_on 1 (getTodayDate sample_clock) r = false) /\
  (forall r, In r [] <->
             In r (collections db_withdrawn) /\ collection_cycleId r = 1 /\
             is_collection_on 1 (getTodayDate sample_clock) r = false).
Proof.
  apply (recordCollection_moves_todays_row sample_clock db_withdrawn 1 50 None
           (mkCycle 2 1 "2025-01-01" None 0 true None None) 1 []).
  - reflexivity.
  - reflexivity.
  - discriminate.
  - reflexivity.
Defined.

Lemma restore_ignores_previous_rows_witness :
  importDatabaseFromJSON restore_clock sample_backup db_collected_100
  = importDatabaseFromJSON restore_clock sample_backup db_skipped_once.
Proof.
  apply (restore_ignores_previous_rows restore_clock sample_backup
           db_collected_100 db_skipped_once);
    [discriminate | reflexivity | reflexivity | reflexivity | reflexivity].
Defined.

Lemma recordCollection_updates_dashboard_witness :
  exists (db' : DB) (before after : DashboardSummary),
    recordCollection sample_clock 1 100 None db_one_person = (Return tt, db') /\
    getDashboardSummary (fun _ => None) sample_clock "2025-01" db_one_person
      = (Return before, db_one_person) /\
    getDashboardSummary (fun _ => None) sample_clock "2025-01" db'
      = (Return after, db') /\
    todayCollected after = todayCollected before + 100 /\
    todayCount after = todayCount before + 1 /\
    pendingCount after = pendingCount before - 1 /\
    pendingEstimate after = pendingEstimate before - 200.
Proof.
  apply (recordCollection_updates_dashboard (fun _ => None) sample_clock "2025-01"
           db_one_person
           (mkPerson 1 "A" None None None 200 daily None true
                     "2025-01-01 10:00:00" "2025-01-01 10:00:00")
           (mkCycle 1 1 "2025-01-01" None 0 true None None) 100 None).
  - apply db_one_person_ledger_ok.
  - left. reflexivity.
  - reflexivity.
  - reflexivity.
  - reflexivity.
Defined.

Lemma dashboard_lists_each_active_person_once_witness :
  Permutation
    (order_by status_precedes
       (flat_map (joined_rows sample_clock db_collected_100)
                 (filter person_isActive (people db_collected_100))))
    (map (fun p =>
            joined_row p
              (find (is_collection_on (person_id p) (getTodayDate sample_clock))
                    (collections db_collected_100))
              (find (is_active_cycle_of (person_id p)) (cycles db_collected_100)))
         (filter person_isActive (people db_collected_100))) /\
  StronglySorted
    (fun r x => status_rank (row_todayStatus r) <= status_rank (row_todayStatus x))
    (order_by status_precedes
       (flat_map (joined_rows sample_clock db_collected_100)
                 (filter person_isActive (people db_collected_100)))).
Proof.
  apply (dashboard_lists_each_active_person_once sample_clock db_collected_100).
  - apply db_collected_100_ledger_ok.
  - apply db_collected_100_ledger_ok.
  - reflexivity.
Defined.

Lemma every_person_has_one_active_cycle_witness :
  exists c,
    active_cycles_of (run sample_ops empty_db) 1 = [c] /\
    getActiveCycle 1 (run sample_ops empty_db)
      = (Return (Some c), run sample_ops empty_db) /\
    cycle_personId c = 1 /\ cycle_isActive c = true.
Proof.
  apply (every_person_has_one_active_cycle sample_ops
           (mkPerson 1 "A" None None None 200 daily None true
                     "2025-01-01 10:00:00" "2025-01-01 10:00:00")).
  vm_compute. left. reflexivity.
Defined.

Lemma closed_cycles_never_change_witness :
  In (mkCycle 1 1 "2025-01-01" (Some "2025-01-01") 100 false
              (Some "2025-01-01 10:00:00") None)
     (cycles (run sample_ops db_withdrawn)).
Proof.
  apply (closed_cycles_never_change sample_ops db_withdrawn).
  - apply db_withdrawn_ledger_ok.
  - left. reflexivity.
  - reflexivity.
Defined.

Lemma start_date_round_trip_witness :
  toStorageDate (toDisplayDate "2025-12-01") = Some "2025-12-01" /\
  option_map toDisplayDate (toStorageDate "2025-12-01") = Some "2025-12-01".
Proof. apply (start_date_round_trip "2025-12-01"). reflexivity. Defined.

Lemma stored_date_survives_adjust_screen_witness :
  start_date_to_store (toDisplayDate "2025-12-01") = Some "2025-12-01".
Proof.
  apply (stored_date_survives_adjust_screen "2" "0" "2" "5" "1" "2" "0" "1");
    reflexivity.
Defined.

(** ** Export, then restore *)

Lemma export_people_result (db : DB) (persons : list Person) :
  export_people persons db = (Return (map (export_one db) persons), db).
Proof.
  induction persons as [|p rest IH]; simpl; [reflexivity|].
  unfold bind, getActiveCycle, getWithdrawalsByPerson, getCyclesByPerson,
    getAllCollectionsForPerson, query, ret.
  now rewrite IH.
Qed.

Lemma exportDatabaseAsJSON_result (exportDate : string) (db : DB) :
  exportDatabaseAsJSON exportDate db
  = (Return (mkBackupData exportDate "1.0.0"
               (Some (map (export_one db)
                          (order_by (fun r x => String.leb (person_name r) (person_name x))
                                    (filter person_isActive (people db)))))),
     db).
Proof.
  unfold exportDatabaseAsJSON, bind, getAllPeople, query, ret.
  now rewrite export_people_result.
Qed.

Lemma import_collections_succeeds (clk : Clock) (pid cid : Z)
    (rows : list Collection) :
  forall T : DB,
    person_exists T pid = true ->
    cycle_exists T cid = true ->
    NoDup (map collection_date rows) ->
    (forall r, In r rows ->
       existsb (is_collection_on pid (collection_date r)) (collections T) = false) ->
    exists T' added,
      for_each rows (fun collection =>
        insert_collection clk pid cid (collection_date collection)
                          (Some (or_zero (collection_amount collection)))
                          (collection_status collection)
                          (or_null (collection_notes collection))) T
      = (Return tt, T') /\
      people T' = people T /\ cycles T' = cycles T /\
      withdrawals T' = withdrawals T /\
      seq_people T' = seq_people T /\ seq_cycles T' = seq_cycles T /\
      seq_withdrawals T' = seq_withdrawals T /\
      collections T' = collections T ++ added /\
      map stored_collection added = map restored_collection rows /\
      Forall (fun r => collection_personId r = pid /\ collection_cycleId r = cid)
             added.
Proof.
  induction rows as [|r rest IH]; intros T Hp Hc Hnd Hfree.
  - exists T, []. simpl. rewrite app_nil_r. repeat split; constructor.
  - simpl. unfold bind. unfold insert_collection at 1.
    rewrite Hp, Hc, (Hfree r (or_introl eq_refl)). simpl.
    inversion Hnd as [|? ? Hr Hrest]; subst.
    match goal with
    | |- context [for_each rest ?body ?T1] =>
        destruct (IH T1) as (T' & added & E & H1 & H2 & H3 & H4 & H5 & H6 & H7 & H8 & H9)
    end; auto.
    + intros x Hx. simpl. rewrite existsb_app. simpl.
      rewrite (Hfree x (or_intror Hx)). unfold is_collection_on. simpl.
      destruct (String.eqb_spec (collection_date r) (collection_date x)) as [E|E];
        [|now rewrite andb_false_r].
      exfalso. apply Hr. rewrite E. now apply in_map.
    + rewrite E. exists T'. eexists (_ :: added). split; [reflexivity|].
      simpl in *.
      split; [exact H1|]. split; [exact H2|]. split; [exact H3|].
      split; [exact H4|]. split; [exact H5|]. split; [exact H6|].
      split; [rewrite H7, <- app_assoc; reflexivity|].
      split; [simpl; now rewrite H8|].
      constructor; [split; reflexivity | exact H9].
Qed.

Lemma import_withdrawals_succeeds (clk : Clock) (pid cid : Z)
    (rows : list Withdrawal) :
  forall T : DB,
    person_exists T pid = true ->
    cycle_exists T cid = true ->
    exists T' added,
      for_each rows (fun withdrawal =>
        insert_withdrawal pid cid
                          (or_zero (Some (withdrawal_amount withdrawal)))
                          (or_default (Some (withdrawal_date withdrawal))
                                      (getTodayDate clk))
                          (or_null (withdrawal_notes withdrawal)) ;;
        ret tt) T
      = (Return tt, T') /\
      people T' = people T /\ cycles T' = cycles T /\
      collections T' = collections T /\
      seq_people T' = seq_people T /\ seq_cycles T' = seq_cycles T /\
      withdrawals T' = withdrawals T ++ added /\
      map withdrawal_amount added = map withdrawal_amount rows /\
      Forall (fun w => withdrawal_personId w = pid /\ withdrawal_cycleId w = cid)
             added.
Proof.
  induction rows as [|w rest IH]; intros T Hp Hc.
  - exists T, []. simpl. rewrite app_nil_r. repeat split; constructor.
  - cbn [for_each]. unfold bind at 1. unfold bind at 1.
    unfold insert_withdrawal at 1.
    rewrite Hp, Hc. cbn [andb]. cbv beta iota zeta. unfold ret at 1.
    cbv beta iota.
    match goal with
    | |- context [for_each rest ?body ?T1] =>
        destruct (IH T1) as (T' & added & E & H1 & H2 & H3 & H4 & H5 & H6 & H7 & H8)
    end; auto.
    rewrite E. exists T'. eexists (_ :: added). split; [reflexivity|].
    simpl in *.
    split; [exact H1|]. split; [exact H2|]. split; [exact H3|].
    split; [exact H4|]. split; [exact H5|].
    split; [rewrite H6, <- app_assoc; reflexivity|].
    split; [simpl; rewrite H7; f_equal; apply or_zero_some|].
    constructor; [split; reflexivity | exact H8].
Qed.

Lemma no_row_of_next_person (S : DB) (day : string) :
  rows_have_people S ->
  existsb (is_collection_on (next_rowid (seq_people S) (map person_id (people S)))
                            day)
          (collections S) = false.
Proof.
  intros H. destruct (existsb _ _) eqn:E; [|reflexivity].
  apply existsb_exists in E. destruct E as (r & Hr & Hon).
  unfold is_collection_on in Hon. apply andb_prop in Hon. destruct Hon as [Hid _].
  apply Z.eqb_eq in Hid. specialize (H r Hr).
  pose proof (next_rowid_fresh (seq_people S) _ _ H). lia.
Qed.

Lemma import_person_succeeds (clk : Clock) (pd : PersonData)
    (rows : list Collection) (ws : list Withdrawal) (S : DB) :
  data_collections pd = Some rows ->
  data_withdrawals pd = Some ws ->
  NoDup (map collection_date rows) ->
  all_rows_have_people S ->
  exists S' np nc addedc addedw,
    import_person clk pd S = (Return tt, S') /\
    all_rows_have_people S' /\
    people S' = people S ++ [np] /\
    ~ In (person_id np) (map person_id (people S)) /\
    restored_person (data_person pd) np /\
    cycles S' = cycles S ++ [nc] /\
    restored_cycle clk (data_activeCycle pd) nc /\
    cycle_personId nc = person_id np /\
    collections S' = collections S ++ addedc /\
    map stored_collection addedc = map restored_collection rows /\
    Forall (fun r => collection_personId r = person_id np /\
                     collection_cycleId r = cycle_id nc) addedc /\
    withdrawals S' = withdrawals S ++ addedw /\
    map withdrawal_amount addedw = map withdrawal_amount ws /\
    Forall (fun w => withdrawal_personId w = person_id np /\
                     withdrawal_cycleId w = cycle_id nc) addedw.
Proof.
  intros Hrows Hws Hnd (Hinvc & Hinv & Hinvw).
  unfold import_person. rewrite Hrows, Hws.
  unfold bind at 1. unfold insert_person at 1. cbv beta iota zeta.
  set (pid := next_rowid (seq_people S) (map person_id (people S))).
  set (np := mkPerson pid _ _ _ _ _ _ _ _ _ _).
  set (S1 := mkDB (people S ++ [np]) _ _ _ _ _ _ _).
  assert (Hp1 : person_exists S1 pid = true).
  { unfold person_exists, S1. cbn [people]. rewrite existsb_app. cbn [existsb].
    unfold np at 1. cbn [person_id]. rewrite Z.eqb_refl. apply orb_true_r. }
  unfold bind at 1. unfold insert_cycle at 1. rewrite Hp1. cbv beta iota zeta.
  set (cid := next_rowid (seq_cycles S1) (map cycle_id (cycles S1))).
  set (nc := mkCycle cid _ _ _ _ _ _ _).
  set (S2 := mkDB (people S1) (cycles S1 ++ [nc]) _ _ _ _ _ _).
  assert (Hp2 : person_exists S2 pid = true) by exact Hp1.
  assert (Hc2 : cycle_exists S2 cid = true).
  { unfold cycle_exists, S2. cbn [cycles]. rewrite existsb_app. cbn [existsb].
    unfold nc at 1. cbn [cycle_id]. rewrite Z.eqb_refl. apply orb_true_r. }
  assert (Hfree : forall r, In r rows ->
            existsb (is_collection_on pid (collection_date r)) (collections S2)
            = false).
  { intros r _. apply (no_row_of_next_person S _ Hinv). }
  destruct (import_collections_succeeds clk pid cid rows S2 Hp2 Hc2 Hnd Hfree)
    as (S3 & addedc & E3 & Hpe3 & Hcy3 & Hw3 & Hsp3 & Hsc3 & Hsw3 & Hco3 & Hk3 & Hpid3).
  unfold bind at 1. rewrite E3. cbv beta iota.
  assert (Hp3 : person_exists S3 pid = true)
    by (unfold person_exists; rewrite Hpe3; exact Hp2).
  assert (Hc3 : cycle_exists S3 cid = true)
    by (unfold cycle_exists; rewrite Hcy3; exact Hc2).
  destruct (import_withdrawals_succeeds clk pid cid ws S3 Hp3 Hc3)
    as (S4 & addedw & E4 & Hpe4 & Hcy4 & Hco4 & Hsp4 & Hsc4 & Hw4 & Hk4 & Hpid4).
  rewrite E4.
  assert (Hpeople : people S4 = people S ++ [np]) by now rewrite Hpe4, Hpe3.
  assert (Hids : map person_id (people S4) = map person_id (people S) ++ [pid])
    by (rewrite Hpeople, map_app; reflexivity).
  exists S4, np, nc, addedc, addedw.
  split; [reflexivity|].
  split.
  { split; [|split].
    - intros c Hin. rewrite Hcy4, Hcy3 in Hin. rewrite Hids.
      unfold S2, S1 in Hin. cbn [cycles] in Hin.
      apply in_or_app. apply in_app_or in Hin. destruct Hin as [Hin|[<-|[]]].
      + left. now apply Hinvc.
      + right. now left.
    - intros r Hr. rewrite Hco4, Hco3 in Hr. rewrite Hids.
      unfold S2, S1 in Hr. cbn [collections] in Hr.
      apply in_or_app. apply in_app_or in Hr. destruct Hr as [Hr|Hr].
      + left. now apply Hinv.
      + right. rewrite Forall_forall in Hpid3.
        destruct (Hpid3 r Hr) as [-> _]. now left.
    - intros w Hin. rewrite Hw4, Hw3 in Hin. rewrite Hids.
      unfold S2, S1 in Hin. cbn [withdrawals] in Hin.
      apply in_or_app. apply in_app_or in Hin. destruct Hin as [Hin|Hin].
      + left. now apply Hinvw.
      + right. rewrite Forall_forall in Hpid4.
        destruct (Hpid4 w Hin) as [-> _]. now left. }
  split; [exact Hpeople|].
  split.
  { intros Hin. pose proof (next_rowid_fresh (seq_people S) _ _ Hin) as Hlt.
    fold pid in Hlt. unfold np in Hlt. cbn [person_id] in Hlt. lia. }
  split.
  { unfold restored_person, np. cbn [person_name person_phone person_location
      person_photoPath person_defaultAmount person_frequency person_notes
      person_isActive].
    repeat split. apply or_zero_some. }
  split; [now rewrite Hcy4, Hcy3|].
  split; [repeat split|].
  split; [reflexivity|].
  split; [now rewrite Hco4, Hco3|].
  split; [exact Hk3|].
  split; [exact Hpid3|].
  split; [now rewrite Hw4, Hw3|].
  split; [exact Hk4 | exact Hpid4].
Qed.

Lemma import_people_succeeds (clk : Clock) (data : list PersonData) :
  forall (S : DB) (imported : Z),
    Forall (fun pd => exists rows ws,
              data_collections pd = Some rows /\ data_withdrawals pd = Some ws /\
              NoDup (map collection_date rows)) data ->
    all_rows_have_people S ->
    exists S',
      import_people clk data imported S
        = (Return (imported + Z.of_nat (List.length data)), S') /\
      map person_name (people S')
        = map person_name (people S)
          ++ map (fun pd => person_name (data_person pd)) data /\
      map cycle_totalAmount (cycles S')
        = map cycle_totalAmount (cycles S)
          ++ map (fun pd => or_zero (option_map cycle_totalAmount
                                       (data_activeCycle pd))) data /\
      map cycle_isActive (cycles S')
        = map cycle_isActive (cycles S) ++ map (fun _ => true) data /\
      map stored_collection (collections S')
        = map stored_collection (collections S)
          ++ flat_map (fun pd => match data_collections pd with
                                 | Some rows => map restored_collection rows
                                 | None => []
                                 end) data /\
      map withdrawal_amount (withdrawals S')
        = map withdrawal_amount (withdrawals S)
          ++ flat_map (fun pd => match data_withdrawals pd with
                                 | Some ws => map withdrawal_amount ws
                                 | None => []
                                 end) data.
Proof.
  induction data as [|pd rest IH]; intros S imported Hall Hinv.
  - exists S. simpl. rewrite !app_nil_r, Z.add_0_r. repeat split.
  - inversion Hall as [|? ? (rows & ws & Hrows & Hws & Hnd) Hrest]; subst.
    destruct (import_person_succeeds clk pd rows ws S Hrows Hws Hnd Hinv)
      as (S1 & np & nc & addedc & addedw & E & Hinv1 & Hpe & _ & Hperson & Hcy
          & Hcycle & _ & Hco & Hk & _ & Hw & Hkw & _).
    destruct Hperson as (Hname & _). destruct Hcycle as (Hact & Htot & _).
    destruct (IH S1 (imported + 1) Hrest Hinv1)
      as (S' & E' & Hn' & Ht' & Ha' & Hc' & Hw').
    exists S'. cbn [import_people]. unfold bind. rewrite E, E'.
    split; [f_equal; f_equal; cbn [List.length]; lia|].
    cbn [map flat_map]. rewrite Hrows, Hws.
    rewrite Hn', Ht', Ha', Hc', Hw', Hpe, Hcy, Hco, Hw.
    rewrite !map_app, <- !app_assoc. cbn [map app].
    now rewrite Hname, Htot, Hact, Hk, Hkw.
Qed.

(** ** Whose rows the restore writes *)

Section RowsOfAPerson.
Context {A : Type}.
Variable owner : A -> Z.

Lemma no_rows_of_unknown (rows : list A) (ids : list Z) (q : Z) :
  (forall r, In r rows -> In (owner r) ids) ->
  ~ In q ids ->
  filter (fun r => owner r =? q) rows = [].
Proof.
  intros H Hq. induction rows as [|x rest IH]; simpl; [reflexivity|].
  destruct (Z.eqb_spec (owner x) q) as [E|E].
  - exfalso. apply Hq. rewrite <- E. apply H. now left.
  - apply IH. intros r Hr. apply H. now right.
Qed.

Lemma all_rows_of (rows : list A) (q : Z) :
  Forall (fun r => owner r = q) rows ->
  filter (fun r => owner r =? q) rows = rows.
Proof.
  induction 1 as [|x rest Hx _ IH]; simpl; [reflexivity|].
  now rewrite Hx, Z.eqb_refl, IH.
Qed.

Lemma no_rows_of_other (rows : list A) (q q' : Z) :
  Forall (fun r => owner r = q') rows ->
  q <> q' ->
  filter (fun r => owner r =? q) rows = [].
Proof.
  intros H Hq. induction H as [|x rest Hx _ IH]; simpl; [reflexivity|].
  rewrite Hx. destruct (Z.eqb_spec q' q); [congruence | exact IH].
Qed.

End RowsOfAPerson.

Lemma import_people_owned (clk : Clock) (data : list PersonData) :
  forall (S : DB) (imported : Z),
    Forall (fun pd => exists rows ws,
              data_collections pd = Some rows /\ data_withdrawals pd = Some ws /\
              NoDup (map collection_date rows)) data ->
    all_rows_have_people S ->
    exists S' nps,
      import_people clk data imported S
        = (Return (imported + Z.of_nat (List.length data)), S') /\
      all_rows_have_people S' /\
      people S' = people S ++ nps /\
      Forall2 (restored_from clk S') data nps /\
      (forall np, In np nps -> ~ In (person_id np) (map person_id (people S))) /\
      NoDup (map person_id nps) /\
      (forall q, In q (map person_id (people S)) -> same_rows_of q S S').
Proof.
  induction data as [|pd rest IH]; intros S imported Hall Hinv.
  - exists S, []. simpl. rewrite app_nil_r, Z.add_0_r.
    split; [reflexivity|]. split; [exact Hinv|]. split; [reflexivity|].
    split; [constructor|]. split; [intros np []|]. split; [constructor|].
    intros q _. repeat split.
  - inversion Hall as [|? ? (rows & ws & Hrows & Hws & Hnd) Hrest]; subst.
    destruct (import_person_succeeds clk pd rows ws S Hrows Hws Hnd Hinv)
      as (S1 & np & nc & addedc & addedw & E & Hinv1 & Hpe & Hfresh & Hperson
          & Hcy & Hcycle & Hnc & Hco & Hk & Hownc & Hw & Hkw & Hownw).
    destruct (IH S1 (imported + 1) Hrest Hinv1)
      as (S' & nps & E' & Hinv' & Hpe' & Hall' & Hfresh' & Hnd' & Hframe').
    destruct Hinv as (Hinvc & Hinvr & Hinvw).
    assert (Hin1 : In (person_id np) (map person_id (people S1))).
    { rewrite Hpe, map_app. apply in_or_app. right. now left. }
    assert (Hsub : forall q, In q (map person_id (people S)) ->
                             In q (map person_id (people S1))).
    { intros q Hq. rewrite Hpe, map_app. apply in_or_app. now left. }
    exists S', (np :: nps).
    split.
    { cbn [import_people]. unfold bind. rewrite E, E'.
      f_equal. f_equal. cbn [List.length]. lia. }
    split; [exact Hinv'|].
    split; [rewrite Hpe', Hpe, <- app_assoc; reflexivity|].
    split.
    { constructor; [|exact Hall'].
      destruct (Hframe' _ Hin1) as (Fc & Fr & Fw).
      split; [exact Hperson|]. exists nc.
      assert (Gc : cycles_of S1 (person_id np) = [nc]).
      { unfold cycles_of. rewrite Hcy, filter_app.
        rewrite (no_rows_of_unknown cycle_personId (cycles S) _ _ Hinvc Hfresh).
        simpl. now rewrite Hnc, Z.eqb_refl. }
      assert (Gr : collections_of S1 (person_id np) = addedc).
      { unfold collections_of. rewrite Hco, filter_app.
        rewrite (no_rows_of_unknown collection_personId (collections S) _ _
                   Hinvr Hfresh).
        simpl. apply all_rows_of.
        eapply Forall_impl; [|exact Hownc]. now intros r [H _]. }
      assert (Gw : withdrawals_of S1 (person_id np) = addedw).
      { unfold withdrawals_of. rewrite Hw, filter_app.
        rewrite (no_rows_of_unknown withdrawal_personId (withdrawals S) _ _
                   Hinvw Hfresh).
        simpl. apply all_rows_of.
        eapply Forall_impl; [|exact Hownw]. now intros r [H _]. }
      rewrite Fc, Fr, Fw, Gc, Gr, Gw.
      unfold exported_collections, exported_withdrawals. rewrite Hrows, Hws.
      split; [reflexivity|]. split; [exact Hcycle|]. split; [exact Hk|].
      split; [eapply Forall_impl; [|exact Hownc]; now intros r [_ H]|].
      split; [exact Hkw|].
      eapply Forall_impl; [|exact Hownw]. now intros r [_ H]. }
    split.
    { intros x [<-|Hx]; [exact Hfresh|].
      intros Hq. exact (Hfresh' x Hx (Hsub _ Hq)). }
    split.
    { cbn [map]. constructor; [|exact Hnd'].
      intros Hq. apply in_map_iff in Hq. destruct Hq as (x & Hid & Hx).
      apply (Hfresh' x Hx). now rewrite Hid. }
    intros q Hq.
    destruct (Hframe' q (Hsub q Hq)) as (Fc & Fr & Fw).
    assert (Hne : q <> person_id np) by (intros ->; exact (Hfresh Hq)).
    unfold same_rows_of. rewrite Fc, Fr, Fw.
    unfold cycles_of, collections_of, withdrawals_of.
    rewrite Hcy, Hco, Hw, !filter_app.
    rewrite (no_rows_of_other collection_personId addedc q (person_id np)),
      (no_rows_of_other withdrawal_personId addedw q (person_id np)); auto.
    + simpl. rewrite Hnc.
      destruct (Z.eqb_spec (person_id np) q); [congruence|].
      now rewrite !app_nil_r.
    + eapply Forall_impl; [|exact Hownw]. now intros r [H _].
    + eapply Forall_impl; [|exact Hownc]. now intros r [H _].
Qed.

Lemma order_by_date_desc_Permutation (rows : list Collection) :
  Permutation (order_by_date_desc rows) rows.
Proof.
  induction rows as [|r rest IH]; simpl; [reflexivity|].
  transitivity (r :: order_by_date_desc rest); [|now constructor].
  generalize (order_by_date_desc rest). intros l.
  induction l as [|x l' IHl]; simpl; [reflexivity|].
  destruct (String.leb (collection_date x) (collection_date r)); [reflexivity|].
  rewrite IHl. apply perm_swap.
Qed.

Lemma dates_unique_per_person (p : Z) (rows : list Collection) :
  (forall day, (List.length (filter (is_collection_on p day) rows) <= 1)%nat) ->
  NoDup (map collection_date (filter (fun r => collection_personId r =? p) rows)).
Proof.
  induction rows as [|r rest IH]; intros H; simpl; [constructor|].
  assert (Hrest : forall day,
            (List.length (filter (is_collection_on p day) rest) <= 1)%nat).
  { intros day. specialize (H day). simpl in H.
    destruct (is_collection_on p day r); simpl in H; lia. }
  destruct (Z.eqb_spec (collection_personId r) p) as [E|E]; [|auto].
  simpl. constructor; [|auto].
  intros Hin. apply in_map_iff in Hin. destruct Hin as (r' & Hd & Hr').
  apply filter_In in Hr'. destruct Hr' as [Hr' Hp'].
  specialize (H (collection_date r)). simpl in H.
  unfold is_collection_on at 1 in H.
  rewrite E, Z.eqb_refl, String.eqb_refl in H. simpl in H.
  assert (Hin : In r' (filter (is_collection_on p (collection_date r)) rest)).
  { apply filter_In. split; [exact Hr'|]. unfold is_collection_on.
    now rewrite Hp', Hd, String.eqb_refl. }
  destruct (filter (is_collection_on p (collection_date r)) rest);
    [contradiction | simpl in H; lia].
Qed.

Lemma restored_from_export (clk : Clock) (db db' : DB) (persons nps : list Person) :
  Forall2 (restored_from clk db') (map (export_one db) persons) nps ->
  Forall2 (restored_as clk db db') persons nps.
Proof.
  revert nps. induction persons as [|p rest IH]; intros nps H;
    inversion H as [|pd np pds nps' Hhead Htail]; subst; constructor; auto.
  destruct Hhead as (Hperson & nc & Hc & Hcycle & Hrows & Hrc & Hws & Hwc).
  split; [exact Hperson|]. exists nc.
  split; [exact Hc|]. split; [exact Hcycle|]. split; [exact Hrows|].
  split; [exact Hrc|]. split; [|exact Hwc].
  rewrite Hws. apply Permutation_map. apply order_by_Permutation.
Qed.

(** X19.  A backup written by [exportDatabaseAsJSON] always restores: the
    import returns the number of active people and stores them in name
    order under new, distinct ids.  Under the id of each of them the restored
    database holds exactly one cycle, active, with the total and start date
    of the person's active cycle; the collection rows under that id are the
    person's rows (date and status as they were, a missing amount become 0)
    and the withdrawals under that id carry the person's withdrawal amounts,
    all of them attached to that one cycle.  The tables hold nothing else. *)
Theorem restore_of_export_keeps_active_people :
  forall (clk : Clock) (exportDate : string) (db db0 : DB),
    one_row_per_day db ->
    exists (persons : list Person) (data : BackupData) (db' : DB),
      getAllPeople db = (Return persons, db) /\
      exportDatabaseAsJSON exportDate db = (Return data, db) /\
      importDatabaseFromJSON clk data db0
        = (Return (Z.of_nat (List.length persons)), db') /\
      Forall2 (restored_as clk db db') persons (people db') /\
      NoDup (map person_id (people db')) /\
      all_rows_have_people db' /\
      map person_name (people db') = map person_name persons /\
      map cycle_totalAmount (cycles db')
        = map (fun p =>
                 match find (is_active_cycle_of (person_id p)) (cycles db) with
                 | Some c => cycle_totalAmount c
                 | None => 0
                 end) persons /\
      Forall (fun c => cycle_isActive c = true) (cycles db') /\
      map stored_collection (collections db')
        = flat_map (fun p =>
                      map restored_collection
                          (order_by_date_desc
                             (filter (fun r => collection_personId r =? person_id p)
                                     (collections db)))) persons /\
      Permutation
        (map withdrawal_amount (withdrawals db'))
        (flat_map (fun p =>
                     map withdrawal_amount
                         (filter (fun w => withdrawal_personId w =? person_id p)
                                 (withdrawals db))) persons).
Proof.
  intros clk exportDate db db0 Hday.
  set (persons := order_by (fun r x => String.leb (person_name r) (person_name x))
                           (filter person_isActive (people db))).
  set (S0 := mkDB [] [] [] [] (seq_people db0) (seq_cycles db0)
                  (seq_collections db0) (seq_withdrawals db0)).
  assert (Hall : Forall (fun pd => exists rows ws,
              data_collections pd = Some rows /\ data_withdrawals pd = Some ws /\
              NoDup (map collection_date rows)) (map (export_one db) persons)).
  { apply Forall_forall. intros pd Hpd. apply in_map_iff in Hpd.
    destruct Hpd as (p & <- & _). eexists. eexists.
    split; [reflexivity|]. split; [reflexivity|].
    eapply Permutation_NoDup.
    - symmetry. apply Permutation_map. apply order_by_date_desc_Permutation.
    - apply dates_unique_per_person. intros day. apply (Hday (person_id p) day). }
  assert (Hempty : all_rows_have_people S0) by (repeat split; intros ? []).
  destruct (import_people_succeeds clk (map (export_one db) persons) S0 0 Hall
              Hempty)
    as (db' & E & Hn & Ht & Ha & Hc & Hw).
  destruct (import_people_owned clk (map (export_one db) persons) S0 0 Hall
              Hempty)
    as (db'' & nps & E2 & Hown & Hpeople & Hrestored & _ & Hnd & _).
  rewrite E in E2. injection E2 as <-.
  cbn [people S0 app] in Hpeople.
  exists persons. eexists. exists db'.
  split; [reflexivity|].
  split; [apply exportDatabaseAsJSON_result|].
  split.
  { unfold importDatabaseFromJSON, try_catch. cbn [backup_people].
    unfold delete_all_collections, delete_all_withdrawals, delete_all_cycles,
      delete_all_people, run_statement.
    unfold bind at 1 2 3 4. cbn [fst snd people cycles collections withdrawals
      seq_people seq_cycles seq_collections seq_withdrawals filter].
    fold S0. fold persons. rewrite E. rewrite length_map. reflexivity. }
  split; [rewrite Hpeople; now apply restored_from_export|].
  split; [now rewrite Hpeople|].
  split; [exact Hown|].
  cbn [people cycles collections withdrawals map app S0] in Hn, Ht, Ha, Hc, Hw.
  rewrite map_map in Hn, Ht. rewrite flat_map_concat_map, map_map in Hc, Hw.
  split; [exact Hn|].
  split.
  { rewrite Ht. apply map_ext. intros p. cbn [export_one data_activeCycle].
    destruct (find _ (cycles db)); [apply or_zero_some | reflexivity]. }
  split.
  { apply Forall_forall. intros c Hin.
    assert (Hin' : In (cycle_isActive c) (map cycle_isActive (cycles db')))
      by now apply in_map.
    rewrite Ha in Hin'. apply in_map_iff in Hin'. now destruct Hin' as (? & <- & _). }
  split.
  { rewrite Hc, flat_map_concat_map. reflexivity. }
  rewrite Hw, flat_map_concat_map. cbn [export_one data_withdrawals].
  clear. induction persons as [|p rest IH]; cbn [map concat]; [reflexivity|].
  apply Permutation_app; [|exact IH].
  apply Permutation_map. apply order_by_Permutation.
Qed.

Lemma restore_of_export_keeps_active_people_witness :
  exists (persons : list Person) (data : BackupData) (db' : DB),
    getAllPeople db_withdrawn = (Return persons, db_withdrawn) /\
    exportDatabaseAsJSON "2025-01-02T10:00:00.000Z" db_withdrawn
      = (Return data, db_withdrawn) /\
    importDatabaseFromJSON restore_clock data db_one_person
      = (Return (Z.of_nat (List.length persons)), db') /\
    Forall2 (restored_as restore_clock db_withdrawn db') persons (people db') /\
    NoDup (map person_id (people db')) /\
    all_rows_have_people db' /\
    map person_name (people db') = map person_name persons /\
    map cycle_totalAmount (cycles db')
      = map (fun p =>
               match find (is_active_cycle_of (person_id p)) (cycles db_withdrawn) with
               | Some c => cycle_totalAmount c
               | None => 0
               end) persons /\
    Forall (fun c => cycle_isActive c = true) (cycles db') /\
    map stored_collection (collections db')
      = flat_map (fun p =>
                    map restored_collection
                        (order_by_date_desc
                           (filter (fun r => collection_personId r =? person_id p)
                                   (collections db_withdrawn)))) persons /\
    Permutation
      (map withdrawal_amount (withdrawals db'))
      (flat_map (fun p =>
                   map withdrawal_amount
                       (filter (fun w => withdrawal_personId w =? person_id p)
                               (withdrawals db_withdrawn))) persons).
Proof.
  apply (restore_of_export_keeps_active_people restore_clock
           "2025-01-02T10:00:00.000Z" db_withdrawn db_one_person).
  apply db_withdrawn_ledger_ok.
Defined.

(** ** Recomputing a total *)

Lemma set_same_total (c : Cycle) :
  set_total_and_start (Some (cycle_totalAmount c)) None c = c.
Proof. now destruct c. Qed.

(** X21.  On a cycle whose total equals the sum of its collected rows, the
    delta update of [recordCollection] stores what a recomputation would:
    [updateCycleTotal] afterwards changes nothing. *)
Theorem delta_update_agrees_with_recomputation :
  forall (clk : Clock) (db : DB) (p a : Z) (n : option string) (c : Cycle),
    schema_ok db ->
    person_exists db p = true ->
    getActiveCycle p db = (Return (Some c), db) ->
    (forall r, fst (getTodayCollection clk p db) = Return (Some r) ->
               collection_cycleId r = cycle_id c) ->
    cycle_totalAmount c = collected_sum (cycle_id c) db ->
    exists db',
      recordCollection clk p a n db = (Return tt, db') /\
      updateCycleTotal (cycle_id c) db' = (Return tt, db').
Proof.
  intros clk db p a n c Hs Hp Hc Hrow Hrec.
  destruct (recordCollection_keeps_the_drift clk db p c Hp Hc
              (collections_unique db Hs) Hrow a n)
    as (db' & c' & E & Hc' & Hdrift).
  exists db'. split; [exact E|].
  assert (Hs' : schema_ok db').
  { assert (K : keeps schema_ok (recordCollection clk p a n))
      by (unfold_ops; keeps_all).
    specialize (K db Hs). now rewrite E in K. }
  unfold getActiveCycle, query in Hc'. injection Hc' as Hc'.
  pose proof (find_some _ _ Hc') as [Hin' _].
  assert (Hid : cycle_id c' = cycle_id c).
  { unfold getActiveCycle, query in Hc. injection Hc as Hc.
    rewrite (recordCollection_on_active clk db p a n c Hp Hc) in E.
    injection E as <-. simpl in Hc'.
    rewrite (getActiveCycle_after_add (cycles db) p _ c Hc) in Hc'.
    now injection Hc' as <-. }
  unfold updateCycleTotal, run_statement, update_cycles. f_equal.
  assert (G : map (fun x => if cycle_id x =? cycle_id c
                            then set_total_and_start
                                   (Some (collected_sum (cycle_id c) db')) None x
                            else x) (cycles db') = cycles db').
  { rewrite <- (map_id (cycles db')) at 2. apply map_ext_in. intros x Hx.
    destruct (Z.eqb_spec (cycle_id x) (cycle_id c)) as [Ex|Ex]; [|reflexivity].
    assert (x = c') as ->.
    { apply (same_id_same_cycle db' x c' (cycle_ids_unique db' Hs') Hx Hin').
      congruence. }
    replace (collected_sum (cycle_id c) db') with (cycle_totalAmount c') by lia.
    apply set_same_total. }
  rewrite G. now destruct db'.
Qed.

Lemma delta_update_agrees_with_recomputation_witness :
  exists db',
    recordCollection sample_clock 1 150 None db_collected_100 = (Return tt, db') /\
    updateCycleTotal 1 db' = (Return tt, db').
Proof.
  apply (delta_update_agrees_with_recomputation sample_clock db_collected_100
           1 150 None (mkCycle 1 1 "2025-01-01" None 100 true None None)).
  - apply db_collected_100_ledger_ok.
  - reflexivity.
  - reflexivity.
  - intros r [= <-]. reflexivity.
  - reflexivity.
Defined.

(** ** The price of a partial withdrawal *)

Lemma sum_amounts_Permutation (l1 l2 : list Collection) :
  Permutation l1 l2 -> sum_amounts l1 = sum_amounts l2.
Proof.
  unfold sum_amounts.
  induction 1 as [|x l l' _ IH|x y l|l l' l'' _ IH1 _ IH2]; simpl.
  - reflexivity.
  - now rewrite IH.
  - destruct (collection_amount x), (collection_amount y); lia.
  - congruence.
Qed.

Lemma filter_Permutation {A} (f : A -> bool) (l1 l2 : list A) :
  Permutation l1 l2 -> Permutation (filter f l1) (filter f l2).
Proof.
  induction 1 as [|x l l' _ IH|x y l|l l' l'' _ IH1 _ IH2]; simpl.
  - constructor.
  - destruct (f x); [now constructor | exact IH].
  - destruct (f x), (f y); try reflexivity. apply perm_swap.
  - now transitivity (filter f l').
Qed.

Lemma filter_twice {A} (f g : A -> bool) (l : list A) :
  filter f (filter g l) = filter (fun x => g x && f x) l.
Proof.
  induction l as [|x rest IH]; simpl; [reflexivity|].
  destruct (g x); simpl; [destruct (f x)|]; now rewrite IH.
Qed.

(** X22.  The total [getCollectionsTotalByDate] prices a date range at is
    the sum of the collected rows [getCollectionsByDateRange] lists for the
    same range. *)
Theorem range_total_is_the_sum_of_listed_rows :
  forall (db : DB) (personId : Z) (startDate endDate : string),
    exists (listed : list Collection) (total : Z),
      getCollectionsByDateRange personId startDate endDate db = (Return listed, db) /\
      getCollectionsTotalByDate personId startDate endDate db = (Return total, db) /\
      total = sum_amounts (filter is_collected listed).
Proof.
  intros db personId startDate endDate. eexists. eexists.
  split; [reflexivity|]. split; [reflexivity|].
  rewrite or_zero_some.
  rewrite (sum_amounts_Permutation _ _
             (filter_Permutation is_collected _ _
                (order_by_date_desc_Permutation _))).
  now rewrite filter_twice.
Qed.

(** ** The date field as it is typed *)

(** X3.  [handleDateChange] keeps at most the first eight digits typed, in
    their order; the field never exceeds 10 characters, and with eight
    digits or more it reads DD-MM-YYYY. *)
Theorem handleDateChange_shape :
  forall text : string,
    (String.length (handleDateChange text) <= 10)%nat /\
    remove_non_digits (handleDateChange text)
      = substring 0 8 (remove_non_digits text) /\
    ((8 <= String.length (remove_non_digits text))%nat ->
     is_display_date (handleDateChange text) = true).
Proof.
  intros text.
  pose proof (remove_non_digits_all_digits text) as Hd.
  destruct (handleDateChange_digits _ Hd) as (Hclean & _ & Hlen & Hshape).
  assert (E : handleDateChange text = handleDateChange (remove_non_digits text)).
  { unfold handleDateChange. now rewrite remove_non_digits_idempotent. }
  rewrite E. auto.
Qed.

Lemma handleDateChange_shape_witness :
  is_display_date (handleDateChange "01/12/2025 x9") = true.
Proof.
  apply (proj2 (proj2 (handleDateChange_shape "01/12/2025 x9"))).
  vm_compute. apply Nat.leb_le. reflexivity.
Defined.

(** ** Editing a person *)

Lemma insert_sorted_map {A} (precedes : A -> A -> bool) (f : A -> A)
    (r : A) (sorted : list A) :
  (forall a b, precedes (f a) (f b) = precedes a b) ->
  insert_sorted precedes (f r) (map f sorted)
  = map f (insert_sorted precedes r sorted).
Proof.
  intros Hf. induction sorted as [|x rest IH]; simpl; [reflexivity|].
  rewrite Hf. destruct (precedes r x); simpl; [reflexivity|].
  now rewrite IH.
Qed.

Lemma order_by_map {A} (precedes : A -> A -> bool) (f : A -> A) (rows : list A) :
  (forall a b, precedes (f a) (f b) = precedes a b) ->
  order_by precedes (map f rows) = map f (order_by precedes rows).
Proof.
  intros Hf. unfold order_by. induction rows as [|x rest IH]; simpl; [reflexivity|].
  rewrite IH. now apply insert_sorted_map.
Qed.

Lemma updatePerson_keeps_has_cycle (clk : Clock) (id : Z) (u : PersonUpdates)
    (db : DB) :
  every_person_has_cycle db ->
  every_person_has_cycle (snd (updatePerson clk id u db)).
Proof.
  intros H. apply (has_cycle_kept db); [|auto|exact H].
  intros p Hin. simpl in Hin. apply in_map_iff in Hin.
  destruct Hin as (x & <- & Hx).
  destruct (person_id x =? id); simpl; now apply in_map.
Qed.

(** X23.  [updatePerson] always returns and touches the people table only:
    the ledger's invariants, the ids and creation dates and the other three
    tables are kept and a person with another id is stored as before.  Of
    the person updated, an optional field that the updates leave undefined
    keeps its value and one they give is overwritten with the string given,
    the empty string included. *)
Theorem updatePerson_keeps_the_ledger :
  forall (clk : Clock) (id : Z) (updates : PersonUpdates) (db : DB),
    ledger_ok db ->
    exists db',
      updatePerson clk id updates db = (Return tt, db') /\
      ledger_ok db' /\
      map person_id (people db') = map person_id (people db) /\
      map person_createdAt (people db') = map person_createdAt (people db) /\
      cycles db' = cycles db /\
      collections db' = collections db /\
      withdrawals db' = withdrawals db /\
      (forall (q : Z) (p : Person),
         getPersonById q db = (Return (Some p), db) ->
         exists p',
           getPersonById q db' = (Return (Some p'), db') /\
           (q <> id -> p' = p) /\
           (q = id ->
            person_phone p'
              = match updates_phone updates with
                | Some v => Some v
                | None => person_phone p
                end /\
            person_location p'
              = match updates_location updates with
                | Some v => Some v
                | None => person_location p
                end /\
            person_photoPath p'
              = match updates_photoPath updates with
                | Some v => Some v
                | None => person_photoPath p
                end /\
            person_notes p'
              = match updates_notes updates with
                | Some v => Some v
                | None => person_notes p
                end /\
            person_updatedAt p' = datetime_now clk)).
Proof.
  intros clk id updates db (Hs & Ha & Hc).
  exists (snd (updatePerson clk id updates db)).
  split; [reflexivity|].
  split.
  { split; [|split].
    - apply (schema_ok_updated_people db Hs id (apply_person_updates clk updates)).
      reflexivity.
    - exact Ha.
    - now apply updatePerson_keeps_has_cycle. }
  split.
  { simpl. rewrite map_map. apply map_ext. intros p.
    now destruct (person_id p =? id). }
  split.
  { simpl. rewrite map_map. apply map_ext. intros p.
    now destruct (person_id p =? id). }
  do 3 (split; [reflexivity|]).
  intros q p Hq. unfold getPersonById, query in *.
  injection Hq as Hq. simpl.
  rewrite (find_map_stable (fun p => person_id p =? q) _ (people db)).
  2:{ intros x. now destruct (person_id x =? id). }
  rewrite Hq. simpl.
  eexists. split; [reflexivity|].
  apply find_some in Hq. destruct Hq as [_ Hid]. apply Z.eqb_eq in Hid.
  destruct (Z.eqb_spec (person_id p) id) as [E|E].
  - split; [congruence|]. intros _. simpl. repeat split.
  - split; [reflexivity|]. congruence.
Qed.

(** X24.  A soft delete is undone by [updatePerson] with [{ isActive: true }]:
    when the rows of that id were active, deleting and reactivating leaves
    the database an update without fields leaves, which differs from the
    original in the [updated_at] of these rows only, and [getAllPeople]
    lists the same people in the same order again. *)
Theorem deletePerson_is_undone_by_updatePerson :
  forall (clk : Clock) (db : DB) (id : Z),
    (forall p, In p (people db) -> person_id p = id -> person_isActive p = true) ->
    exists db' db'',
      deletePerson id db = (Return tt, db') /\
      updatePerson clk id reactivate db' = (Return tt, db'') /\
      updatePerson clk id no_updates db = (Return tt, db'') /\
      cycles db'' = cycles db /\
      collections db'' = collections db /\
      withdrawals db'' = withdrawals db /\
      forall listed,
        getAllPeople db = (Return listed, db) ->
        getAllPeople db''
        = (Return (map (fun p => if person_id p =? id
                                 then apply_person_updates clk no_updates p
                                 else p) listed), db'').
Proof.
  intros clk db id Hactive.
  exists (snd (deletePerson id db)),
         (snd (updatePerson clk id no_updates db)).
  split; [reflexivity|].
  split.
  { unfold updatePerson, deletePerson, run_statement. simpl.
    f_equal. f_equal. rewrite map_map. apply map_ext_in. intros p Hin.
    destruct (Z.eqb_spec (person_id p) id) as [E|E]; simpl.
    - rewrite (proj2 (Z.eqb_eq _ _) E).
      unfold apply_person_updates. simpl.
      now rewrite (Hactive p Hin E).
    - destruct (Z.eqb_spec (person_id p) id); [contradiction|reflexivity]. }
  split; [reflexivity|].
  do 3 (split; [reflexivity|]).
  intros listed Hl. unfold getAllPeople, query in *. injection Hl as <-.
  simpl. f_equal. f_equal.
  rewrite filter_map_stable by (intros x; now destruct (person_id x =? id)).
  apply order_by_map.
  intros a b. now destruct (person_id a =? id), (person_id b =? id).
Qed.

(** ** Instances *)

Lemma updatePerson_keeps_the_ledger_witness :
  exists db',
    updatePerson sample_clock 1
      (mkPersonUpdates (Some "Asha") (Some "") None None (Some 200) None None None)
      db_collected_100 = (Return tt, db') /\
    ledger_ok db' /\
    cycles db' = cycles db_collected_100 /\
    exists p',
      getPersonById 1 db' = (Return (Some p'), db') /\
      person_phone p' = Some "".
Proof.
  destruct (updatePerson_keeps_the_ledger sample_clock 1
              (mkPersonUpdates (Some "Asha") (Some "") None None (Some 200)
                               None None None)
              db_collected_100 db_collected_100_ledger_ok)
    as (db' & E & Hl & _ & _ & Hc & _ & _ & Hfields).
  exists db'. split; [exact E|]. split; [exact Hl|]. split; [exact Hc|].
  destruct (Hfields 1 (mkPerson 1 "A" None None None 200 daily None true
                                "2025-01-01 10:00:00" "2025-01-01 10:00:00"))
    as (p' & Hget & _ & Hup).
  - vm_compute. reflexivity.
  - exists p'. split; [exact Hget|]. now destruct (Hup eq_refl) as [-> _].
Defined.

Lemma deletePerson_is_undone_by_updatePerson_witness :
  exists db' db'',
    deletePerson 1 db_one_person = (Return tt, db') /\
    updatePerson sample_clock 1 reactivate db' = (Return tt, db'') /\
    updatePerson sample_clock 1 no_updates db_one_person = (Return tt, db'').
Proof.
  destruct (deletePerson_is_undone_by_updatePerson sample_clock db_one_person 1)
    as (db' & db'' & E1 & E2 & E3 & _).
  - intros p Hin _. vm_compute in Hin. destruct Hin as [<-|[]]. reflexivity.
  - exists db', db''. auto.
Defined.

Lemma setSetting_then_getSetting_witness :
  getSetting "language" (setSetting "theme" "dark" [("language", Some "hi")])
  = getSetting "language" [("language", Some "hi")].
Proof.
  apply (setSetting_then_getSetting [("language", Some "hi")] "theme" "dark").
  discriminate.
Defined.

Lemma handleConfirmWithdrawal_is_guarded_witness :
  exists (db' : DB),
    handleConfirmWithdrawal sample_clock (Throw (JsError "Haptics unavailable"))
      (find (fun p => person_id p =? 1) (people db_collected_100))
      (find (is_active_cycle_of 1) (cycles db_collected_100))
      partial 40 "01-01-2025" db_collected_100
      = (Return (Alerted "Error" "Failed to process withdrawal"), db') /\
    withdrawal_stored sample_clock
      (find (fun p => person_id p =? 1) (people db_collected_100))
      (find (is_active_cycle_of 1) (cycles db_collected_100))
      partial 40 "01-01-2025" db_collected_100 db'.
Proof.
  destruct (handleConfirmWithdrawal_is_guarded sample_clock
              (Throw (JsError "Haptics unavailable")) db_collected_100
              (find (fun p => person_id p =? 1) (people db_collected_100))
              (find (is_active_cycle_of 1) (cycles db_collected_100))
              partial 40 "01-01-2025")
    as (result & db' & E & Hor & _ & _ & Hrej).
  destruct Hor as [Hsame|Hstored].
  - exfalso. subst db'. vm_compute in E. discriminate E.
  - rewrite (Hrej _ eq_refl Hstored) in E. exists db'. split; assumption.
Defined.
